(** * Food-demand forecasting: inventory expiry tracker and cashflow predictor

    A shallow embedding of [InventoryExpiryTracker.py].  The file holds two
    scripts: the inventory expiry tracker (thresholds 7 and 14 days) and,
    after the marker line, the cashflow predictor (thresholds 30 and 60
    days).  Each script is embedded in a module of its own, [Inventory] and
    [Cashflow], on top of a module [Py] with the Python values and built-ins
    both use.

    Python's [float] is IEEE 754 binary64 and is embedded as Rocq's primitive
    [float]; [int] is embedded as [Z]; [dict] with string keys as [gmap
    string]; an exception is a value of [exn] carried by [outcome].  Which
    texts [float] and [datetime.fromisoformat] read is an interface,
    [Text], as what pandas computes is an interface, [Pandas]. *)

From Stdlib Require Import ZArith Floats Ascii String List Lia.
From stdpp Require Import gmap strings list pretty.
#[local] Set Warnings "-inexact-float,-register-all".
#[local] Open Scope Z_scope.

(* ===================================================================== *)
(** * Python values and built-ins                                         *)
(* ===================================================================== *)

Module Py.

(** The values a decoded JSON document is made of. *)
Inductive pyval : Type :=
  | PNone
  | PBool (b : bool)
  | PInt (z : Z)
  | PFloat (f : float)
  | PStr (s : string)
  | PList (l : list pyval)
  | PDict (d : gmap string pyval).

(** The exception classes the two scripts can meet. *)
Inductive exn : Type :=
  | TypeError
  | ValueError
  | OverflowError
  | AttributeError
  | KeyError.

(** A computation either returns or raises. *)
Inductive outcome (A : Type) : Type :=
  | Return (a : A)
  | Raise (e : exn).
Arguments Return {A} a.
Arguments Raise {A} e.

Definition bind {A B : Type} (m : outcome A) (k : A -> outcome B) : outcome B :=
  match m with
  | Return a => k a
  | Raise e => Raise e
  end.

Notation "'let!' x ':=' m 'in' k" := (bind m (fun x => k))
  (at level 10, x pattern, m at level 100, k at level 200).

(** [try: m except (the classes of caught): h]. *)
Definition try_except {A : Type} (m : outcome A) (caught : exn -> bool)
    (h : outcome A) : outcome A :=
  match m with
  | Return a => Return a
  | Raise e => if caught e then h else Raise e
  end.

(** [except (TypeError, ValueError)] and [except (ValueError, TypeError)]. *)
Definition TypeError_or_ValueError (e : exn) : bool :=
  match e with
  | TypeError | ValueError => true
  | OverflowError | AttributeError | KeyError => false
  end.

Definition returns {A : Type} (m : outcome A) : Prop := exists a, m = Return a.

(** ** Truth value: [bool(v)], as used by [not v] and [v or w] *)

Definition truthy (v : pyval) : bool :=
  match v with
  | PNone => false
  | PBool b => b
  | PInt z => negb (z =? 0)
  | PFloat f => negb (PrimFloat.eqb f 0%float)
  | PStr s => match s with EmptyString => false | String _ _ => true end
  | PList l => match l with [] => false | _ :: _ => true end
  | PDict d => negb (Nat.eqb (size d) 0)
  end.

(** [v is None] *)
Definition is_None (v : pyval) : bool :=
  match v with
  | PNone => true
  | _ => false
  end.

(** [v or w] *)
Definition py_or (v w : pyval) : pyval := if truthy v then v else w.

(** ** Floats *)

(** The double nearest to the rational [(-1)^s * n / d] (ties to even), for
    [n >= 0] and [d > 0]: the division of [SpecFloat] on the two integers
    taken as exact operands. *)
Definition nearest_double (s : bool) (n : Z) (d : positive) : float :=
  match n with
  | Zpos p => SF2Prim (SFdiv prec emax (S754_finite s p 0) (S754_finite false d 0))
  | _ => SF2Prim (S754_zero s)
  end.

(** The double nearest to an integer (ties to even), an infinity beyond the
    largest finite double. *)
Definition float_of_Z (z : Z) : float :=
  SF2Prim (binary_normalize prec emax z 0 false).

(** [float(z)] for an [int]: the nearest double, [OverflowError] when there
    is no finite one. *)
Definition float_of_int (z : Z) : outcome float :=
  let f := float_of_Z z in
  if PrimFloat.is_infinity f then Raise OverflowError else Return f.

(** [round(x, 2)] for a [float]: the exact value of [x] is rounded to two
    decimals, ties to even, and the double nearest to that decimal is
    returned.  Infinities, NaN, zeros and integral values come back as they
    are. *)
Definition round_half_even (q d : Z) : Z :=
  let a := q / d in
  let r := q mod d in
  match (2 * r ?= d) with
  | Lt => a
  | Gt => a + 1
  | Eq => if Z.even a then a else a + 1
  end.

Definition round2 (x : float) : float :=
  match Prim2SF x with
  | S754_finite s m e =>
      if 0 <=? e then x
      else nearest_double s (round_half_even (Zpos m * 100) (2 ^ (- e))) 100
  | _ => x
  end.

(** [int(x)] for a [float]: truncation toward zero; [OverflowError] on an
    infinity and [ValueError] on NaN. *)
Definition int_of_float (x : float) : outcome Z :=
  match Prim2SF x with
  | S754_zero _ => Return 0
  | S754_infinity _ => Raise OverflowError
  | S754_nan => Raise ValueError
  | S754_finite s m e =>
      let v := if 0 <=? e then Zpos m * 2 ^ e else Zpos m / 2 ^ (- e) in
      Return (if s then - v else v)
  end.

(** [math.floor(x)]: the scripts do not call it; it is the floor that the
    description of [days_until_broke] speaks of, to compare [int] with. *)
Definition floor_of_float (x : float) : outcome Z :=
  match Prim2SF x with
  | S754_zero _ => Return 0
  | S754_infinity _ => Raise OverflowError
  | S754_nan => Raise ValueError
  | S754_finite s m e =>
      let n := if s then Zneg m else Zpos m in
      Return (if 0 <=? e then n * 2 ^ e else n / 2 ^ (- e))
  end.

(** ** Text *)

Definition code (c : ascii) : Z := Z.of_N (N_of_ascii c).

(** The white space [float] skips at both ends of an ASCII text: the codes
    9 to 13 and the blank. *)
Definition is_space (c : ascii) : bool :=
  ((9 <=? code c) && (code c <=? 13)) || (code c =? 32).

Definition digit (c : ascii) : option Z :=
  if (48 <=? code c) && (code c <=? 57) then Some (code c - 48) else None.

Definition lower (c : ascii) : ascii :=
  if (65 <=? code c) && (code c <=? 90) then ascii_of_N (N_of_ascii c + 32) else c.

Fixpoint lstrip (l : list ascii) : list ascii :=
  match l with
  | c :: l' => if is_space c then lstrip l' else l
  | [] => []
  end.

Definition strip (l : list ascii) : list ascii := rev (lstrip (rev (lstrip l))).

(** A run of decimal digits in which single underscores may separate two
    digits: the value read so far, the number of digits read, and the rest
    of the text. *)
Fixpoint digitpart (acc cnt : Z) (l : list ascii) : Z * Z * list ascii :=
  match l with
  | c :: l' =>
      match digit c with
      | Some d => digitpart (10 * acc + d) (cnt + 1) l'
      | None =>
          match l' with
          | c' :: _ =>
              if (code c =? 95) && (0 <? cnt) && bool_decide (is_Some (digit c'))
              then digitpart acc cnt l'
              else (acc, cnt, l)
          | [] => (acc, cnt, l)
          end
      end
  | [] => (acc, cnt, l)
  end.

Definition sign_prefix (l : list ascii) : bool * list ascii :=
  match l with
  | c :: l' =>
      if code c =? 45 then (true, l')
      else if code c =? 43 then (false, l')
      else (false, l)
  | [] => (false, l)
  end.

(** The exponent part [e[+-]digits] of a float literal, [0] when absent;
    [None] when it is malformed or the text does not end after it. *)
Definition exponent (l : list ascii) : option Z :=
  match l with
  | [] => Some 0
  | c :: l' =>
      if code (lower c) =? 101 then
        let '(neg, l'') := sign_prefix l' in
        match digitpart 0 0 l'' with
        | (e, cnt, []) => if 0 <? cnt then Some (if neg then - e else e) else None
        | _ => None
        end
      else None
  end.

(** The double nearest to [(-1)^s * m * 10^e], for [0 <= m < 10^d].  Beyond
    [10^400] the result is an infinity and below [10^-400] a zero, so the
    power of ten is only computed in between. *)
Definition decimal_to_float (s : bool) (m d e : Z) : float :=
  if m =? 0 then SF2Prim (S754_zero s)
  else if 400 <? e then SF2Prim (S754_infinity s)
  else if 0 <=? e then nearest_double s (m * 10 ^ e) 1
  else if d + e <? -400 then SF2Prim (S754_zero s)
  else nearest_double s m (Z.to_pos (10 ^ (- e))).

(** [float(s)] for an ASCII text: white space stripped, an optional sign,
    then [inf], [infinity] or [nan] in any case, or a decimal literal with an
    optional fraction and exponent. *)
Definition float_of_chars (l : list ascii) : option float :=
  let '(neg, body) := sign_prefix (strip l) in
  let low := string_of_list_ascii (map lower body) in
  if bool_decide (low = "inf"%string) || bool_decide (low = "infinity"%string)
  then Some (SF2Prim (S754_infinity neg))
  else if bool_decide (low = "nan"%string) then Some PrimFloat.nan
  else
    let '(ip, ni, r1) := digitpart 0 0 body in
    let '(m, nf, r2) :=
      match r1 with
      | c :: r => if code c =? 46 then digitpart ip 0 r else (ip, 0, r1)
      | [] => (ip, 0, r1)
      end in
    if ni + nf =? 0 then None
    else
      match exponent r2 with
      | Some e => Some (decimal_to_float neg m (ni + nf) (e - nf))
      | None => None
      end.

Definition read_float (s : string) : option float :=
  float_of_chars (list_ascii_of_string s).

(** A [datetime]: the proleptic Gregorian ordinal of its day
    ([date.toordinal]), the microseconds since midnight, and the UTC offset
    in microseconds of an aware value ([None] for a naive one). *)
Record datetime : Type := Datetime {
  dt_ordinal : Z;
  dt_micros : Z;
  dt_utcoffset : option Z
}.

Definition MICROS_PER_DAY : Z := 86400000000.

(** ** The readers of text

    Which texts [float] and [datetime.fromisoformat] read depends on the
    version of the interpreter (its Unicode tables, the ISO 8601 spellings
    it knows), and so does what is read from the text [str] gives for a
    value that is not a [str].  These three are taken as an interface.
    The results on the inventory tracker are stated for every implementation
    of it where their proof allows; the others, and the worked inputs, are
    about [plain_text], the readers at the end of this module.
    - [float_of_text s] is [float(s)] for a [str];
    - [fromisoformat s] is [datetime.fromisoformat(s)] for a [str];
    - [fromisoformat_repr v] is [datetime.fromisoformat(str(v))] for a value
      that is not a [str].
    [None] stands for [ValueError], the one exception each of them raises. *)
Class Text : Type := {
  float_of_text : string -> option float;
  fromisoformat : string -> option datetime;
  fromisoformat_repr : pyval -> option datetime
}.

Definition float_of_str `{Text} (s : string) : outcome float :=
  match float_of_text s with
  | Some f => Return f
  | None => Raise ValueError
  end.

(** [float(v)] *)
Definition py_float `{Text} (v : pyval) : outcome float :=
  match v with
  | PNone => Raise TypeError
  | PBool b => Return (if b then 1%float else 0%float)
  | PInt z => float_of_int z
  | PFloat f => Return f
  | PStr s => float_of_str s
  | PList _ => Raise TypeError
  | PDict _ => Raise TypeError
  end.

(** ** Dates and times: the [datetime] module *)

Definition is_leap (y : Z) : bool :=
  (y mod 4 =? 0) && (negb (y mod 100 =? 0) || (y mod 400 =? 0)).

Definition days_in_month (y m : Z) : Z :=
  if m =? 2 then (if is_leap y then 29 else 28)
  else if (m =? 4) || (m =? 6) || (m =? 9) || (m =? 11) then 30
  else 31.

Definition days_before_year (y : Z) : Z :=
  let p := y - 1 in p * 365 + p / 4 - p / 100 + p / 400.

Definition days_before_month (y m : Z) : Z :=
  fold_right Z.add 0
    (map (days_in_month y) (List.filter (fun k => k <? m) (map Z.of_nat (seq 1 12)))).

(** [date(y, m, d).toordinal()], [None] for a date that does not exist. *)
Definition ymd2ord (y m d : Z) : option Z :=
  if (1 <=? y) && (y <=? 9999) && (1 <=? m) && (m <=? 12)
     && (1 <=? d) && (d <=? days_in_month y m)
  then Some (days_before_year y + days_before_month y m + d)
  else None.

Definition two_digits (a b : ascii) : option Z :=
  match digit a, digit b with
  | Some x, Some y => Some (10 * x + y)
  | _, _ => None
  end.

Definition is_colon (c : ascii) : bool := code c =? 58.
Definition is_dash (c : ascii) : bool := code c =? 45.
Definition is_dot (c : ascii) : bool := code c =? 46.

(** Exactly [n] digits and nothing else. *)
Definition all_digits (l : list ascii) : option Z :=
  match digitpart 0 0 l with
  | (v, cnt, []) =>
      if forallb (fun c => bool_decide (is_Some (digit c))) l then Some v else None
  | _ => None
  end.

(** [HH[:MM[:SS[.fff[fff]]]]] as microseconds since midnight. *)
Definition hh_mm_ss_ff (l : list ascii) : option Z :=
  let check h m s f :=
    if (h <=? 23) && (m <=? 59) && (s <=? 59)
    then Some (((h * 60 + m) * 60 + s) * 1000000 + f) else None in
  match l with
  | [h1; h2] =>
      match two_digits h1 h2 with
      | Some h => check h 0 0 0
      | None => None
      end
  | [h1; h2; c1; m1; m2] =>
      match two_digits h1 h2, two_digits m1 m2 with
      | Some h, Some m => if is_colon c1 then check h m 0 0 else None
      | _, _ => None
      end
  | h1 :: h2 :: c1 :: m1 :: m2 :: c2 :: s1 :: s2 :: frac =>
      match two_digits h1 h2, two_digits m1 m2, two_digits s1 s2 with
      | Some h, Some m, Some s =>
          if is_colon c1 && is_colon c2 then
            match frac with
            | [] => check h m s 0
            | d :: ff =>
                if is_dot d then
                  match all_digits ff with
                  | Some f =>
                      if (Z.of_nat (length ff) =? 3)%Z then check h m s (f * 1000)
                      else if (Z.of_nat (length ff) =? 6)%Z then check h m s f
                      else None
                  | None => None
                  end
                else None
            end
          else None
      | _, _, _ => None
      end
  | _ => None
  end.

(** The text of a time up to the first [+] or [-], and the rest. *)
Fixpoint split_offset (l : list ascii) : list ascii * list ascii :=
  match l with
  | c :: l' =>
      if (code c =? 43) || (code c =? 45) then ([], l)
      else let '(a, b) := split_offset l' in (c :: a, b)
  | [] => ([], [])
  end.

(** [[+-]HH:MM[:SS[.ffffff]]] as signed microseconds. *)
Definition utc_offset (l : list ascii) : option Z :=
  match l with
  | sg :: body =>
      if (Z.of_nat (length body) =? 5)%Z || (Z.of_nat (length body) =? 8)%Z
         || (Z.of_nat (length body) =? 15)%Z then
        match hh_mm_ss_ff body with
        | Some us => Some (if is_dash sg then - us else us)
        | None => None
        end
      else None
  | [] => None
  end.

(** The format [datetime.isoformat] writes, which
    [datetime.fromisoformat] is documented to read since Python 3.7:
    [YYYY-MM-DD[*HH[:MM[:SS[.fff[fff]]]][+HH:MM[:SS[.ffffff]]]]], where [*]
    is any single character.  (From Python 3.11 on further ISO 8601
    spellings are read as well.) *)
Definition read_isoformat (s : string) : option datetime :=
  match list_ascii_of_string s with
  | y1 :: y2 :: y3 :: y4 :: c1 :: m1 :: m2 :: c2 :: d1 :: d2 :: rest =>
      match two_digits y1 y2, two_digits y3 y4, two_digits m1 m2, two_digits d1 d2 with
      | Some yh, Some yl, Some m, Some d =>
          if is_dash c1 && is_dash c2 then
            match ymd2ord (100 * yh + yl) m d with
            | Some o =>
                match rest with
                | [] => Some (Datetime o 0 None)
                | _ :: t =>
                    let '(tm, off) := split_offset t in
                    match hh_mm_ss_ff tm with
                    | Some us =>
                        match off with
                        | [] => Some (Datetime o us None)
                        | _ :: _ =>
                            match utc_offset off with
                            | Some u => Some (Datetime o us (Some u))
                            | None => None
                            end
                        end
                    | None => None
                    end
                end
            | None => None
            end
          else None
      | _, _, _, _ => None
      end
  | _ => None
  end.

(** [datetime.fromisoformat(v)] for any value: [TypeError] unless [v] is a
    [str]. *)
Definition fromisoformat_val `{Text} (v : pyval) : outcome datetime :=
  match v with
  | PStr s =>
      match fromisoformat s with
      | Some d => Return d
      | None => Raise ValueError
      end
  | _ => Raise TypeError
  end.

(** [datetime.fromisoformat(str(v))]: [str] of a [str] is the [str]
    itself. *)
Definition fromisoformat_str `{Text} (v : pyval) : outcome datetime :=
  match v with
  | PStr s =>
      match fromisoformat s with
      | Some d => Return d
      | None => Raise ValueError
      end
  | _ =>
      match fromisoformat_repr v with
      | Some d => Return d
      | None => Raise ValueError
      end
  end.

(** [(a - b)] as microseconds: two naive values are subtracted as they are,
    two aware ones after conversion to UTC, and mixing them raises
    [TypeError]. *)
Definition datetime_sub (a b : datetime) : outcome Z :=
  let wall := (dt_ordinal a - dt_ordinal b) * MICROS_PER_DAY
              + (dt_micros a - dt_micros b) in
  match dt_utcoffset a, dt_utcoffset b with
  | None, None => Return wall
  | Some oa, Some ob => Return (wall - oa + ob)
  | _, _ => Raise TypeError
  end.

(** [timedelta.days]: the quotient rounded toward minus infinity. *)
Definition timedelta_days (micros : Z) : Z := micros / MICROS_PER_DAY.

(** ** Dictionaries and iteration *)

(** [d.get(k)] and [d.get(k, dflt)] *)
Definition get (d : gmap string pyval) (k : string) : pyval :=
  default PNone (d !! k).

Definition get_default (d : gmap string pyval) (k : string) (dflt : pyval) : pyval :=
  default dflt (d !! k).

(** [k in d] *)
Definition contains (d : gmap string pyval) (k : string) : bool :=
  match d !! k with
  | Some _ => true
  | None => false
  end.

(** [d[k]] *)
Definition getitem (d : gmap string pyval) (k : string) : outcome pyval :=
  match d !! k with
  | Some v => Return v
  | None => Raise KeyError
  end.

(** A literal [{k1: v1, ...}] *)
Definition dict (l : list (string * pyval)) : pyval := PDict (list_to_map l).

(** The elements a [for] loop draws from a value: those of a list, the
    one-character strings of a [str], the keys of a [dict]; [TypeError] for
    a value that is not iterable. *)
Definition iterate (v : pyval) : outcome (list pyval) :=
  match v with
  | PList l => Return l
  | PStr s => Return (map (fun c => PStr (String c EmptyString)) (list_ascii_of_string s))
  | PDict d => Return (map (fun kv => PStr (fst kv)) (map_to_list d))
  | PNone | PBool _ | PInt _ | PFloat _ => Raise TypeError
  end.

Fixpoint mapM {A B : Type} (f : A -> outcome B) (l : list A) : outcome (list B) :=
  match l with
  | [] => Return []
  | x :: l' =>
      let! y := f x in
      let! ys := mapM f l' in
      Return (y :: ys)
  end.

(** [a / b] for two [int]s with [0 <= a] and [0 < b]: the double nearest to
    the quotient. *)
Definition int_truediv (a b : Z) : float := nearest_double false a (Z.to_pos b).

(** [sum(xs)] for floats: the elements are added left to right to the
    integer [0]. *)
Definition sum (xs : list float) : float := fold_left PrimFloat.add xs 0%float.

(** [math.isfinite(x)] and [math.isnan(x)]: the scripts do not call them;
    they name the floats that are neither an infinity nor NaN, and NaN. *)
Definition isfinite (x : float) : bool :=
  match Prim2SF x with
  | S754_zero _ | S754_finite _ _ _ => true
  | S754_infinity _ | S754_nan => false
  end.

Definition isnan (x : float) : bool :=
  match Prim2SF x with
  | S754_nan => true
  | _ => false
  end.

(** ** The readers of text for the worked inputs

    The ASCII texts [float] reads and the format [datetime.isoformat]
    writes.  The text of a value that is not a [str] (a number, a boolean, a
    list, a dict) never has that format, so nothing is read from it. *)
#[export] Instance plain_text : Text := {|
  float_of_text := read_float;
  fromisoformat := read_isoformat;
  fromisoformat_repr := fun _ => None
|}.

End Py.

(* ===================================================================== *)
(** * The inventory expiry tracker                                        *)
(* ===================================================================== *)

Module Inventory.
Import Py.

Section WithText.
Context `{Text}.

Definition CRITICAL_THRESHOLD : Z := 7.   (* days: expires this week *)
Definition WARNING_THRESHOLD : Z := 14.   (* days: expires next week *)

Definition REQUIRED_FIELDS : list string :=
  ["item_id"; "item_name"; "quantity"; "unit"; "expiry_date"]%string.

(** The texts the script builds with f-strings, each with the values it
    interpolates. *)
Inductive message : Type :=
  | NoMessage                                   (* the empty text *)
  | MissingField (index : nat) (field : string)
  | QuantityNegative (id : pyval)
  | QuantityNotNumber (id : pyval)
  | PriceNegative (id : pyval)
  | PriceNotNumber (id : pyval)
  | NoExpiryDate
  | InvalidExpiryFormat (raw : pyval)
  | InvalidCurrentDate (raw : pyval)
  | NotListOrDict
  | EmptyInventory.

(** The first required field the record lacks. *)
Definition first_missing (item : gmap string pyval) : option string :=
  find (fun field => negb (contains item field)) REQUIRED_FIELDS.

(** A numeric field must convert to a float that is not negative: [None]
    when it does, the message otherwise.  Only [TypeError] and [ValueError]
    are caught. *)
Definition check_number (item : gmap string pyval) (key : string)
    (negative not_number : message) : outcome (option message) :=
  try_except
    (let! v := getitem item key in
     let! x := py_float v in
     Return (if PrimFloat.ltb x 0%float then Some negative else None))
    TypeError_or_ValueError
    (Return (Some not_number)).

Definition validate_item (item : gmap string pyval) (index : nat)
    : outcome (bool * message) :=
  match first_missing item with
  | Some field => Return (false, MissingField index field)
  | None =>
      let! bad := check_number item "quantity"
                    (QuantityNegative (get item "item_id"))
                    (QuantityNotNumber (get item "item_id")) in
      match bad with
      | Some msg => Return (false, msg)
      | None =>
          if contains item "purchase_price" && negb (is_None (get item "purchase_price"))
          then
            let! bad := check_number item "purchase_price"
                          (PriceNegative (get item "item_id"))
                          (PriceNotNumber (get item "item_id")) in
            match bad with
            | Some msg => Return (false, msg)
            | None => Return (true, NoMessage)
            end
          else Return (true, NoMessage)
      end
  end.

Record enriched_item : Type := Enriched {
  item_id : pyval;
  item_name : pyval;
  quantity : pyval;
  unit : pyval;
  days_until_expiry : Z;
  expiry_date : pyval;
  value_at_risk : float;
  recommendation : string
}.

Record skipped_item : Type := Skipped {
  skipped_item_id : pyval;
  skipped_item_name : pyval;
  reason : message
}.

Inductive tier : Type := expired | critical | warning | ok.

(** The chain of [if]/[elif] on [days_until_expiry]. *)
Definition classify (days : Z) : tier :=
  if days <=? 0 then expired
  else if days <? CRITICAL_THRESHOLD then critical
  else if days <? WARNING_THRESHOLD then warning
  else ok.

Definition recommendation_text (t : tier) : string :=
  match t with
  | expired => "Item has EXPIRED. Remove from stock immediately and do not sell."
  | critical => "Offer 20-30% discount to clear stock immediately. Contact regular customers directly. Consider donation if unsellable."
  | warning => "Feature prominently in store. Include in meal combos or special offers. Consider freezing or further processing."
  | ok => "Monitor regularly — stock is within safe range."
  end.

(** [round(float(item.get('purchase_price') or 0) * float(item.get('quantity') or 0), 2)] *)
Definition compute_value_at_risk (item : gmap string pyval) : outcome float :=
  let! price := py_float (py_or (get item "purchase_price") (PInt 0)) in
  let! qty := py_float (py_or (get item "quantity") (PInt 0)) in
  Return (round2 (price * qty)).

(** Where one pass of the loop body appends. *)
Inductive placement : Type :=
  | Skip (s : skipped_item)
  | Classified (t : tier) (e : enriched_item).

(** A record the loop draws must be a [dict]: [validate_item] tests
    [field not in item] and the loop calls [item.get].  A value with no
    membership test (None, a number, a boolean) raises [TypeError] there; a
    [str] or a list has one, and raises [AttributeError] at [item.get]. *)
Definition as_record (item : pyval) : outcome (gmap string pyval) :=
  match item with
  | PDict d => Return d
  | PStr _ | PList _ => Raise AttributeError
  | PNone | PBool _ | PInt _ | PFloat _ => Raise TypeError
  end.

(** The body of the loop, up to the [append]. *)
Definition process_item (current_date : datetime) (index : nat) (item : pyval)
    : outcome placement :=
  let! item := as_record item in
  let! (is_valid, error_msg) := validate_item item index in
  if negb is_valid then
    Return (Skip (Skipped
      (get_default item "item_id" (PStr ("unknown_index_" ++ pretty index)))
      (get_default item "item_name" (PStr "unknown"))
      error_msg))
  else
    let expiry_date_raw := get item "expiry_date" in
    if is_None expiry_date_raw then
      let! id := getitem item "item_id" in
      let! name := getitem item "item_name" in
      Return (Skip (Skipped id name NoExpiryDate))
    else
      match fromisoformat_str expiry_date_raw with
      | Raise e =>
          if TypeError_or_ValueError e then
            let! id := getitem item "item_id" in
            let! name := getitem item "item_name" in
            Return (Skip (Skipped id name (InvalidExpiryFormat expiry_date_raw)))
          else Raise e
      | Return expiry =>
          let! delta := datetime_sub expiry current_date in
          let days := timedelta_days delta in
          let! value := compute_value_at_risk item in
          let! id := getitem item "item_id" in
          let! name := getitem item "item_name" in
          let! qty := getitem item "quantity" in
          let! unit := getitem item "unit" in
          let t := classify days in
          Return (Classified t
            (Enriched id name qty unit days expiry_date_raw value
                      (recommendation_text t)))
      end.

Record buckets : Type := Buckets {
  critical_items : list enriched_item;
  warning_items : list enriched_item;
  ok_items : list enriched_item;
  expired_items : list enriched_item;
  skipped_items : list skipped_item
}.

Definition no_items : buckets := Buckets [] [] [] [] [].

(** [bucket.append(...)] *)
Definition append (b : buckets) (p : placement) : buckets :=
  match p with
  | Skip s =>
      Buckets (critical_items b) (warning_items b) (ok_items b) (expired_items b)
              (skipped_items b ++ [s])
  | Classified expired e =>
      Buckets (critical_items b) (warning_items b) (ok_items b)
              (expired_items b ++ [e]) (skipped_items b)
  | Classified critical e =>
      Buckets (critical_items b ++ [e]) (warning_items b) (ok_items b)
              (expired_items b) (skipped_items b)
  | Classified warning e =>
      Buckets (critical_items b) (warning_items b ++ [e]) (ok_items b)
              (expired_items b) (skipped_items b)
  | Classified ok e =>
      Buckets (critical_items b) (warning_items b) (ok_items b ++ [e])
              (expired_items b) (skipped_items b)
  end.

(** [for index, item in enumerate(inventory_list)], from [index] on. *)
Fixpoint run_loop (current_date : datetime) (index : nat) (items : list pyval)
    (b : buckets) : outcome buckets :=
  match items with
  | [] => Return b
  | item :: rest =>
      let! p := process_item current_date index item in
      run_loop current_date (S index) rest (append b p)
  end.

Record summary : Type := Summary {
  summary_critical_items : nat;
  summary_warning_items : nat;
  summary_ok_items : nat;
  summary_expired_items : nat;
  summary_skipped_items : nat;
  total_value_at_risk : float;
  total_expired_value : float
}.

Inductive response : Type :=
  | Error (msg : message) (timestamp : datetime)
  | Success (s : summary) (b : buckets) (timestamp : datetime).

Definition status (r : response) : string :=
  match r with
  | Error _ _ => "error"
  | Success _ _ _ => "success"
  end.

Definition summarise (b : buckets) : summary :=
  Summary (length (critical_items b)) (length (warning_items b))
          (length (ok_items b)) (length (expired_items b))
          (length (skipped_items b))
          (round2 (sum (map value_at_risk (critical_items b ++ warning_items b))))
          (round2 (sum (map value_at_risk (expired_items b)))).

(** The first lines of [check_inventory_expiry]: the record sequence and the
    reference date, or the error result.  [now] is the reading of the clock
    ([datetime.now()], a naive value); each path reads it once.  The call of
    [fromisoformat] raises [ValueError] or [TypeError] only, and both are
    caught. *)
Definition read_input (now : datetime) (inventory_data : pyval)
    : response + (pyval * datetime) :=
  match inventory_data with
  | PList l => inr (PList l, now)
  | PDict d =>
      let inventory_list := get_default d "inventory" (PList []) in
      match d !! "current_date" with
      | Some raw =>
          match fromisoformat_val raw with
          | Return current_date => inr (inventory_list, current_date)
          | Raise _ => inl (Error (InvalidCurrentDate raw) now)
          end
      | None => inr (inventory_list, now)
      end
  | _ => inl (Error NotListOrDict now)
  end.

Definition check_inventory_expiry (now : datetime) (inventory_data : pyval)
    : outcome response :=
  match read_input now inventory_data with
  | inl err => Return err
  | inr (inventory_list, current_date) =>
      if negb (truthy inventory_list) then
        Return (Error EmptyInventory current_date)
      else
        let! items := iterate inventory_list in
        let! b := run_loop current_date 0 items no_items in
        Return (Success (summarise b) b current_date)
  end.

End WithText.

End Inventory.

(* ===================================================================== *)
(** * The cashflow predictor                                              *)
(* ===================================================================== *)

Module Cashflow.
Import Py.

(* Risk thresholds (days until broke) *)
Definition CRITICAL_THRESHOLD : Z := 30.
Definition WARNING_THRESHOLD : Z := 60.

(* Confidence score weights *)
Definition MIN_DAYS_FOR_FULL_CONFIDENCE : Z := 90.
Definition MID_DAYS_FOR_MEDIUM_CONFIDENCE : Z := 60.
Definition MIN_DAYS_FOR_LOW_CONFIDENCE : Z := 30.

Definition MIN_TRANSACTIONS_PER_DAY : Z := 5.

Definition NANOS_PER_DAY : Z := 86400000000000.

(** What the script asks of pandas and NumPy.  These are library calls, so
    they are taken as an interface and the results below hold for every
    implementation of it.
    - [to_datetime col] is [pd.to_datetime] on a column: the timestamps in
      nanoseconds since the epoch, [None] for [NaT]; it raises when a value
      does not parse;
    - [series_mean col] is [Series.mean()] on a column that is not empty;
    - [scalar_round2 x] is [round(x, 2)] on a NumPy float. *)
Class Pandas : Type := {
  to_datetime : list pyval -> outcome (list (option Z));
  series_mean : list pyval -> outcome float;
  scalar_round2 : float -> float
}.

Record recommendation : Type := Recommendation {
  priority : Z;
  action : string
}.

Record prediction : Type := Prediction {
  risk_level : string;
  days_until_broke : option Z;
  avg_daily_income : float;
  avg_daily_expense : float;
  burn_rate : float;
  confidence_score : float;
  recommendations : list recommendation;
  created_at : datetime
}.

(** ** Recommendation engine *)

Definition recommendations_map : gmap string (list recommendation) :=
  <[ "critical" := [
       Recommendation 1 "Reduce non-essential expenses immediately";
       Recommendation 2 "Follow up on all pending payments";
       Recommendation 3 "Consider short-term financing options" ] ]>
  (<[ "warning" := [
       Recommendation 1 "Review and cut discretionary spending";
       Recommendation 2 "Speed up collection of receivables";
       Recommendation 3 "Identify and plan new revenue sources" ] ]>
  (<[ "ok" := [
       Recommendation 1 "Monitor cashflow on a weekly basis";
       Recommendation 2 "Build an emergency cash reserve" ] ]>
  (<[ "stable" := [
       Recommendation 1 "Maintain current financial discipline";
       Recommendation 2 "Consider reinvesting surplus into inventory" ] ]>
  ∅)))%string.

(* Fallback in case an unexpected risk level is passed *)
Definition fallback_recommendations : list recommendation :=
  [ Recommendation 1 "Review your transaction data for accuracy" ].

Definition generate_recommendations (risk_level : string) : list recommendation :=
  default fallback_recommendations (recommendations_map !! risk_level).

(** ** Confidence score *)

(** [Series.max()] and [Series.min()]: [NaT] is skipped, and the result is
    [NaT] when nothing is left. *)
Definition series_max (ts : list (option Z)) : option Z :=
  match omap id ts with
  | [] => None
  | t :: rest => Some (fold_left Z.max rest t)
  end.

Definition series_min (ts : list (option Z)) : option Z :=
  match omap id ts with
  | [] => None
  | t :: rest => Some (fold_left Z.min rest t)
  end.

(** [(df['date'].max() - df['date'].min()).days + 1], [None] when the
    difference is [NaT]. *)
Definition days_of_data (ts : list (option Z)) : option Z :=
  match series_max ts, series_min ts with
  | Some hi, Some lo => Some ((hi - lo) / NANOS_PER_DAY + 1)
  | _, _ => None
  end.

(** The score for the days of history.  Every comparison with the NaN that
    [NaT] gives is false. *)
Definition days_score (days : option Z) : float :=
  match days with
  | Some d =>
      if MIN_DAYS_FOR_FULL_CONFIDENCE <=? d then 1.0%float
      else if MID_DAYS_FOR_MEDIUM_CONFIDENCE <=? d then 0.85%float
      else if MIN_DAYS_FOR_LOW_CONFIDENCE <=? d then 0.70%float
      else 0.50%float
  | None => 0.50%float
  end.

(** [len(df) / days_of_data] *)
Definition transactions_per_day (n : nat) (days : option Z) : float :=
  match days with
  | Some d => int_truediv (Z.of_nat n) d
  | None => PrimFloat.nan
  end.

Definition density_score (n : nat) (days : option Z) : float :=
  if PrimFloat.leb (float_of_Z MIN_TRANSACTIONS_PER_DAY) (transactions_per_day n days)
  then 1.0%float else 0.70%float.

Section WithPandas.
Context `{Pandas}.

(** [dates] is the column [df['date']]; [len(df)] is its length. *)
Definition calculate_confidence (dates : list pyval) : outcome float :=
  let! ts := to_datetime dates in
  let days := days_of_data ts in
  Return (round2 (days_score days * density_score (length dates) days)).

(** ** Main prediction function *)

Definition required_fields : list string := ["date"; "type"; "amount"]%string.

(** [required_fields - set(t.keys())] *)
Definition missing_fields (t : gmap string pyval) : list string :=
  List.filter (fun field => negb (contains t field)) required_fields.

(** [t.keys()] needs a [dict]. *)
Definition keys_of (t : pyval) : outcome (gmap string pyval) :=
  match t with
  | PDict d => Return d
  | _ => Raise AttributeError
  end.

(** The loop over [enumerate(transactions)] that looks for missing fields;
    it returns the rows the data frame is built from. *)
Fixpoint check_required_fields (transactions : list pyval)
    : outcome (list (gmap string pyval)) :=
  match transactions with
  | [] => Return []
  | t :: rest =>
      let! d := keys_of t in
      match missing_fields d with
      | _ :: _ => Raise ValueError
      | [] =>
          let! ds := check_required_fields rest in
          Return (d :: ds)
      end
  end.

(** [isinstance(current_balance, (int, float))]; [bool] is a subclass of
    [int]. *)
Definition is_number (v : pyval) : bool :=
  match v with
  | PBool _ | PInt _ | PFloat _ => true
  | _ => false
  end.

Definition column (df : list (gmap string pyval)) (name : string) : list pyval :=
  map (fun row => get row name) df.

Definition type_is (ty : string) (row : gmap string pyval) : bool :=
  match get row "type" with
  | PStr s => bool_decide (s = ty)
  | _ => false
  end.

(** [df[~df["type"].isin(valid_types)]] *)
Definition invalid_rows (df : list (gmap string pyval)) : list (gmap string pyval) :=
  List.filter (fun row => negb (type_is "income" row || type_is "expense" row)) df.

(** [part["amount"].mean() if not part.empty else 0.0], and its rounding
    for the result: the mean is a NumPy float, the constant a Python one. *)
Definition average (part : list (gmap string pyval)) : outcome float :=
  match part with
  | [] => Return 0.0%float
  | _ :: _ => series_mean (column part "amount")
  end.

Definition round_average (part : list (gmap string pyval)) (avg : float) : float :=
  match part with
  | [] => round2 avg
  | _ :: _ => scalar_round2 avg
  end.

(** The risk classification: the level and [days_until_broke].  The call
    of [float] is the conversion in [current_balance / burn_rate]; the
    balance has passed the check for a number, so no text is read. *)
Definition classify_risk (current_balance : pyval) (burn : float)
    : outcome (string * option Z) :=
  if PrimFloat.leb burn 0%float then
    (* Business is making money or breaking even *)
    Return ("stable"%string, None)
  else
    let! balance := py_float current_balance in
    let! days := int_of_float (balance / burn) in
    if days <=? CRITICAL_THRESHOLD then Return ("critical"%string, Some days)
    else if days <=? WARNING_THRESHOLD then Return ("warning"%string, Some days)
    else Return ("ok"%string, Some days).

(** [now] is the reading of the clock for [created_at]. *)
Definition predict_cashflow_risk (now : datetime) (transactions : list pyval)
    (current_balance : pyval) : outcome prediction :=
  (* Input validation *)
  match transactions with
  | [] => Raise ValueError
  | _ :: _ =>
      if negb (is_number current_balance) then Raise TypeError
      else
        let! df := check_required_fields transactions in
        match invalid_rows df with
        | _ :: _ => Raise ValueError
        | [] =>
            (* Core calculations *)
            let! confidence := calculate_confidence (column df "date") in
            let income_df := List.filter (type_is "income") df in
            let expense_df := List.filter (type_is "expense") df in
            let! avg_income := average income_df in
            let! avg_expense := average expense_df in
            let burn := (avg_expense - avg_income)%float in
            (* Risk classification *)
            let! (level, days) := classify_risk current_balance burn in
            (* Build result *)
            Return (Prediction level days
                      (round_average income_df avg_income)
                      (round_average expense_df avg_expense)
                      (scalar_round2 burn)
                      confidence
                      (generate_recommendations level)
                      now)
        end
  end.

End WithPandas.

(** An implementation of the interface, to run the predictor on examples:
    ISO dates, a mean that adds the amounts left to right, and Python's own
    rounding. *)
Definition timestamp_of (v : pyval) : outcome (option Z) :=
  match v with
  | PNone => Return None
  | _ =>
      let! d := fromisoformat_str v in
      Return (Some ((dt_ordinal d * MICROS_PER_DAY + dt_micros d
                     - default 0 (dt_utcoffset d)) * 1000))
  end.

Definition plain_mean (col : list pyval) : outcome float :=
  let! xs := mapM py_float col in
  let! n := float_of_int (Z.of_nat (length xs)) in
  Return (sum xs / n)%float.

Definition plain_pandas : Pandas := {|
  to_datetime := mapM timestamp_of;
  series_mean := plain_mean;
  scalar_round2 := round2
|}.

End Cashflow.

(* ===================================================================== *)
(** * Vocabulary for the properties of the inventory expiry tracker       *)
(* ===================================================================== *)

Module InventorySpec.
Import Py Inventory.
#[local] Open Scope string_scope.

Section WithText.
Context `{Text}.

(** The list of a tier. *)
Definition bucket (t : tier) (b : buckets) : list enriched_item :=
  match t with
  | expired => expired_items b
  | critical => critical_items b
  | warning => warning_items b
  | ok => ok_items b
  end.

(** What one pass of the loop returns is in the list it names. *)
Definition placed (p : placement) (b : buckets) : Prop :=
  match p with
  | Skip s => In s (skipped_items b)
  | Classified t e => In e (bucket t b)
  end.

(** The number of entries in the five lists. *)
Definition total (b : buckets) : nat :=
  (length (expired_items b) + length (critical_items b) + length (warning_items b)
   + length (ok_items b) + length (skipped_items b))%nat.

(** The purchase price of a record that has one: the key is present and its
    value is not [None]. *)
Definition price_of (item : gmap string pyval) : option pyval :=
  match item !! "purchase_price" with
  | Some PNone | None => None
  | Some v => Some v
  end.

(** [e] is the entry the loop builds for [item] against [current_date]. *)
Definition enriches (current_date : datetime) (item : gmap string pyval)
    (e : enriched_item) : Prop :=
  exists expiry delta price qty,
    fromisoformat_str (get item "expiry_date") = Return expiry
    /\ datetime_sub expiry current_date = Return delta
    /\ py_float (py_or (get item "purchase_price") (PInt 0)) = Return price
    /\ py_float (py_or (get item "quantity") (PInt 0)) = Return qty
    /\ (price_of item = None -> price = 0%float)
    /\ e = Enriched (get item "item_id") (get item "item_name")
                    (get item "quantity") (get item "unit")
                    (timedelta_days delta) (get item "expiry_date")
                    (round2 (price * qty))
                    (recommendation_text (classify (timedelta_days delta))).

(** The whole days from the reference date to the expiry date, rounded
    toward minus infinity, and the difference of the two calendar days. *)
Definition elapsed_days (expiry current_date : datetime) : Z :=
  ((dt_ordinal expiry - dt_ordinal current_date) * MICROS_PER_DAY
   + (dt_micros expiry - dt_micros current_date)) / MICROS_PER_DAY.

Definition calendar_days (expiry current_date : datetime) : Z :=
  dt_ordinal expiry - dt_ordinal current_date.

(** ** The top-level input *)

Definition not_list_or_dict (v : pyval) : bool :=
  match v with
  | PList _ | PDict _ => false
  | _ => true
  end.

(** An explicit [current_date] that [fromisoformat] refuses. *)
Definition bad_reference_date (v : pyval) : bool :=
  match v with
  | PDict d =>
      match d !! "current_date" with
      | Some raw =>
          match fromisoformat_val raw with
          | Return _ => false
          | Raise _ => true
          end
      | None => false
      end
  | _ => false
  end.

(** The record sequence: the list itself, or what is under ['inventory']. *)
Definition record_sequence (v : pyval) : pyval :=
  match v with
  | PList l => PList l
  | PDict d => get_default d "inventory" (PList [])
  | _ => PNone
  end.

(** The reference date: the explicit [current_date], else the clock. *)
Definition reference_date (now : datetime) (v : pyval) : datetime :=
  match v with
  | PDict d =>
      match d !! "current_date" with
      | Some raw =>
          match fromisoformat_val raw with
          | Return current_date => current_date
          | Raise _ => now
          end
      | None => now
      end
  | _ => now
  end.

(** A record sequence that is empty (or absent, or any value that counts as
    false). *)
Definition empty_sequence (v : pyval) : bool :=
  negb (not_list_or_dict v) && negb (truthy (record_sequence v)).

(** The three fatal shapes of the top-level input. *)
Definition fatal (v : pyval) : bool :=
  not_list_or_dict v || bad_reference_date v || empty_sequence v.

(** The records the loop runs over. *)
Definition input_records (inventory_data : pyval) : outcome (list pyval) :=
  iterate (record_sequence inventory_data).

(** ** Records the loop body handles without raising *)

(** [float(v)] raises [OverflowError]: [v] is an integer beyond the largest
    double. *)
Definition overflows (v : pyval) : bool :=
  match py_float v with
  | Raise OverflowError => true
  | _ => false
  end.

(** The expiry date parses and one of it and the reference date has a UTC
    offset while the other has none. *)
Definition mixes_offsets (current_date : datetime) (v : pyval) : bool :=
  match fromisoformat_str v with
  | Return expiry =>
      match datetime_sub expiry current_date with
      | Return _ => false
      | Raise _ => true
      end
  | Raise _ => false
  end.

(** A dict whose quantity and purchase price do not overflow a float and
    whose expiry date can be subtracted from the reference date. *)
Definition well_formed_record (current_date : datetime) (it : pyval) : bool :=
  match it with
  | PDict item =>
      negb (overflows (get item "quantity"))
      && negb (overflows (get item "purchase_price"))
      && negb (mixes_offsets current_date (get item "expiry_date"))
  | _ => false
  end.

(** ** Worked inputs *)

(** [{item_id: "A1", item_name: "Milk", quantity: qty, unit: "L",
      expiry_date: expiry, purchase_price: price}] *)
Definition milk (qty price : pyval) (expiry : string) : gmap string pyval :=
  list_to_map [("item_id", PStr "A1"); ("item_name", PStr "Milk");
               ("quantity", qty); ("unit", PStr "L");
               ("expiry_date", PStr expiry); ("purchase_price", price)].

(** [{inventory: records, current_date: ref}] *)
Definition dated (records : list pyval) (ref : string) : gmap string pyval :=
  list_to_map [("inventory", PList records); ("current_date", PStr ref)].

(** Noon on 2025-01-01, a reading of the clock. *)
Definition noon : datetime := Datetime 739252 43200000000 None.

(** Three records, the last of them without a name. *)
Definition three_records : list pyval :=
  [PDict (milk (PInt 10) (PInt 2) "2025-01-08");
   PDict (milk (PInt 1) PNone "2024-12-25");
   PDict (delete "item_name" (milk (PInt 3) (PInt 5) "2025-06-01"))].

(** Prices 0.1 and 0.2, one unit each, both due in three days. *)
Definition two_critical : list pyval :=
  [PDict (milk (PInt 1) (PFloat 0.1) "2025-01-04");
   PDict (milk (PInt 1) (PFloat 0.2) "2025-01-04")].

(** A quantity that is an integer beyond the largest double. *)
Definition huge_quantity : pyval :=
  PDict (milk (PInt (10 ^ 400)) (PInt 2) "2025-01-08").

(** An expiry date with a UTC offset. *)
Definition offset_expiry : pyval :=
  PDict (milk (PInt 10) (PInt 2) "2025-01-08T00:00:00+00:00").

(** ** Tiers, entries and keys *)

(** The tiers from the mildest to the most severe. *)
Definition severity (t : tier) : Z :=
  match t with
  | ok => 0
  | warning => 1
  | critical => 2
  | expired => 3
  end.

(** The days a tier stands for. *)
Definition in_range (t : tier) (days : Z) : Prop :=
  match t with
  | expired => days <= 0
  | critical => 0 < days < 7
  | warning => 7 <= days < 14
  | ok => 14 <= days
  end.

Definition tier_eqb (t u : tier) : bool :=
  match t, u with
  | expired, expired | critical, critical | warning, warning | ok, ok => true
  | _, _ => false
  end.

(** The entries of a tier, and the skipped ones, among what the passes of
    the loop return, in their order. *)
Definition entries (t : tier) (ps : list placement) : list enriched_item :=
  omap (fun p => match p with
                 | Classified u e => if tier_eqb t u then Some e else None
                 | Skip _ => None
                 end) ps.

Definition skips (ps : list placement) : list skipped_item :=
  omap (fun p => match p with
                 | Skip s => Some s
                 | Classified _ _ => None
                 end) ps.

(** The keys of a record the tracker reads. *)
Definition RECORD_KEYS : list string := REQUIRED_FIELDS ++ ["purchase_price"].

(** Two records with the same values under these keys, whatever else they
    hold; two values that are not both dicts are the same when equal. *)
Definition agree (a b : gmap string pyval) : Prop :=
  forall k, In k RECORD_KEYS -> a !! k = b !! k.

Definition same_record (x y : pyval) : Prop :=
  match x, y with
  | PDict a, PDict b => agree a b
  | _, _ => x = y
  end.

(** Two results of a pass that differ at most in what depends on the
    position of the record: the fallback identifier and the message of a
    skipped record. *)
Definition same_up_to_index (p q : placement) : Prop :=
  match p, q with
  | Classified t e, Classified u f => t = u /\ e = f
  | Skip s, Skip r => skipped_item_name s = skipped_item_name r
  | _, _ => False
  end.

(** ** Verdicts and placements *)

(** What a rejection by [validate_item] can say of a record, each message
    with its cause. *)
Definition rejection_cause (item : gmap string pyval) (index : nat)
    (msg : message) : Prop :=
  (exists field, msg = MissingField index field
                 /\ In field REQUIRED_FIELDS /\ item !! field = None)
  \/ (msg = QuantityNegative (get item "item_id")
      /\ exists q, py_float (get item "quantity") = Return q
                   /\ PrimFloat.ltb q 0 = true)
  \/ (msg = QuantityNotNumber (get item "item_id")
      /\ exists ex, py_float (get item "quantity") = Raise ex
                    /\ (ex = TypeError \/ ex = ValueError))
  \/ (msg = PriceNegative (get item "item_id")
      /\ exists v p, price_of item = Some v /\ py_float v = Return p
                     /\ PrimFloat.ltb p 0 = true)
  \/ (msg = PriceNotNumber (get item "item_id")
      /\ exists v ex, price_of item = Some v /\ py_float v = Raise ex
                      /\ (ex = TypeError \/ ex = ValueError)).

(** What the passes of the loop return, one placement for each record, in
    the order of the records. *)
Fixpoint placements (current_date : datetime) (index : nat) (items : list pyval)
    : outcome (list placement) :=
  match items with
  | [] => Return []
  | item :: rest =>
      let! p := process_item current_date index item in
      let! ps := placements current_date (S index) rest in
      Return (p :: ps)
  end.

(** ** More worked inputs *)

(** A record without a name and without a unit. *)
Definition nameless : gmap string pyval :=
  delete "unit" (delete "item_name" (milk (PInt 3) (PInt 5) "2025-06-01")).

(** A record with a negative quantity, one with a quantity that is not a
    number, one without an expiry date and one whose expiry date is not a
    date. *)
Definition negative_quantity : gmap string pyval :=
  milk (PInt (-1)) (PInt 2) "2025-01-08".

Definition textual_quantity : gmap string pyval :=
  milk (PStr "ten") (PInt 2) "2025-01-08".

Definition undated : gmap string pyval :=
  <["expiry_date" := PNone]> (milk (PInt 10) (PInt 2) "2025-01-08").

Definition misdated : gmap string pyval :=
  milk (PInt 10) (PInt 2) "08/01/2025".

(** A record without a price, and one whose quantity is not a number in
    the sense of NaN. *)
Definition unpriced : gmap string pyval :=
  delete "purchase_price" (milk (PInt 10) (PInt 2) "2025-01-08").

Definition nan_quantity : gmap string pyval :=
  delete "purchase_price" (milk (PStr "nan") (PInt 2) "2025-01-08").

(** A record with a field the tracker does not read. *)
Definition annotated : gmap string pyval :=
  <["supplier" := PStr "Dairy Ltd"]> (milk (PInt 10) (PInt 2) "2025-01-08").

End WithText.

End InventorySpec.

(* ===================================================================== *)
(** * Vocabulary for the properties of the cashflow predictor             *)
(* ===================================================================== *)

Module CashflowSpec.
Import Py Cashflow.
#[local] Open Scope string_scope.

(** The four levels the table of recommendations knows. *)
Definition recognized (risk_level : string) : Prop :=
  risk_level = "critical" \/ risk_level = "warning"
  \/ risk_level = "ok" \/ risk_level = "stable".

(** The three levels a positive burn rate can lead to. *)
Definition level_of (days : Z) : string :=
  if (days <=? CRITICAL_THRESHOLD)%Z then "critical"
  else if (days <=? WARNING_THRESHOLD)%Z then "warning"
  else "ok".

(** ** The four triggers of a fatal error *)

Definition is_dict (t : pyval) : bool :=
  match t with
  | PDict _ => true
  | _ => false
  end.

Definition empty_history (transactions : list pyval) : bool :=
  match transactions with
  | [] => true
  | _ :: _ => false
  end.

Definition lacks_field (t : pyval) : bool :=
  match t with
  | PDict d =>
      match missing_fields d with
      | [] => false
      | _ :: _ => true
      end
  | _ => false
  end.

Definition out_of_domain_type (t : pyval) : bool :=
  match t with
  | PDict d => negb (type_is "income" d || type_is "expense" d)
  | _ => false
  end.

Definition fatal_trigger (transactions : list pyval) (current_balance : pyval) : bool :=
  empty_history transactions
  || negb (is_number current_balance)
  || existsb lacks_field transactions
  || existsb out_of_domain_type transactions.

(** The rows of a list of dicts. *)
Definition rows_of (transactions : list pyval) : list (gmap string pyval) :=
  omap (fun t => match t with PDict d => Some d | _ => None end) transactions.

(** The balance as a float: 1 or 0 for a boolean, the nearest double for
    an integer, the float itself; none for an integer beyond the largest
    double, and none for a value that is not a number. *)
Definition balance_of (current_balance : pyval) : option float :=
  match current_balance with
  | PBool b => Some (if b then 1%float else 0%float)
  | PInt z =>
      if PrimFloat.is_infinity (float_of_Z z) then None else Some (float_of_Z z)
  | PFloat f => Some f
  | _ => None
  end.

Section WithPandas.
Context `{Pandas}.

(** The mean of the amounts of a part: 0.0 for an empty part, and
    otherwise what the library returns for the column, if it returns. *)
Definition has_mean (part : list (gmap string pyval)) (avg : float) : Prop :=
  match part with
  | [] => avg = 0.0%float
  | _ :: _ => series_mean (column part "amount") = Return avg
  end.

(** What the core calculation needs of its input: the library reads the
    dates, the amounts of each part have a mean and, for a burn rate that is
    not [<= 0], the balance is a float and the balance divided by the burn
    rate is finite. *)
Definition calculation_succeeds (df : list (gmap string pyval))
    (current_balance : pyval) : Prop :=
  exists ts avg_income avg_expense,
    to_datetime (column df "date") = Return ts
    /\ has_mean (List.filter (type_is "income") df) avg_income
    /\ has_mean (List.filter (type_is "expense") df) avg_expense
    /\ (PrimFloat.leb (avg_expense - avg_income) 0 = true
        \/ exists balance,
             balance_of current_balance = Some balance
             /\ isfinite (balance / (avg_expense - avg_income)) = true).

End WithPandas.

(** ** Worked inputs, with [plain_pandas] for the library *)

(** [{date: d, type: t, amount: a}] *)
Definition tx (d t : string) (a : pyval) : pyval :=
  dict [("date", PStr d); ("type", PStr t); ("amount", a)].

(** Noon on 2025-01-01, a reading of the clock. *)
Definition noon : datetime := Datetime 739252 43200000000 None.

(** The dates of ten transactions on ten consecutive days. *)
Definition ten_days : list pyval :=
  map (fun d => PStr d)
    ["2025-01-01"; "2025-01-02"; "2025-01-03"; "2025-01-04"; "2025-01-05";
     "2025-01-06"; "2025-01-07"; "2025-01-08"; "2025-01-09"; "2025-01-10"].

(** The dates of two transactions, 60 days from the first to the last. *)
Definition sixty_days : list pyval := [PStr "2025-01-01"; PStr "2025-03-01"].

(** An expense of 100 and an income of 40: a burn rate of 60. *)
Definition burning : list pyval :=
  [tx "2025-01-01" "expense" (PInt 100); tx "2025-01-02" "income" (PInt 40)].

(** An expense of 100 and an income of 140: a burn rate of -40. *)
Definition earning : list pyval :=
  [tx "2025-01-01" "expense" (PInt 100); tx "2025-03-01" "income" (PInt 140)].

(** A single expense of 100. *)
Definition one_expense : list pyval := [tx "2025-01-01" "expense" (PInt 100)].

(** An income without an amount. *)
Definition no_amount : list pyval :=
  [dict [("date", PStr "2025-01-01"); ("type", PStr "income")]].

(** ** Scores, levels and more worked inputs *)

(** The values the confidence score takes. *)
Definition CONFIDENCE_SCORES : list float :=
  [1.0; 0.85; 0.7; 0.59; 0.5; 0.49; 0.35]%float.

(** The levels from the mildest to the most urgent. *)
Definition urgency (risk_level : string) : Z :=
  if decide (risk_level = "critical") then 3
  else if decide (risk_level = "warning") then 2
  else if decide (risk_level = "ok") then 1
  else 0.

(** A single income of 40, and one whose type is capitalised. *)
Definition one_income : list pyval := [tx "2025-01-01" "income" (PInt 40)].

Definition capitalised_type : list pyval := [tx "2025-01-01" "Income" (PInt 40)].

(** A transaction whose type [isin] can look up: a value that can be
    hashed. *)
Definition hashable_type (t : pyval) : bool :=
  match t with
  | PDict d =>
      match get d "type" with
      | PList _ | PDict _ => false
      | _ => true
      end
  | _ => false
  end.

(** A transaction, then a number where a transaction should be. *)
Definition not_a_transaction : list pyval :=
  [tx "2025-01-01" "expense" (PInt 100); PInt 3].

End CashflowSpec.

(* ===================================================================== *)
(** * Properties of the built-ins                                         *)
(* ===================================================================== *)

Module PyFacts.
Import Py.

Lemma bind_Return {A B : Type} (m : outcome A) (k : A -> outcome B) (b : B) :
  bind m k = Return b -> exists a, m = Return a /\ k a = Return b.
Proof. destruct m as [a|e]; simpl; [eauto | discriminate]. Qed.

(** ** Conversions *)

Lemma py_float_Raise `{Text} v ex :
  py_float v = Raise ex -> ex = TypeError \/ ex = ValueError \/ ex = OverflowError.
Proof.
  destruct v as [|b|z|f|s|l|d]; simpl; intros Hr; try (inversion Hr; auto; fail).
  - unfold float_of_int in Hr. destruct (PrimFloat.is_infinity _); inversion Hr; auto.
  - unfold float_of_str in Hr. destruct (float_of_text _); inversion Hr; auto.
Qed.

Lemma fromisoformat_str_Raise `{Text} v ex :
  fromisoformat_str v = Raise ex -> ex = ValueError.
Proof.
  destruct v as [|b|z|f|s|l|d]; simpl; intros Hr;
    try (destruct (fromisoformat_repr _); inversion Hr; auto; fail).
  destruct (fromisoformat s); inversion Hr; auto.
Qed.

(** ** Comparisons and signs of floats *)

(** [x > 0] excludes [x <= 0], NaN included. *)
Lemma ltb_0_not_leb (x : float) :
  PrimFloat.ltb 0 x = true -> PrimFloat.leb x 0 = false.
Proof.
  rewrite ltb_spec, leb_spec. unfold SFltb, SFleb.
  change (Prim2SF 0) with (S754_zero false).
  destruct (Prim2SF x) as [s| s | |s m e]; simpl; try discriminate;
    destruct s; simpl; congruence.
Qed.

Lemma binary_round_aux_sign sx mx ex lx :
  match binary_round_aux prec emax sx mx ex lx with
  | S754_finite s _ _ => s = sx
  | _ => True
  end.
Proof.
  unfold binary_round_aux.
  destruct (shr_fexp prec emax mx ex lx) as [mrs' e'].
  destruct (shr_fexp prec emax _ e' loc_Exact) as [mrs'' e''].
  destruct (shr_m mrs''); try exact I.
  destruct (e'' <=? emax - prec); [reflexivity | exact I].
Qed.

(** The quotient of a number that is not negative by a positive one is not
    negative. *)
Lemma div_not_negative (x y : float) :
  PrimFloat.leb 0 x = true -> PrimFloat.ltb 0 y = true ->
  match Prim2SF (x / y) with
  | S754_finite s _ _ => s = false
  | _ => True
  end.
Proof.
  rewrite leb_spec, ltb_spec, div_spec. unfold SFleb, SFltb.
  change (Prim2SF 0) with (S754_zero false).
  destruct (Prim2SF x) as [sx|sx| |sx mx ex]; destruct (Prim2SF y) as [sy|sy| |sy my ey];
    simpl; try discriminate; try (intros; exact I).
  destruct sx; simpl; [discriminate|]. destruct sy; simpl; [discriminate|].
  intros _ _.
  destruct (SFdiv_core_binary prec emax (Z.pos mx) ex (Z.pos my) ey) as [[mz ez] lz].
  apply (binary_round_aux_sign false).
Qed.

(** ** Truncation and floor *)

Lemma floor_of_float_not_negative (q : float) :
  match Prim2SF q with S754_finite s _ _ => s = false | _ => True end ->
  floor_of_float q = int_of_float q.
Proof.
  unfold floor_of_float, int_of_float.
  destruct (Prim2SF q) as [s|s| |s m e]; try reflexivity.
  intros ->. reflexivity.
Qed.

(** Truncation and floor agree where the floor is not negative. *)
Lemma int_of_float_floor (q : float) (d fl : Z) :
  int_of_float q = Return d -> floor_of_float q = Return fl -> 0 <= fl -> d = fl.
Proof.
  unfold int_of_float, floor_of_float.
  destruct (Prim2SF q) as [s| s | |s m e]; try discriminate; try congruence.
  destruct s; intros Hd Hf Hpos; inversion Hd; inversion Hf; subst; clear Hd Hf;
    [|reflexivity].
  exfalso. destruct (0 <=? e) eqn:He.
  - apply Z.leb_le in He. assert (0 < 2 ^ e) by (apply Z.pow_pos_nonneg; lia). nia.
  - apply Z.leb_gt in He. assert (0 < 2 ^ (- e)) by (apply Z.pow_pos_nonneg; lia).
    assert (Z.neg m / 2 ^ (- e) < 0) by (apply Z.div_lt_upper_bound; lia). lia.
Qed.

(** Truncation is the floor or one more. *)
Lemma int_of_float_floor_or_succ (q : float) (d fl : Z) :
  int_of_float q = Return d -> floor_of_float q = Return fl -> d = fl \/ d = fl + 1.
Proof.
  unfold int_of_float, floor_of_float.
  destruct (Prim2SF q) as [s| s | |s m e]; try discriminate; try (left; congruence).
  destruct s; intros Hd Hf; inversion Hd; inversion Hf; subst; clear Hd Hf;
    [|left; reflexivity].
  destruct (0 <=? e) eqn:He.
  - left. lia.
  - apply Z.leb_gt in He. assert (Hp : 0 < 2 ^ (- e)) by (apply Z.pow_pos_nonneg; lia).
    change (Z.neg m) with (- Z.pos m).
    destruct (Z.eq_dec (Z.pos m mod 2 ^ (- e)) 0) as [Hz|Hnz].
    + left. rewrite Z.div_opp_l_z by lia. reflexivity.
    + right. rewrite Z.div_opp_l_nz by lia. lia.
Qed.

(** ** The time of day of a parsed date *)

Lemma digit_bound c d : digit c = Some d -> 0 <= d <= 9.
Proof.
  unfold digit. destruct (andb _ _) eqn:Hc; [|discriminate].
  apply andb_prop in Hc as [H1 H2]. apply Z.leb_le in H1, H2.
  intros Hd. inversion Hd. lia.
Qed.

Lemma two_digits_bound a b v : two_digits a b = Some v -> 0 <= v <= 99.
Proof.
  unfold two_digits. destruct (digit a) as [x|] eqn:Ha; [|discriminate].
  destruct (digit b) as [y|] eqn:Hb; [|discriminate].
  apply digit_bound in Ha, Hb. intros Hv. inversion Hv. lia.
Qed.

Lemma digitpart_bound l :
  forall acc cnt v c r,
    forallb (fun c => bool_decide (is_Some (digit c))) l = true ->
    digitpart acc cnt l = (v, c, r) ->
    acc * 10 ^ Z.of_nat (length l) <= v < (acc + 1) * 10 ^ Z.of_nat (length l).
Proof.
  induction l as [|a l IH]; intros acc cnt v c r Hall Hd.
  - simpl in Hd. inversion Hd; subst. simpl. lia.
  - simpl in Hall. apply andb_prop in Hall as [Ha Hall].
    apply bool_decide_eq_true in Ha as [d Hd'].
    simpl in Hd. rewrite Hd' in Hd. apply IH in Hd; [|exact Hall].
    apply digit_bound in Hd'.
    rewrite length_cons, Nat2Z.inj_succ, Z.pow_succ_r by lia.
    assert (0 < 10 ^ Z.of_nat (length l)) by (apply Z.pow_pos_nonneg; lia).
    nia.
Qed.

Lemma all_digits_bound l f :
  all_digits l = Some f -> 0 <= f < 10 ^ Z.of_nat (length l).
Proof.
  unfold all_digits. destruct (digitpart 0 0 l) as [[v c] r] eqn:Hd.
  destruct r; [|discriminate].
  destruct (forallb _ l) eqn:Hall; [|discriminate].
  intros Hf. inversion Hf; subst. apply digitpart_bound in Hd; [|exact Hall]. lia.
Qed.

Lemma hh_mm_ss_ff_bound l us :
  hh_mm_ss_ff l = Some us -> 0 <= us < MICROS_PER_DAY.
Proof.
  unfold hh_mm_ss_ff, MICROS_PER_DAY.
  assert (Hcheck : forall h m s f r,
            0 <= h -> 0 <= m -> 0 <= s -> 0 <= f < 1000000 ->
            (if (h <=? 23) && (m <=? 59) && (s <=? 59)
             then Some (((h * 60 + m) * 60 + s) * 1000000 + f) else None) = Some r ->
            0 <= r < 86400000000).
  { intros h m s f r Hh Hm Hs Hf. destruct (andb _ _) eqn:Hc; [|discriminate].
    apply andb_prop in Hc as [Hc H3]. apply andb_prop in Hc as [H1 H2].
    apply Z.leb_le in H1, H2, H3. intros Hr. inversion Hr. lia. }
  destruct l as [|h1 [|h2 [|c1 [|m1 [|m2 [|c2 [|s1 [|s2 frac]]]]]]]]; try discriminate.
  - destruct (two_digits h1 h2) as [h|] eqn:Hh; [|discriminate].
    apply two_digits_bound in Hh. apply Hcheck; lia.
  - destruct (two_digits h1 h2) as [h|] eqn:Hh; [|discriminate].
    destruct (two_digits m1 m2) as [m|] eqn:Hm; [|discriminate].
    apply two_digits_bound in Hh, Hm.
    destruct (is_colon c1); [|discriminate]. apply Hcheck; lia.
  - destruct (two_digits h1 h2) as [h|] eqn:Hh; [|discriminate].
    destruct (two_digits m1 m2) as [m|] eqn:Hm; [|discriminate].
    destruct (two_digits s1 s2) as [s|] eqn:Hs; [|discriminate].
    apply two_digits_bound in Hh, Hm, Hs.
    destruct (is_colon c1 && is_colon c2); [|discriminate].
    destruct frac as [|d ff]; [apply Hcheck; lia|].
    destruct (is_dot d); [|discriminate].
    destruct (all_digits ff) as [f|] eqn:Hf; [|discriminate].
    apply all_digits_bound in Hf.
    destruct (Z.of_nat (length ff) =? 3) eqn:H3.
    + apply Z.eqb_eq in H3. rewrite H3 in Hf. apply Hcheck; lia.
    + destruct (Z.of_nat (length ff) =? 6) eqn:H6; [|discriminate].
      apply Z.eqb_eq in H6. rewrite H6 in Hf. apply Hcheck; lia.
Qed.

(** A parsed date has a time of day within the day. *)
Lemma fromisoformat_time_of_day s d :
  fromisoformat s = Some d -> 0 <= dt_micros d < MICROS_PER_DAY.
Proof.
  change (read_isoformat s = Some d -> 0 <= dt_micros d < MICROS_PER_DAY).
  unfold read_isoformat.
  destruct (list_ascii_of_string s)
    as [|y1 [|y2 [|y3 [|y4 [|c1 [|m1 [|m2 [|c2 [|d1 [|d2 rest]]]]]]]]]];
    try discriminate.
  destruct (two_digits y1 y2); [|discriminate].
  destruct (two_digits y3 y4); [|discriminate].
  destruct (two_digits m1 m2); [|discriminate].
  destruct (two_digits d1 d2); [|discriminate].
  destruct (is_dash c1 && is_dash c2); [|discriminate].
  destruct (ymd2ord _ _ _); [|discriminate].
  destruct rest as [|sep t].
  - intros Hd. inversion Hd. simpl. unfold MICROS_PER_DAY. lia.
  - destruct (split_offset t) as [tm off].
    destruct (hh_mm_ss_ff tm) as [us|] eqn:Hus; [|discriminate].
    apply hh_mm_ss_ff_bound in Hus.
    destruct off; [intros Hd; inversion Hd; exact Hus|].
    destruct (utc_offset _); [|discriminate].
    intros Hd; inversion Hd; exact Hus.
Qed.

Lemma fromisoformat_str_time_of_day v d :
  fromisoformat_str v = Return d -> 0 <= dt_micros d < MICROS_PER_DAY.
Proof.
  destruct v as [|b|z|f|s|l|m]; try (simpl; discriminate).
  unfold fromisoformat_str.
  destruct (fromisoformat s) as [d'|] eqn:Hs; [|discriminate].
  intros Hd. inversion Hd; subst. eapply fromisoformat_time_of_day. exact Hs.
Qed.

End PyFacts.

(* ===================================================================== *)
(** * Properties of the inventory expiry tracker                          *)
(* ===================================================================== *)

Module InventoryFacts.
Import Py PyFacts Inventory InventorySpec.
#[local] Open Scope string_scope.

Ltac required := unfold REQUIRED_FIELDS; simpl; tauto.

(** The lemmas of this section hold for every reading of text by [float]
    and [datetime.fromisoformat]. *)
Section WithText.
Context `{text : Text}.

(** ** Validation *)

Lemma first_missing_None (item : gmap string pyval) :
  first_missing item = None ->
  forall field, In field REQUIRED_FIELDS -> contains item field = true.
Proof.
  unfold first_missing, REQUIRED_FIELDS. simpl.
  destruct (contains item "item_id") eqn:H1; simpl; [|discriminate].
  destruct (contains item "item_name") eqn:H2; simpl; [|discriminate].
  destruct (contains item "quantity") eqn:H3; simpl; [|discriminate].
  destruct (contains item "unit") eqn:H4; simpl; [|discriminate].
  destruct (contains item "expiry_date") eqn:H5; simpl; [|discriminate].
  intros _ field [<-|[<-|[<-|[<-|[<-|[]]]]]]; assumption.
Qed.

Lemma contains_Some (item : gmap string pyval) (key : string) :
  contains item key = true -> exists v, item !! key = Some v.
Proof. unfold contains. destruct (item !! key) as [v|]; [eauto | discriminate]. Qed.

Lemma getitem_required item field :
  first_missing item = None -> In field REQUIRED_FIELDS ->
  getitem item field = Return (get item field).
Proof.
  intros Hm Hin. pose proof (first_missing_None _ Hm _ Hin) as Hc.
  apply contains_Some in Hc as [v Hv]. unfold getitem, get. rewrite Hv. reflexivity.
Qed.

(** What [check_number] does with a field that is present: it accepts,
    rejects with one of its two messages, or lets an exception through that
    is neither [TypeError] nor [ValueError]. *)
Lemma check_number_present item key neg nn v :
  item !! key = Some v ->
  check_number item key neg nn =
    match py_float v with
    | Return x => Return (if PrimFloat.ltb x 0 then Some neg else None)
    | Raise e => if TypeError_or_ValueError e then Return (Some nn) else Raise e
    end.
Proof.
  intros Hv. unfold check_number, getitem. rewrite Hv. simpl.
  destruct (py_float v) as [x|e]; reflexivity.
Qed.

Lemma check_number_None item key neg nn :
  check_number item key neg nn = Return None ->
  exists v x, item !! key = Some v /\ py_float v = Return x
              /\ PrimFloat.ltb x 0 = false.
Proof.
  unfold check_number, getitem.
  destruct (item !! key) as [v|]; simpl; [|discriminate].
  destruct (py_float v) as [x|e] eqn:Hf; simpl.
  - destruct (PrimFloat.ltb x 0) eqn:Hx; [discriminate|].
    intros _. exists v, x. auto.
  - destruct (TypeError_or_ValueError e); discriminate.
Qed.

Lemma check_number_returns item key neg nn :
  overflows (get item key) = false ->
  contains item key = true ->
  returns (check_number item key neg nn).
Proof.
  intros Ho Hc. apply contains_Some in Hc as [v Hv].
  rewrite (check_number_present _ _ _ _ _ Hv).
  unfold overflows, get in Ho. rewrite Hv in Ho. simpl in Ho.
  destruct (py_float v) as [x|ex] eqn:Hf; [eexists; reflexivity|].
  destruct (py_float_Raise _ _ Hf) as [->|[->| ->]]; simpl;
    try (eexists; reflexivity). discriminate.
Qed.

(** A record that passes has its required fields, a quantity that is a
    number and not negative, and a purchase price that, when there is one,
    is a number and not negative. *)
Lemma validate_item_true item index msg :
  validate_item item index = Return (true, msg) ->
  first_missing item = None
  /\ (exists v x, item !! "quantity" = Some v /\ py_float v = Return x
                  /\ PrimFloat.ltb x 0 = false)
  /\ (forall v, price_of item = Some v ->
        exists x, py_float v = Return x /\ PrimFloat.ltb x 0 = false).
Proof.
  unfold validate_item.
  destruct (first_missing item) as [field|] eqn:Hm; [discriminate|].
  destruct (check_number item "quantity" _ _) as [[bad|]|e] eqn:Hq; simpl;
    try discriminate.
  apply check_number_None in Hq. intros Hv. split; [reflexivity|]. split; [exact Hq|].
  intros v Hp. unfold price_of in Hp. unfold contains, get in Hv.
  destruct (item !! "purchase_price") as [w|] eqn:Hw; [|discriminate].
  assert (w = v) as -> by (destruct w; congruence).
  assert (Hne : is_None v = false) by (destruct v; try reflexivity; discriminate).
  simpl in Hv. rewrite Hne in Hv. simpl in Hv.
  destruct (check_number item "purchase_price" _ _) as [[bad|]|e] eqn:Hpp; simpl in Hv;
    try discriminate.
  apply check_number_None in Hpp as (v' & x & Hv' & Hx & Hlt).
  rewrite Hw in Hv'. inversion Hv'; subst. exists x. auto.
Qed.

Lemma validate_item_returns item index :
  overflows (get item "quantity") = false ->
  overflows (get item "purchase_price") = false ->
  returns (validate_item item index).
Proof.
  intros Hq Hp. unfold validate_item.
  destruct (first_missing item) as [field|] eqn:Hm; [eexists; reflexivity|].
  pose proof (first_missing_None _ Hm) as Hall.
  destruct (check_number_returns item "quantity"
              (QuantityNegative (get item "item_id"))
              (QuantityNotNumber (get item "item_id")) Hq
              ltac:(apply Hall; required)) as [[bad|] ->]; simpl;
    [eexists; reflexivity|].
  destruct (contains item "purchase_price") eqn:Hc; simpl; [|eexists; reflexivity].
  destruct (is_None (get item "purchase_price")); simpl; [eexists; reflexivity|].
  destruct (check_number_returns item "purchase_price"
              (PriceNegative (get item "item_id"))
              (PriceNotNumber (get item "item_id")) Hp Hc) as [[bad|] ->]; simpl;
    eexists; reflexivity.
Qed.

(** ** The value at risk *)

Lemma py_float_or_0 (v : pyval) (x : float) :
  py_float v = Return x ->
  exists y, py_float (py_or v (PInt 0)) = Return y.
Proof.
  intros Hx. unfold py_or. destruct (truthy v); [eauto|].
  exists 0%float. reflexivity.
Qed.

Lemma compute_value_at_risk_valid item index msg :
  validate_item item index = Return (true, msg) ->
  exists price qty,
    py_float (py_or (get item "purchase_price") (PInt 0)) = Return price
    /\ py_float (py_or (get item "quantity") (PInt 0)) = Return qty
    /\ compute_value_at_risk item = Return (round2 (price * qty))
    /\ (price_of item = None -> price = 0%float).
Proof.
  intros Hv. apply validate_item_true in Hv as (_ & (qv & q & Hqv & Hq & _) & Hp).
  assert (Hprice : exists price,
            py_float (py_or (get item "purchase_price") (PInt 0)) = Return price
            /\ (price_of item = None -> price = 0%float)).
  { unfold price_of in *. unfold get.
    destruct (item !! "purchase_price") as [w|] eqn:Hw; simpl.
    - destruct w; try (destruct (Hp _ eq_refl) as (x & Hx & _);
        destruct (py_float_or_0 _ _ Hx) as [y Hy]; exists y; split;
          [exact Hy | discriminate]).
      exists 0%float. split; [reflexivity | reflexivity].
    - exists 0%float. split; reflexivity. }
  destruct Hprice as (price & Hprice & Hzero).
  assert (Hqty : exists qty,
            py_float (py_or (get item "quantity") (PInt 0)) = Return qty).
  { unfold get. rewrite Hqv. simpl. eapply py_float_or_0; eauto. }
  destruct Hqty as (qty & Hqty).
  exists price, qty. repeat split; try assumption.
  unfold compute_value_at_risk. rewrite Hprice, Hqty. reflexivity.
Qed.

(** ** One pass of the loop body *)

(** A record that passes validation and whose expiry date is not [None]
    and parses is classified, provided the subtraction of the two dates is
    defined. *)
Lemma process_item_valid current_date index item msg expiry delta :
  validate_item item index = Return (true, msg) ->
  is_None (get item "expiry_date") = false ->
  fromisoformat_str (get item "expiry_date") = Return expiry ->
  datetime_sub expiry current_date = Return delta ->
  exists e,
    process_item current_date index (PDict item)
      = Return (Classified (classify (timedelta_days delta)) e)
    /\ enriches current_date item e
    /\ days_until_expiry e = timedelta_days delta.
Proof.
  intros Hv Hnn Hparse Hsub.
  destruct (compute_value_at_risk_valid _ _ _ Hv) as (price & qty & Hp & Hq & Hvar & Hz).
  pose proof (validate_item_true _ _ _ Hv) as (Hm & _ & _).
  eexists. split; [|split].
  - unfold process_item. simpl. rewrite Hv. simpl.
    rewrite Hnn, Hparse. simpl. rewrite Hsub. simpl. rewrite Hvar. simpl.
    rewrite !getitem_required by (assumption || required). simpl. reflexivity.
  - exists expiry, delta, price, qty. repeat split; assumption.
  - reflexivity.
Qed.

(** Conversely, a classified entry comes from such a record. *)
Lemma process_item_Classified current_date index it t e :
  process_item current_date index it = Return (Classified t e) ->
  exists item msg,
    it = PDict item
    /\ validate_item item index = Return (true, msg)
    /\ enriches current_date item e
    /\ t = classify (days_until_expiry e).
Proof.
  unfold process_item. intros Hp.
  apply bind_Return in Hp as (item & Hrec & Hp).
  assert (it = PDict item) as -> by (destruct it; simpl in Hrec; congruence).
  apply bind_Return in Hp as ([is_valid msg] & Hv & Hp).
  destruct is_valid; simpl in Hp; [|discriminate].
  pose proof (validate_item_true _ _ _ Hv) as (Hm & _ & _).
  destruct (compute_value_at_risk_valid _ _ _ Hv) as (price & qty & Hpr & Hq & Hvar & Hz).
  rewrite !getitem_required in Hp by (assumption || required). simpl in Hp.
  destruct (is_None (get item "expiry_date")); [discriminate|].
  destruct (fromisoformat_str (get item "expiry_date")) as [expiry|ex] eqn:Hparse.
  - destruct (datetime_sub expiry current_date) as [delta|ex] eqn:Hsub; simpl in Hp;
      [|discriminate].
    rewrite Hvar in Hp. simpl in Hp. inversion Hp; subst; clear Hp.
    exists item, msg. repeat split; try assumption.
    exists expiry, delta, price, qty. repeat split; assumption.
  - destruct (TypeError_or_ValueError ex); discriminate.
Qed.

(** A record that fails validation is skipped, under the fallback
    identifier and name when it has none. *)
Lemma process_item_invalid current_date index item msg :
  validate_item item index = Return (false, msg) ->
  process_item current_date index (PDict item)
    = Return (Skip (Skipped
        (get_default item "item_id" (PStr ("unknown_index_" ++ pretty index)))
        (get_default item "item_name" (PStr "unknown"))
        msg)).
Proof. intros Hv. unfold process_item. simpl. rewrite Hv. reflexivity. Qed.

Lemma process_item_returns current_date index it :
  well_formed_record current_date it = true ->
  returns (process_item current_date index it).
Proof.
  destruct it as [| | | | | |item]; try discriminate. simpl.
  intros Hw. apply andb_prop in Hw as [Hw Hmix]. apply andb_prop in Hw as [Hq Hp].
  apply negb_true_iff in Hmix, Hq, Hp.
  destruct (validate_item_returns item index Hq Hp) as [[is_valid msg] Hv].
  destruct is_valid; [|rewrite (process_item_invalid _ _ _ _ Hv); eexists; reflexivity].
  pose proof (validate_item_true _ _ _ Hv) as (Hm & _ & _).
  destruct (is_None (get item "expiry_date")) eqn:Hnn.
  { unfold process_item. simpl. rewrite Hv. simpl. rewrite Hnn.
    rewrite !getitem_required by (assumption || required). simpl.
    eexists; reflexivity. }
  destruct (fromisoformat_str (get item "expiry_date")) as [expiry|ex] eqn:Hparse.
  - unfold mixes_offsets in Hmix. rewrite Hparse in Hmix.
    destruct (datetime_sub expiry current_date) as [delta|] eqn:Hsub; [|discriminate].
    destruct (process_item_valid current_date index item msg expiry delta
                Hv Hnn Hparse Hsub) as (e & He & _).
    rewrite He. eexists; reflexivity.
  - apply fromisoformat_str_Raise in Hparse as Hex. subst ex.
    unfold process_item. simpl. rewrite Hv. simpl. rewrite Hnn, Hparse.
    rewrite !getitem_required by (assumption || required). simpl.
    eexists; reflexivity.
Qed.

(** ** The loop *)

Lemma append_total b p : total (append b p) = S (total b).
Proof.
  destruct p as [s|[] e]; unfold total; simpl; rewrite length_app; simpl; lia.
Qed.

Lemma append_placed b p : placed p (append b p).
Proof.
  destruct p as [s|[] e]; simpl; apply in_or_app; right; left; reflexivity.
Qed.

Lemma append_keeps b p q : placed q b -> placed q (append b p).
Proof.
  destruct q as [s|[] e]; destruct p as [s'|[] e']; simpl; intros Hq;
    try assumption; apply in_or_app; left; assumption.
Qed.

Lemma append_bucket t b p e :
  In e (bucket t (append b p)) -> In e (bucket t b) \/ p = Classified t e.
Proof.
  destruct t; destruct p as [s'|[] e']; simpl; intros Hin; try (left; assumption);
    apply in_app_or in Hin as [Hin|[->|[]]]; auto.
Qed.

(** Each pass adds one entry. *)
Lemma run_loop_total current_date items :
  forall index b b',
    run_loop current_date index items b = Return b' ->
    total b' = (total b + length items)%nat.
Proof.
  induction items as [|it rest IH]; intros index b b' Hrun; simpl in Hrun.
  - inversion Hrun; subst. simpl. lia.
  - apply bind_Return in Hrun as (p & Hp & Hrun).
    apply IH in Hrun. rewrite Hrun, append_total. simpl. lia.
Qed.

Lemma run_loop_keeps current_date items q :
  forall index b b',
    run_loop current_date index items b = Return b' -> placed q b -> placed q b'.
Proof.
  induction items as [|it rest IH]; intros index b b' Hrun Hq; simpl in Hrun.
  - inversion Hrun; subst. assumption.
  - apply bind_Return in Hrun as (p & Hp & Hrun).
    eapply IH; [exact Hrun|]. apply append_keeps. assumption.
Qed.

(** What a pass returns is in the list it names once the loop is over. *)
Lemma run_loop_placed current_date items :
  forall index b b' (i : nat) it p,
    run_loop current_date index items b = Return b' ->
    items !! i = Some it ->
    process_item current_date (index + i) it = Return p ->
    placed p b'.
Proof.
  induction items as [|it0 rest IH]; intros index b b' i it p Hrun Hi Hp;
    simpl in Hrun; [discriminate|].
  apply bind_Return in Hrun as (p0 & Hp0 & Hrun).
  destruct i as [|i]; simpl in Hi.
  - inversion Hi; subst. rewrite Nat.add_0_r in Hp. rewrite Hp in Hp0.
    inversion Hp0; subst. eapply run_loop_keeps; [exact Hrun|]. apply append_placed.
  - eapply (IH (S index) _ _ i); [exact Hrun | exact Hi |].
    replace (S index + i)%nat with (index + S i)%nat by lia. exact Hp.
Qed.

(** Every record gets an entry. *)
Lemma run_loop_each current_date items :
  forall index b b' (i : nat) it,
    run_loop current_date index items b = Return b' ->
    items !! i = Some it ->
    exists p, process_item current_date (index + i) it = Return p /\ placed p b'.
Proof.
  induction items as [|it0 rest IH]; intros index b b' i it Hrun Hi;
    simpl in Hrun; [discriminate|].
  apply bind_Return in Hrun as (p0 & Hp0 & Hrun).
  destruct i as [|i]; simpl in Hi.
  - inversion Hi; subst. rewrite Nat.add_0_r. exists p0. split; [exact Hp0|].
    eapply run_loop_keeps; [exact Hrun|]. apply append_placed.
  - replace (index + S i)%nat with (S index + i)%nat by lia.
    eapply IH; [exact Hrun | exact Hi].
Qed.

(** Every classified entry was put there by the pass over some record. *)
Lemma run_loop_origin current_date items t e :
  forall index b b',
    run_loop current_date index items b = Return b' ->
    In e (bucket t b') ->
    In e (bucket t b)
    \/ exists (i : nat) it,
         items !! i = Some it
         /\ process_item current_date (index + i) it = Return (Classified t e).
Proof.
  induction items as [|it0 rest IH]; intros index b b' Hrun Hin; simpl in Hrun.
  - inversion Hrun; subst. left. assumption.
  - apply bind_Return in Hrun as (p0 & Hp0 & Hrun).
    destruct (IH _ _ _ Hrun Hin) as [Hold|(i & it & Hi & Hp)].
    + apply append_bucket in Hold as [Hold| ->]; [left; assumption|].
      right. exists 0%nat, it0. rewrite Nat.add_0_r. split; [reflexivity|assumption].
    + right. exists (S i), it. split; [exact Hi|].
      replace (index + S i)%nat with (S index + i)%nat by lia. exact Hp.
Qed.

(** The loop returns when every pass does. *)
Lemma run_loop_returns current_date items :
  forall index b,
    (forall (i : nat) it, items !! i = Some it ->
       returns (process_item current_date (index + i) it)) ->
    returns (run_loop current_date index items b).
Proof.
  induction items as [|it0 rest IH]; intros index b Hall; simpl.
  - eexists. reflexivity.
  - destruct (Hall 0%nat it0 eq_refl) as [p Hp]. rewrite Nat.add_0_r in Hp.
    rewrite Hp. simpl. apply IH. intros i it Hi.
    replace (S index + i)%nat with (index + S i)%nat by lia. apply Hall. exact Hi.
Qed.

(** ** The whole call *)

Lemma read_input_inl now v err :
  read_input now v = inl err ->
  not_list_or_dict v || bad_reference_date v = true
  /\ exists msg ts, err = Error msg ts.
Proof.
  unfold read_input. destruct v as [| | | | |l|d]; simpl;
    try (intros Hr; inversion Hr; eauto; fail).
  destruct (d !! "current_date") as [raw|]; [|discriminate].
  destruct (fromisoformat_val raw); intros Hr; inversion Hr; eauto.
Qed.

Lemma read_input_inr now v inventory_list current_date :
  read_input now v = inr (inventory_list, current_date) ->
  not_list_or_dict v = false /\ bad_reference_date v = false
  /\ inventory_list = record_sequence v
  /\ current_date = reference_date now v.
Proof.
  unfold read_input. destruct v as [| | | | |l|d]; simpl;
    try (intros Hr; inversion Hr; auto; fail).
  destruct (d !! "current_date") as [raw|]; [|intros Hr; inversion Hr; auto].
  destruct (fromisoformat_val raw); intros Hr; inversion Hr; auto.
Qed.

Lemma check_inventory_expiry_Success now inventory_data s b ts :
  check_inventory_expiry now inventory_data = Return (Success s b ts) ->
  exists items,
    read_input now inventory_data = inr (record_sequence inventory_data, ts)
    /\ input_records inventory_data = Return items
    /\ run_loop ts 0 items no_items = Return b
    /\ s = summarise b.
Proof.
  unfold check_inventory_expiry.
  destruct (read_input now inventory_data) as [err|[inventory_list current_date]]
    eqn:Hread.
  { intros Hr. inversion Hr; subst.
    apply read_input_inl in Hread as (_ & msg & ts' & Herr). discriminate. }
  pose proof (read_input_inr _ _ _ _ Hread) as (_ & _ & -> & _).
  destruct (truthy (record_sequence inventory_data)); simpl; [|discriminate].
  intros Hr. apply bind_Return in Hr as (items & Hit & Hr).
  apply bind_Return in Hr as (b0 & Hrun & Hr). inversion Hr; subst.
  exists items. auto.
Qed.

End WithText.

(** ** Days until expiry and tiers *)

Lemma elapsed_days_calendar expiry current_date :
  0 <= dt_micros expiry - dt_micros current_date < MICROS_PER_DAY ->
  elapsed_days expiry current_date = calendar_days expiry current_date.
Proof.
  intros Hr. unfold elapsed_days, calendar_days.
  rewrite Z.add_comm, Z.div_add by (unfold MICROS_PER_DAY; lia).
  rewrite Z.div_small by exact Hr. reflexivity.
Qed.

Lemma classify_thresholds days :
  (days <= 0 -> classify days = expired)
  /\ (0 < days < 7 -> classify days = critical)
  /\ (7 <= days < 14 -> classify days = warning)
  /\ (14 <= days -> classify days = ok).
Proof.
  unfold classify, CRITICAL_THRESHOLD, WARNING_THRESHOLD.
  repeat split; intros Hd;
    destruct (Z.leb_spec days 0); destruct (Z.ltb_spec days 7);
    destruct (Z.ltb_spec days 14); try reflexivity; lia.
Qed.

(** C1, as amended: take a record that passes validation and whose expiry
    date parses, an explicitly supplied reference date that parses, and both
    without UTC offset.  The record is classified; its [days_until_expiry]
    is the number of whole days from the reference to the expiry, rounded
    toward minus infinity (so possibly negative).  This is the difference of
    the two calendar days whenever the reference's time of day is not later
    than the expiry's, in particular whenever the reference is a plain date.
    The tier is the first threshold met: [<= 0] expired, [< 7] critical,
    [< 14] warning, else ok (0 expired, 6 critical, 7 and 13 warning, 14
    ok); and when the call returns, the entry is in the list of that tier. *)
Theorem days_until_expiry_and_tier
    (now : datetime) (d : gmap string pyval) (ref : string)
    (current_date : datetime) (inventory : list pyval) (index : nat)
    (item : gmap string pyval) (msg : message) (expiry : datetime) :
  d !! "current_date" = Some (PStr ref) ->
  fromisoformat ref = Some current_date ->
  d !! "inventory" = Some (PList inventory) ->
  inventory !! index = Some (PDict item) ->
  validate_item item index = Return (true, msg) ->
  fromisoformat_str (get item "expiry_date") = Return expiry ->
  dt_utcoffset current_date = None ->
  dt_utcoffset expiry = None ->
  let days := elapsed_days expiry current_date in
  (exists e,
     process_item current_date index (PDict item)
       = Return (Classified (classify days) e)
     /\ days_until_expiry e = days
     /\ forall s b ts,
          check_inventory_expiry now (PDict d) = Return (Success s b ts) ->
          In e (bucket (classify days) b))
  /\ (dt_micros current_date <= dt_micros expiry ->
      days = calendar_days expiry current_date)
  /\ (dt_micros current_date = 0 -> days = calendar_days expiry current_date)
  /\ (days <= 0 -> classify days = expired)
  /\ (0 < days < 7 -> classify days = critical)
  /\ (7 <= days < 14 -> classify days = warning)
  /\ (14 <= days -> classify days = ok)
  /\ classify 0 = expired /\ classify 6 = critical /\ classify 7 = warning
  /\ classify 13 = warning /\ classify 14 = ok.
Proof.
  intros Hc Href Hinv Hidx Hv Hparse Hn1 Hn2 days.
  assert (Hsub : datetime_sub expiry current_date
                 = Return ((dt_ordinal expiry - dt_ordinal current_date) * MICROS_PER_DAY
                           + (dt_micros expiry - dt_micros current_date))).
  { unfold datetime_sub. rewrite Hn1, Hn2. reflexivity. }
  assert (Hnn : is_None (get item "expiry_date") = false).
  { destruct (get item "expiry_date"); try reflexivity. discriminate. }
  destruct (process_item_valid current_date index item msg expiry _ Hv Hnn Hparse Hsub)
    as (e & Hp & _ & Hdays).
  pose proof (fromisoformat_time_of_day _ _ Href) as Hcd.
  pose proof (fromisoformat_str_time_of_day _ _ Hparse) as Hed.
  split; [|split; [|split]].
  - exists e. split; [exact Hp|]. split; [exact Hdays|].
    intros s b ts Hcall.
    apply check_inventory_expiry_Success in Hcall as (items & Hread & Hit & Hrun & _).
    apply read_input_inr in Hread as (_ & _ & _ & Hts).
    unfold input_records, record_sequence, get_default in Hit.
    unfold reference_date, fromisoformat_val in Hts.
    rewrite Hinv in Hit. rewrite Hc, Href in Hts. simpl in Hit.
    inversion Hit; subst items ts.
    apply (run_loop_placed _ _ _ _ _ index _ _ Hrun Hidx Hp).
  - intros Hle. apply elapsed_days_calendar. lia.
  - intros Hz. apply elapsed_days_calendar. lia.
  - pose proof (classify_thresholds days) as (H1 & H2 & H3 & H4).
    repeat split; assumption || reflexivity.
Qed.

(** Ten litres at 2 each, expiring on 2025-01-08, seen from 2025-01-01: seven
    days, the first day of the warning tier. *)
Lemma days_until_expiry_and_tier_witness :
  exists e,
    process_item (Datetime 739252 0 None) 0 (PDict (milk (PInt 10) (PInt 2) "2025-01-08"))
      = Return (Classified warning e)
    /\ days_until_expiry e = 7.
Proof.
  destruct (days_until_expiry_and_tier noon
              (dated [PDict (milk (PInt 10) (PInt 2) "2025-01-08")] "2025-01-01")
              "2025-01-01" (Datetime 739252 0 None)
              [PDict (milk (PInt 10) (PInt 2) "2025-01-08")] 0
              (milk (PInt 10) (PInt 2) "2025-01-08") NoMessage
              (Datetime 739259 0 None)
              ltac:(vm_compute; reflexivity) ltac:(vm_compute; reflexivity)
              ltac:(vm_compute; reflexivity) ltac:(vm_compute; reflexivity)
              ltac:(vm_compute; reflexivity) ltac:(vm_compute; reflexivity)
              ltac:(reflexivity) ltac:(reflexivity))
    as [(e & Hp & Hd & _) _].
  exists e. split; [exact Hp | exact Hd].
Defined.

(** C1 as stated fails when the reference date carries a time of day: seen
    from 2025-01-01T12:00:00, a record that expires on 2025-01-02 is one
    calendar day away, which the claim puts in the critical tier; the call
    sets [days_until_expiry] to 0 and files the record as expired. *)
Lemma days_until_expiry_not_calendar_difference :
  fromisoformat "2025-01-01T12:00:00" = Some (Datetime 739252 43200000000 None)
  /\ fromisoformat "2025-01-02" = Some (Datetime 739253 0 None)
  /\ calendar_days (Datetime 739253 0 None) (Datetime 739252 43200000000 None) = 1
  /\ classify 1 = critical
  /\ exists s e,
       check_inventory_expiry noon
         (PDict (dated [PDict (milk (PInt 10) (PInt 2) "2025-01-02")]
                       "2025-01-01T12:00:00"))
         = Return (Success s (Buckets [] [] [] [e] [])
                           (Datetime 739252 43200000000 None))
       /\ days_until_expiry e = 0
       /\ value_at_risk e = 20%float.
Proof.
  repeat split; try (vm_compute; reflexivity).
  eexists. eexists. split; [vm_compute; reflexivity|]. split; reflexivity.
Qed.

(** ** Error results *)

Section ErrorResults.
Context `{text : Text}.

(** C5, as amended: the call returns a result with status "error" rather
    than raising exactly when the top-level input is fatal: it is neither a
    list nor a dict, an explicitly supplied [current_date] fails to parse,
    or the record sequence is empty.  In every other case in which the
    record sequence is a list of dicts, none with a quantity or purchase
    price too large for a float or with an expiry date that has a UTC
    offset where the reference date has none (or the reverse), the call
    returns a result with status "success". *)
Theorem error_status_iff_fatal (now : datetime) (inventory_data : pyval) :
  (fatal inventory_data = true ->
   exists msg ts, check_inventory_expiry now inventory_data = Return (Error msg ts))
  /\ (forall r, check_inventory_expiry now inventory_data = Return r ->
        status r = "error" -> fatal inventory_data = true)
  /\ (fatal inventory_data = false ->
      forall items,
        record_sequence inventory_data = PList items ->
        Forall (fun it =>
                  well_formed_record (reference_date now inventory_data) it = true)
               items ->
        exists s b,
          check_inventory_expiry now inventory_data
            = Return (Success s b (reference_date now inventory_data))
          /\ status (Success s b (reference_date now inventory_data)) = "success").
Proof.
  unfold fatal, empty_sequence.
  destruct (read_input now inventory_data) as [err|[inventory_list cd]] eqn:Hread.
  - destruct (read_input_inl _ _ _ Hread) as (Hf & msg & ts & ->).
    rewrite Hf. simpl. unfold check_inventory_expiry. rewrite Hread.
    split; [eauto|]. split; [reflexivity | discriminate].
  - destruct (read_input_inr _ _ _ _ Hread) as (Hn & Hb & -> & ->).
    rewrite Hn, Hb. simpl. unfold check_inventory_expiry. rewrite Hread.
    destruct (truthy (record_sequence inventory_data)) eqn:Ht; simpl.
    + split; [discriminate|]. split.
      * intros r Hr Hs. apply bind_Return in Hr as (items & _ & Hr).
        apply bind_Return in Hr as (b & _ & Hr). inversion Hr; subst. discriminate.
      * intros _ items Hseq Hall. rewrite Hseq. simpl.
        destruct (run_loop_returns (reference_date now inventory_data) items 0 no_items)
          as [b Hb'].
        { intros i it Hi. apply process_item_returns.
          rewrite Forall_forall in Hall. apply Hall.
          eapply list_elem_of_lookup_2. exact Hi. }
        rewrite Hb'. simpl. eauto.
    + split; [eauto|]. split; [reflexivity | discriminate].
Qed.

End ErrorResults.

(** A scalar is a fatal input; one well-formed record is not. *)
Lemma error_status_iff_fatal_witness :
  (exists msg ts, check_inventory_expiry noon (PInt 5) = Return (Error msg ts))
  /\ (exists s b,
        check_inventory_expiry noon
          (PDict (dated [PDict (milk (PInt 10) (PInt 2) "2025-01-08")] "2025-01-01"))
          = Return (Success s b (Datetime 739252 0 None))
        /\ status (Success s b (Datetime 739252 0 None)) = "success").
Proof.
  split.
  - apply (proj1 (@error_status_iff_fatal plain_text noon (PInt 5))). reflexivity.
  - apply (proj2 (proj2 (@error_status_iff_fatal plain_text noon
             (PDict (dated [PDict (milk (PInt 10) (PInt 2) "2025-01-08")] "2025-01-01"))))
             ltac:(vm_compute; reflexivity)
             [PDict (milk (PInt 10) (PInt 2) "2025-01-08")]
             ltac:(vm_compute; reflexivity)).
    apply Forall_cons_2; [vm_compute; reflexivity | apply Forall_nil_2].
Defined.

(** C5 as stated fails on a list whose records are not dicts: the list [[1]]
    is none of the three fatal shapes, and the call raises [TypeError]
    instead of returning a result with status "success". *)
Lemma success_needs_dict_records :
  fatal (PList [PInt 1]) = false
  /\ check_inventory_expiry noon (PList [PInt 1]) = Raise TypeError.
Proof. split; vm_compute; reflexivity. Qed.

(** ** Buckets and counts *)

Section Counts.
Context `{text : Text}.

(** C8: in a successful analysis the five counts of the summary are the
    lengths of the five lists; every input record has its entry in one of
    the five lists, and the counts add up to the number of input records,
    whether the input is the list of records itself or a dict that holds it
    under ['inventory']: each record is in exactly one bucket. *)
Theorem counts_partition_the_records (now : datetime) (inventory_data : pyval)
    (s : summary) (b : buckets) (ts : datetime) :
  check_inventory_expiry now inventory_data = Return (Success s b ts) ->
  summary_expired_items s = length (expired_items b)
  /\ summary_critical_items s = length (critical_items b)
  /\ summary_warning_items s = length (warning_items b)
  /\ summary_ok_items s = length (ok_items b)
  /\ summary_skipped_items s = length (skipped_items b)
  /\ (forall records,
        inventory_data = PList records
        \/ (exists d, inventory_data = PDict d
                      /\ d !! "inventory" = Some (PList records)) ->
        (summary_expired_items s + summary_critical_items s
         + summary_warning_items s + summary_ok_items s
         + summary_skipped_items s)%nat = length records
        /\ forall (i : nat) it,
             records !! i = Some it ->
             exists p, process_item ts i it = Return p /\ placed p b).
Proof.
  intros Hcall.
  apply check_inventory_expiry_Success in Hcall as (items & _ & Hit & Hrun & ->).
  simpl. do 5 (split; [reflexivity|]).
  intros records Hshape.
  assert (Hseq : record_sequence inventory_data = PList records).
  { destruct Hshape as [->|(d & -> & Hd)]; simpl; [reflexivity|].
    unfold get_default. rewrite Hd. reflexivity. }
  unfold input_records in Hit. rewrite Hseq in Hit. simpl in Hit.
  inversion Hit; subst. split.
  - apply run_loop_total in Hrun. unfold total in Hrun. simpl in Hrun. exact Hrun.
  - intros i it Hi. apply (run_loop_each _ _ _ _ _ _ _ Hrun Hi).
Qed.

End Counts.

(** Three records, seen at noon on 2025-01-01: one critical, one expired and
    one skipped. *)
Lemma counts_partition_the_records_witness :
  exists s b ts,
    check_inventory_expiry noon (PList three_records) = Return (Success s b ts)
    /\ (summary_expired_items s + summary_critical_items s
        + summary_warning_items s + summary_ok_items s
        + summary_skipped_items s)%nat = length three_records.
Proof.
  destruct (check_inventory_expiry noon (PList three_records))
    as [[msg ts|s b ts]|ex] eqn:Hcall; try (vm_compute in Hcall; discriminate).
  exists s, b, ts. split; [reflexivity|].
  apply (proj1 (proj2 (proj2 (proj2 (proj2 (proj2
           (counts_partition_the_records noon (PList three_records) s b ts Hcall)))))
           three_records (or_introl eq_refl))).
Defined.

(** ** Monetary totals *)

Section Totals.
Context `{text : Text}.

(** C6, as amended: in a successful analysis every classified entry comes
    from an input record and its [value_at_risk] is
    [round(purchase_price * quantity, 2)], where a purchase price (or a
    quantity) that is missing, [None] or otherwise false counts as 0;
    [total_value_at_risk] is the sum of [value_at_risk] over the critical
    and the warning list only, rounded to two decimals, and
    [total_expired_value] is the sum over the expired list only, rounded to
    two decimals. *)
Theorem value_at_risk_and_totals (now : datetime) (inventory_data : pyval)
    (s : summary) (b : buckets) (ts : datetime) :
  check_inventory_expiry now inventory_data = Return (Success s b ts) ->
  (forall t e, In e (bucket t b) ->
     exists records (index : nat) item price qty,
       input_records inventory_data = Return records
       /\ records !! index = Some (PDict item)
       /\ quantity e = get item "quantity"
       /\ py_float (py_or (get item "purchase_price") (PInt 0)) = Return price
       /\ py_float (py_or (get item "quantity") (PInt 0)) = Return qty
       /\ (price_of item = None -> price = 0%float)
       /\ value_at_risk e = round2 (price * qty))
  /\ total_value_at_risk s
     = round2 (sum (map value_at_risk (critical_items b ++ warning_items b)))
  /\ total_expired_value s = round2 (sum (map value_at_risk (expired_items b))).
Proof.
  intros Hcall.
  apply check_inventory_expiry_Success in Hcall as (items & _ & Hit & Hrun & ->).
  split; [|split; reflexivity].
  intros t e Hin.
  destruct (run_loop_origin _ _ _ _ _ _ _ Hrun Hin) as [Hold|(i & it & Hi & Hp)].
  { destruct t; simpl in Hold; contradiction. }
  apply process_item_Classified in Hp as (item & msg & -> & Hv & Henr & _).
  destruct Henr as (expiry & delta & price & qty & _ & _ & Hprice & Hqty & Hz & ->).
  exists items, i, item, price, qty. simpl. repeat split; assumption.
Qed.

End Totals.

(** Two critical entries worth 0.1 and 0.2: a total at risk of 0.3. *)
Lemma value_at_risk_and_totals_witness :
  exists s b,
    check_inventory_expiry noon (PDict (dated two_critical "2025-01-01"))
      = Return (Success s b (Datetime 739252 0 None))
    /\ total_value_at_risk s
       = round2 (sum (map value_at_risk (critical_items b ++ warning_items b)))
    /\ total_value_at_risk s = 0.3%float.
Proof.
  destruct (check_inventory_expiry noon (PDict (dated two_critical "2025-01-01")))
    as [[msg ts|s b ts]|ex] eqn:Hcall; try (vm_compute in Hcall; discriminate).
  assert (ts = Datetime 739252 0 None) as ->
    by (vm_compute in Hcall; inversion Hcall; reflexivity).
  exists s, b. split; [reflexivity|]. split.
  - exact (proj1 (proj2 (value_at_risk_and_totals noon _ s b _ Hcall))).
  - vm_compute in Hcall. inversion Hcall. reflexivity.
Defined.

(** C6 as stated fails on the totals: with two critical entries worth 0.1
    and 0.2 the sum of [value_at_risk] over the critical and warning lists is
    0.30000000000000004, and [total_value_at_risk] is 0.3. *)
Lemma total_value_at_risk_is_rounded :
  exists s b ts,
    check_inventory_expiry noon (PDict (dated two_critical "2025-01-01"))
      = Return (Success s b ts)
    /\ map value_at_risk (critical_items b) = [0.1%float; 0.2%float]
    /\ warning_items b = []
    /\ sum (map value_at_risk (critical_items b ++ warning_items b))
       = 0.30000000000000004%float
    /\ total_value_at_risk s = 0.3%float
    /\ PrimFloat.eqb (total_value_at_risk s)
         (sum (map value_at_risk (critical_items b ++ warning_items b))) = false.
Proof.
  eexists. eexists. eexists. split; [vm_compute; reflexivity|].
  repeat split; vm_compute; reflexivity.
Qed.

(** ** Uncaught exceptions *)

(** C10: on a list of one dict whose quantity is the integer [10^400] the
    call raises [OverflowError], whatever the clock reads; on a list of one
    dict whose expiry date carries a UTC offset it raises [TypeError], since
    the clock reading has none.  Neither record is skipped and no result is
    returned. *)
Theorem dict_records_can_raise :
  (forall now, check_inventory_expiry now (PList [huge_quantity]) = Raise OverflowError)
  /\ (forall ordinal micros,
        check_inventory_expiry (Datetime ordinal micros None) (PList [offset_expiry])
          = Raise TypeError).
Proof.
  split.
  - intros now. vm_compute. reflexivity.
  - intros ordinal micros. vm_compute. reflexivity.
Qed.

End InventoryFacts.

(* ===================================================================== *)
(** * Properties of the cashflow predictor                                *)
(* ===================================================================== *)

Module CashflowFacts.
Import Py PyFacts Cashflow CashflowSpec.
#[local] Open Scope string_scope.

(** ** Recommendations *)

Lemma recommendations_map_lookup (risk_level : string) :
  recommendations_map !! risk_level
  = if decide (risk_level = "critical") then recommendations_map !! "critical"
    else if decide (risk_level = "warning") then recommendations_map !! "warning"
    else if decide (risk_level = "ok") then recommendations_map !! "ok"
    else if decide (risk_level = "stable") then recommendations_map !! "stable"
    else None.
Proof.
  repeat (case_decide; [subst; reflexivity|]).
  unfold recommendations_map.
  rewrite !lookup_insert_ne by congruence. apply lookup_empty.
Qed.

(** C9: [generate_recommendations] returns a list for every string; for
    each of the four recognized tiers it is that tier's fixed list, for
    every other string it is the one generic fallback recommendation; the
    list is never empty and its priorities are 1, 2, ... in order. *)
Theorem generate_recommendations_total (risk_level : string) :
  generate_recommendations risk_level <> []
  /\ map priority (generate_recommendations risk_level)
     = map Z.of_nat (seq 1 (length (generate_recommendations risk_level)))
  /\ generate_recommendations "critical"
     = [Recommendation 1 "Reduce non-essential expenses immediately";
        Recommendation 2 "Follow up on all pending payments";
        Recommendation 3 "Consider short-term financing options"]
  /\ generate_recommendations "warning"
     = [Recommendation 1 "Review and cut discretionary spending";
        Recommendation 2 "Speed up collection of receivables";
        Recommendation 3 "Identify and plan new revenue sources"]
  /\ generate_recommendations "ok"
     = [Recommendation 1 "Monitor cashflow on a weekly basis";
        Recommendation 2 "Build an emergency cash reserve"]
  /\ generate_recommendations "stable"
     = [Recommendation 1 "Maintain current financial discipline";
        Recommendation 2 "Consider reinvesting surplus into inventory"]
  /\ (~ recognized risk_level ->
      generate_recommendations risk_level
      = [Recommendation 1 "Review your transaction data for accuracy"]).
Proof.
  assert (Hcases : recognized risk_level
                   \/ generate_recommendations risk_level = fallback_recommendations).
  { unfold generate_recommendations, recognized.
    rewrite recommendations_map_lookup.
    repeat (case_decide; [tauto|]). right. reflexivity. }
  split; [|split; [|repeat split; try (vm_compute; reflexivity)]].
  - destruct Hcases as [[->|[->|[->| ->]]]| ->]; vm_compute; discriminate.
  - destruct Hcases as [[->|[->|[->| ->]]]| ->]; vm_compute; reflexivity.
  - intros Hn. destruct Hcases as [Hr| ->]; [contradiction | reflexivity].
Qed.

(** A level the table does not know. *)
Lemma generate_recommendations_total_witness :
  generate_recommendations "expired"
  = [Recommendation 1 "Review your transaction data for accuracy"].
Proof.
  apply (proj2 (proj2 (proj2 (proj2 (proj2 (proj2
           (generate_recommendations_total "expired"))))))).
  unfold recognized. intros [H|[H|[H|H]]]; discriminate.
Defined.

(** ** Confidence score *)

(** The eight values the score can take lie between 0 and 1. *)
Lemma rounded_product_in_unit_interval (days : option Z) (n : nat) :
  let c := round2 (days_score days * density_score n days) in
  PrimFloat.leb 0 c = true /\ PrimFloat.leb c 1 = true.
Proof.
  unfold days_score, density_score.
  destruct (PrimFloat.leb _ (transactions_per_day n days));
    destruct days as [d|];
    try (destruct (MIN_DAYS_FOR_FULL_CONFIDENCE <=? d)%Z;
         [|destruct (MID_DAYS_FOR_MEDIUM_CONFIDENCE <=? d)%Z;
           [|destruct (MIN_DAYS_FOR_LOW_CONFIDENCE <=? d)%Z]]);
    split; vm_compute; reflexivity.
Qed.

Section Confidence.
Context `{Pandas}.

(** C7, as amended: for a history whose dates parse and are not all
    missing, with [span] the inclusive number of days from the earliest to
    the latest date, [calculate_confidence] returns
    [round(days_score * density_score, 2)], where [days_score] is 1.0 for a
    span of at least 90 days, 0.85 for at least 60, 0.70 for at least 30 and
    0.50 below, and [density_score] is 1.0 when the number of transactions
    divided by the span is at least 5 and 0.70 otherwise.  The score is in
    [0, 1]; a span of 90 days with at least 5 transactions per day gives
    1.0; a span of 10 days with 10 transactions gives 0.35. *)
Theorem confidence_is_the_rounded_product
    (dates : list pyval) (ts : list (option Z)) (span : Z) :
  to_datetime dates = Return ts ->
  days_of_data ts = Some span ->
  let n := length dates in
  let c := round2 (days_score (Some span) * density_score n (Some span)) in
  calculate_confidence dates = Return c
  /\ (exists hi lo, series_max ts = Some hi /\ series_min ts = Some lo
                    /\ span = ((hi - lo) / NANOS_PER_DAY + 1)%Z)
  /\ days_score (Some span)
     = (if (90 <=? span)%Z then 1.0%float
        else if (60 <=? span)%Z then 0.85%float
        else if (30 <=? span)%Z then 0.70%float
        else 0.50%float)
  /\ density_score n (Some span)
     = (if PrimFloat.leb 5 (transactions_per_day n (Some span))
        then 1.0%float else 0.70%float)
  /\ PrimFloat.leb 0 c = true /\ PrimFloat.leb c 1 = true
  /\ (span = 90%Z -> PrimFloat.leb 5 (transactions_per_day n (Some span)) = true ->
      c = 1.0%float)
  /\ (span = 10%Z -> n = 10%nat -> c = 0.35%float).
Proof.
  intros Hts Hspan n c.
  split; [|split; [|split; [|split; [|split; [|split; [|split]]]]]].
  - unfold calculate_confidence. rewrite Hts. simpl. rewrite Hspan. reflexivity.
  - unfold days_of_data in Hspan.
    destruct (series_max ts) as [hi|]; [|discriminate].
    destruct (series_min ts) as [lo|]; [|discriminate].
    inversion Hspan. eauto.
  - reflexivity.
  - reflexivity.
  - apply rounded_product_in_unit_interval.
  - apply rounded_product_in_unit_interval.
  - intros -> Htpd. subst c. unfold density_score.
    change (float_of_Z MIN_TRANSACTIONS_PER_DAY) with 5%float. rewrite Htpd.
    vm_compute. reflexivity.
  - intros -> Hn. subst c. rewrite Hn. vm_compute. reflexivity.
Qed.

End Confidence.

(** Ten transactions on ten consecutive days. *)
Lemma confidence_is_the_rounded_product_witness :
  @calculate_confidence plain_pandas ten_days = Return 0.35%float.
Proof.
  destruct (@to_datetime plain_pandas ten_days) as [ts|ex] eqn:Hts;
    [|vm_compute in Hts; discriminate].
  pose proof (@confidence_is_the_rounded_product plain_pandas ten_days ts 10 Hts
                ltac:(vm_compute in Hts; inversion Hts; vm_compute; reflexivity))
    as (Hc & _ & _ & _ & _ & _ & _ & Hten).
  rewrite Hc. exact (f_equal Return (Hten eq_refl eq_refl)).
Defined.

(** C7 as stated fails where the product has a third decimal: two
    transactions 60 days apart (inclusive) have [days_score] 0.85 and
    [density_score] 0.70, whose product is 0.595, and the score returned is
    0.59. *)
Lemma confidence_is_not_the_product :
  @to_datetime plain_pandas sixty_days
    = Return [Some 63871372800000000000%Z; Some 63876470400000000000%Z]
  /\ days_of_data [Some 63871372800000000000%Z; Some 63876470400000000000%Z]
     = Some 60%Z
  /\ days_score (Some 60%Z) = 0.85%float
  /\ density_score (length sixty_days) (Some 60%Z) = 0.70%float
  /\ (0.85 * 0.70)%float = 0.59499999999999997%float
  /\ @calculate_confidence plain_pandas sixty_days = Return 0.59%float
  /\ PrimFloat.eqb 0.59 (0.85 * 0.70) = false.
Proof. repeat split; vm_compute; reflexivity. Qed.

(** ** The risk classification *)

Lemma level_of_thresholds (days : Z) :
  ((days <= 30)%Z -> level_of days = "critical")
  /\ ((30 < days <= 60)%Z -> level_of days = "warning")
  /\ ((60 < days)%Z -> level_of days = "ok").
Proof.
  unfold level_of, CRITICAL_THRESHOLD, WARNING_THRESHOLD.
  repeat split; intros Hd;
    destruct (Z.leb_spec days 30); destruct (Z.leb_spec days 60);
    try reflexivity; lia.
Qed.

Lemma classify_risk_stable current_balance burn :
  PrimFloat.leb burn 0 = true ->
  classify_risk current_balance burn = Return ("stable", None).
Proof. intros Hb. unfold classify_risk. rewrite Hb. reflexivity. Qed.

Lemma classify_risk_burning current_balance burn balance days :
  PrimFloat.leb burn 0 = false ->
  py_float current_balance = Return balance ->
  int_of_float (balance / burn) = Return days ->
  classify_risk current_balance burn = Return (level_of days, Some days).
Proof.
  intros Hb Hbal Hdays. unfold classify_risk, level_of.
  rewrite Hb, Hbal. simpl. rewrite Hdays. simpl.
  destruct (days <=? CRITICAL_THRESHOLD)%Z; [reflexivity|].
  destruct (days <=? WARNING_THRESHOLD)%Z; reflexivity.
Qed.

(** When [classify_risk] returns. *)
Lemma classify_risk_returns current_balance burn :
  returns (classify_risk current_balance burn)
  <-> PrimFloat.leb burn 0 = true
      \/ exists balance days,
           py_float current_balance = Return balance
           /\ int_of_float (balance / burn) = Return days.
Proof.
  split.
  - intros [[level days] Hr]. unfold classify_risk in Hr.
    destruct (PrimFloat.leb burn 0); [left; reflexivity|]. right.
    apply bind_Return in Hr as (balance & Hbal & Hr).
    apply bind_Return in Hr as (d & Hd & _). eauto.
  - intros [Hb|(balance & days & Hbal & Hd)].
    + rewrite (classify_risk_stable _ _ Hb). eexists; reflexivity.
    + destruct (PrimFloat.leb burn 0) eqn:Hb.
      * rewrite (classify_risk_stable _ _ Hb). eexists; reflexivity.
      * rewrite (classify_risk_burning _ _ _ _ Hb Hbal Hd). eexists; reflexivity.
Qed.

(** ** The checks on a list of dicts *)

Lemma check_required_fields_dicts (transactions : list pyval) :
  Forall (fun t => is_dict t = true) transactions ->
  check_required_fields transactions
  = if existsb lacks_field transactions then Raise ValueError
    else Return (rows_of transactions).
Proof.
  induction 1 as [|t rest Ht _ IH]; [reflexivity|].
  destruct t as [| | | | | |d]; try discriminate. simpl.
  destruct (missing_fields d); simpl; [|reflexivity].
  rewrite IH. destruct (existsb lacks_field rest); reflexivity.
Qed.

Lemma invalid_rows_dicts (transactions : list pyval) :
  Forall (fun t => is_dict t = true) transactions ->
  existsb out_of_domain_type transactions = false
  <-> invalid_rows (rows_of transactions) = [].
Proof.
  unfold invalid_rows.
  induction 1 as [|t rest Ht _ IH]; [split; reflexivity|].
  destruct t as [| | | | | |d]; try discriminate.
  change (rows_of (PDict d :: rest)) with (d :: rows_of rest). simpl.
  destruct (type_is "income" d || type_is "expense" d) eqn:Hty; simpl.
  - exact IH.
  - split; discriminate.
Qed.

(** ** The prediction *)

(** What the loop over the transactions does on any list: it raises
    [AttributeError] at an element that is not a dict, [ValueError] at a dict
    that lacks a field, and otherwise returns the rows. *)
Lemma check_required_fields_outcome (transactions : list pyval) :
  match check_required_fields transactions with
  | Return df =>
      Forall (fun t => is_dict t = true) transactions
      /\ existsb lacks_field transactions = false
      /\ df = rows_of transactions
  | Raise ex =>
      ex = ValueError
      \/ (ex = AttributeError /\ Exists (fun t => is_dict t = false) transactions)
  end.
Proof.
  induction transactions as [|t rest IH]; simpl.
  - split; [constructor|]. split; reflexivity.
  - destruct t as [| | | | | |d]; simpl;
      try (right; split; [reflexivity | apply Exists_cons_hd; reflexivity]).
    destruct (missing_fields d) eqn:Hm; simpl; [|left; reflexivity].
    destruct (check_required_fields rest) as [ds|ex]; simpl.
    + destruct IH as (Hd & Hl & ->). split; [constructor; auto|].
      split; [exact Hl | reflexivity].
    + destruct IH as [->|[-> Hex]]; [left; reflexivity|].
      right. split; [reflexivity | apply Exists_cons_tl; exact Hex].
Qed.

(** ** The balance and the days *)

(** [float] of a balance that is a number. *)
Lemma py_float_balance_of (current_balance : pyval) :
  is_number current_balance = true ->
  py_float current_balance
  = match balance_of current_balance with
    | Some balance => Return balance
    | None => Raise OverflowError
    end.
Proof.
  destruct current_balance as [|b|z|f|s|l|d]; try discriminate; intros _;
    try reflexivity.
  simpl. unfold float_of_int. destruct (PrimFloat.is_infinity _); reflexivity.
Qed.

(** [int] of a float returns exactly on the finite ones. *)
Lemma int_of_float_returns (x : float) :
  returns (int_of_float x) <-> isfinite x = true.
Proof.
  unfold returns, int_of_float, isfinite.
  destruct (Prim2SF x); split; intros Hx; try reflexivity; eauto;
    try discriminate; destruct Hx; discriminate.
Qed.

Section Prediction.
Context `{Pandas}.

(** The call on an input that passes the four checks, step by step. *)
Lemma predict_cashflow_risk_steps now transactions current_balance df
    confidence avg_income avg_expense level days :
  transactions <> [] ->
  is_number current_balance = true ->
  check_required_fields transactions = Return df ->
  invalid_rows df = [] ->
  calculate_confidence (column df "date") = Return confidence ->
  average (List.filter (type_is "income") df) = Return avg_income ->
  average (List.filter (type_is "expense") df) = Return avg_expense ->
  classify_risk current_balance (avg_expense - avg_income) = Return (level, days) ->
  predict_cashflow_risk now transactions current_balance
  = Return (Prediction level days
              (round_average (List.filter (type_is "income") df) avg_income)
              (round_average (List.filter (type_is "expense") df) avg_expense)
              (scalar_round2 (avg_expense - avg_income))
              confidence (generate_recommendations level) now).
Proof.
  intros Hne Hnum Hdf Hinv Hc Hai Hae Hrisk. unfold predict_cashflow_risk.
  destruct transactions as [|t rest]; [contradiction|].
  rewrite Hnum. simpl negb. cbv iota. rewrite Hdf. simpl bind. rewrite Hinv.
  rewrite Hc. simpl bind. rewrite Hai. simpl bind. rewrite Hae. simpl bind.
  rewrite Hrisk. reflexivity.
Qed.


(** C2, as amended: for a history that passes the checks with a burn rate
    [> 0], a numeric balance that fits a float and a finite quotient, the
    call returns with [days_until_broke = int(current_balance / burn_rate)],
    the quotient truncated toward zero: the floor when the balance is not
    negative, the floor or one more in general.  The level is "critical"
    for [days_until_broke <= 30], "warning" for [30 < days_until_broke <= 60]
    and "ok" above 60. *)
Theorem days_until_broke_truncates now transactions current_balance df
    confidence avg_income avg_expense balance days :
  transactions <> [] ->
  is_number current_balance = true ->
  check_required_fields transactions = Return df ->
  invalid_rows df = [] ->
  calculate_confidence (column df "date") = Return confidence ->
  average (List.filter (type_is "income") df) = Return avg_income ->
  average (List.filter (type_is "expense") df) = Return avg_expense ->
  PrimFloat.ltb 0 (avg_expense - avg_income) = true ->
  py_float current_balance = Return balance ->
  int_of_float (balance / (avg_expense - avg_income)) = Return days ->
  (exists p,
     predict_cashflow_risk now transactions current_balance = Return p
     /\ days_until_broke p = Some days
     /\ risk_level p = level_of days)
  /\ ((days <= 30)%Z -> level_of days = "critical")
  /\ ((30 < days <= 60)%Z -> level_of days = "warning")
  /\ ((60 < days)%Z -> level_of days = "ok")
  /\ (PrimFloat.leb 0 balance = true ->
      floor_of_float (balance / (avg_expense - avg_income)) = Return days)
  /\ (forall fl,
        floor_of_float (balance / (avg_expense - avg_income)) = Return fl ->
        ((0 <= fl)%Z -> days = fl) /\ (days = fl \/ days = (fl + 1)%Z)).
Proof.
  intros Hne Hnum Hdf Hinv Hc Hai Hae Hburn Hbal Hdays.
  split; [|split; [|split; [|split; [|split]]]]; try apply level_of_thresholds.
  - eexists. split.
    + apply (predict_cashflow_risk_steps now transactions current_balance df
               confidence avg_income avg_expense (level_of days) (Some days));
        try assumption.
      apply (classify_risk_burning _ _ balance days);
        [apply ltb_0_not_leb; exact Hburn | exact Hbal | exact Hdays].
    + split; reflexivity.
  - intros Hpos. rewrite floor_of_float_not_negative; [exact Hdays|].
    apply div_not_negative; assumption.
  - intros fl Hfl. split.
    + intros Hpos. eapply int_of_float_floor; eauto.
    + eapply int_of_float_floor_or_succ; eauto.
Qed.

(** The mean of a part is what [average] returns for it. *)
Lemma average_has_mean part avg : average part = Return avg <-> has_mean part avg.
Proof.
  destruct part; simpl; [|reflexivity].
  split; [intros Ha; inversion Ha; reflexivity | intros ->; reflexivity].
Qed.

(** C4, as amended: the call raises whenever the list is empty, the balance
    is not a number, a transaction lacks one of the fields date, type and
    amount, or a transaction's type is outside {income, expense}: it raises
    [ValueError] or [TypeError], or [AttributeError] when an element of the
    list is not a dict.  On a list of dicts with none of these four
    triggers it returns a result exactly when the library reads the dates,
    the amounts of each part that is not empty have a mean, and, for a burn
    rate that is not [<= 0], the balance is not an integer beyond the
    largest float and the balance divided by the burn rate is finite. *)
Theorem fatal_triggers now (transactions : list pyval) (current_balance : pyval) :
  (fatal_trigger transactions current_balance = true ->
   predict_cashflow_risk now transactions current_balance = Raise ValueError
   \/ predict_cashflow_risk now transactions current_balance = Raise TypeError
   \/ (predict_cashflow_risk now transactions current_balance = Raise AttributeError
       /\ Exists (fun t => is_dict t = false) transactions))
  /\ (Forall (fun t => is_dict t = true) transactions ->
      (fatal_trigger transactions current_balance = true ->
       predict_cashflow_risk now transactions current_balance = Raise ValueError
       \/ predict_cashflow_risk now transactions current_balance = Raise TypeError)
      /\ (fatal_trigger transactions current_balance = false ->
          (returns (predict_cashflow_risk now transactions current_balance)
           <-> calculation_succeeds (rows_of transactions) current_balance))).
Proof.
  assert (Hfatal :
            fatal_trigger transactions current_balance = true ->
            predict_cashflow_risk now transactions current_balance = Raise ValueError
            \/ predict_cashflow_risk now transactions current_balance = Raise TypeError
            \/ (predict_cashflow_risk now transactions current_balance
                = Raise AttributeError
                /\ Exists (fun t => is_dict t = false) transactions)).
  { unfold fatal_trigger, predict_cashflow_risk.
    destruct transactions as [|t rest] eqn:Htx; [auto|].
    rewrite <- Htx in *. assert (Hemp : empty_history transactions = false)
      by (subst; reflexivity). rewrite Hemp. simpl orb.
    destruct (is_number current_balance); simpl; [|auto].
    pose proof (check_required_fields_outcome transactions) as Hcheck.
    destruct (check_required_fields transactions) as [df|ex]; simpl.
    - destruct Hcheck as (Hdicts & Hl & ->). rewrite Hl. simpl.
      intros Hty. left.
      destruct (invalid_rows (rows_of transactions)) eqn:Hinv; [|reflexivity].
      apply (invalid_rows_dicts _ Hdicts) in Hinv. congruence.
    - intros _. destruct Hcheck as [->|[-> Hex]]; auto. }
  split; [exact Hfatal|].
  intros Hdicts. split.
  { intros Ht. destruct (Hfatal Ht) as [Hv|[Hv|[_ Hex]]]; auto.
    exfalso. apply Exists_exists in Hex as (t & Hin & Hnd).
    rewrite Forall_forall in Hdicts. rewrite (Hdicts t Hin) in Hnd. discriminate. }
  unfold fatal_trigger, predict_cashflow_risk.
  destruct transactions as [|t rest] eqn:Htx; [discriminate|].
  rewrite <- Htx in *. assert (Hemp : empty_history transactions = false)
    by (subst; reflexivity). rewrite Hemp. simpl orb.
  destruct (is_number current_balance) eqn:Hnum; simpl; [|discriminate].
  rewrite (check_required_fields_dicts _ Hdicts).
  destruct (existsb lacks_field transactions); simpl; [discriminate|].
  pose proof (invalid_rows_dicts _ Hdicts) as Hinv.
  destruct (existsb out_of_domain_type transactions); [discriminate|].
  rewrite (proj1 Hinv eq_refl). intros _.
  unfold calculation_succeeds, calculate_confidence, classify_risk.
  rewrite (py_float_balance_of _ Hnum).
  destruct (to_datetime (column (rows_of transactions) "date")) as [ts|ex];
    simpl bind; [|split; [intros [p Hp]; discriminate
                         | intros (ts & _ & _ & Hts & _); discriminate]].
  split.
  - intros [p Hp].
    apply bind_Return in Hp as (avg_income & Hai & Hp).
    apply bind_Return in Hp as (avg_expense & Hae & Hp).
    apply bind_Return in Hp as ([level days] & Hrisk & _).
    exists ts, avg_income, avg_expense. split; [reflexivity|].
    split; [apply average_has_mean; exact Hai|].
    split; [apply average_has_mean; exact Hae|].
    destruct (PrimFloat.leb (avg_expense - avg_income) 0); [left; reflexivity|].
    right. destruct (balance_of current_balance) as [balance|]; [|discriminate].
    exists balance. split; [reflexivity|]. simpl in Hrisk.
    apply int_of_float_returns.
    destruct (int_of_float (balance / (avg_expense - avg_income))) as [days'|ex];
      [eexists; reflexivity | discriminate].
  - intros (ts' & avg_income & avg_expense & _ & Hai & Hae & Hrisk).
    apply average_has_mean in Hai, Hae.
    rewrite Hai. simpl bind. rewrite Hae. simpl bind.
    destruct (PrimFloat.leb (avg_expense - avg_income) 0) eqn:Hburn;
      [eexists; reflexivity|].
    destruct Hrisk as [Hrisk|(balance & Hb & Hfin)]; [discriminate|].
    rewrite Hb. simpl bind.
    apply int_of_float_returns in Hfin as [days Hdays]. rewrite Hdays. simpl bind.
    destruct (days <=? CRITICAL_THRESHOLD)%Z; [eexists; reflexivity|].
    destruct (days <=? WARNING_THRESHOLD)%Z; eexists; reflexivity.
Qed.

End Prediction.


(** A balance of 1800 lasts 30 days at a burn rate of 60: critical. *)
Lemma days_until_broke_truncates_witness :
  exists p,
    @predict_cashflow_risk plain_pandas noon burning (PInt 1800) = Return p
    /\ days_until_broke p = Some 30%Z
    /\ risk_level p = "critical".
Proof.
  destruct (@days_until_broke_truncates plain_pandas noon burning (PInt 1800)
              (rows_of burning) 0.35%float 40%float 100%float 1800%float 30%Z
              ltac:(discriminate) ltac:(reflexivity)
              ltac:(vm_compute; reflexivity) ltac:(vm_compute; reflexivity)
              ltac:(vm_compute; reflexivity) ltac:(vm_compute; reflexivity)
              ltac:(vm_compute; reflexivity) ltac:(vm_compute; reflexivity)
              ltac:(vm_compute; reflexivity) ltac:(vm_compute; reflexivity))
    as [(p & Hp & Hd & Hl) _].
  exists p. auto.
Defined.

(** C2 as stated fails on a negative balance: with a balance of -50 and a
    burn rate of 100 the quotient is -0.5, whose floor is -1;
    [days_until_broke] is 0. *)
Lemma days_until_broke_is_not_the_floor :
  @average plain_pandas (List.filter (type_is "expense") (rows_of one_expense))
    = Return 100%float
  /\ @average plain_pandas (List.filter (type_is "income") (rows_of one_expense))
     = Return 0%float
  /\ py_float (PInt (-50)) = Return (-50)%float
  /\ ((-50) / (100 - 0))%float = (-0.5)%float
  /\ floor_of_float (-0.5)%float = Return (-1)%Z
  /\ exists p,
       @predict_cashflow_risk plain_pandas noon one_expense (PInt (-50)) = Return p
       /\ days_until_broke p = Some 0%Z
       /\ risk_level p = "critical".
Proof.
  repeat split; try (vm_compute; reflexivity).
  eexists. split; [vm_compute; reflexivity|]. split; reflexivity.
Qed.

(** A transaction without an amount is fatal; the burning history is not. *)
Lemma fatal_triggers_witness :
  (@predict_cashflow_risk plain_pandas noon no_amount (PInt 100) = Raise ValueError
   \/ @predict_cashflow_risk plain_pandas noon no_amount (PInt 100) = Raise TypeError)
  /\ returns (@predict_cashflow_risk plain_pandas noon burning (PInt 1800)).
Proof.
  split.
  - apply (proj1 (proj2 (@fatal_triggers plain_pandas noon no_amount (PInt 100))
                    ltac:(repeat constructor))).
    vm_compute; reflexivity.
  - apply (proj2 (proj2 (@fatal_triggers plain_pandas noon burning (PInt 1800))
                    ltac:(repeat constructor))
                 ltac:(vm_compute; reflexivity)).
    eexists _, 40%float, 100%float.
    split; [vm_compute; reflexivity|]. split; [vm_compute; reflexivity|].
    split; [vm_compute; reflexivity|]. right.
    exists 1800%float. split; vm_compute; reflexivity.
Defined.

(** C4 as stated fails on a transaction that lacks a field: the list is not
    empty, the balance is a number and the one type is "income", and the
    call raises [ValueError]. *)
Lemma missing_field_is_fatal :
  empty_history no_amount = false
  /\ is_number (PInt 100) = true
  /\ existsb out_of_domain_type no_amount = false
  /\ @predict_cashflow_risk plain_pandas noon no_amount (PInt 100) = Raise ValueError.
Proof. repeat split; vm_compute; reflexivity. Qed.

End CashflowFacts.

(* ===================================================================== *)
(** * Further properties of the inventory expiry tracker                  *)
(* ===================================================================== *)

Module InventoryExtras.
Import Py PyFacts Inventory InventorySpec InventoryFacts.
#[local] Open Scope string_scope.

Ltac record_key := unfold RECORD_KEYS, REQUIRED_FIELDS; simpl; tauto.

(** The theorems of this section hold for every reading of text by [float]
    and [datetime.fromisoformat]; what follows it is about [plain_text]. *)
Section WithText.
Context `{text : Text}.

(** ** Validation *)

Lemma get_Some (item : gmap string pyval) key v :
  item !! key = Some v -> get item key = v.
Proof. intros Hv. unfold get. rewrite Hv. reflexivity. Qed.

(** What [check_number] answers, and why. *)
Lemma check_number_Some item key neg nn msg :
  check_number item key neg nn = Return (Some msg) ->
  (msg = neg /\ exists x, py_float (get item key) = Return x
                          /\ PrimFloat.ltb x 0 = true)
  \/ (msg = nn /\ exists ex, py_float (get item key) = Raise ex
                             /\ (ex = TypeError \/ ex = ValueError)).
Proof.
  unfold check_number, getitem, get.
  destruct (item !! key) as [v|]; simpl; [|discriminate].
  destruct (py_float v) as [x|ex] eqn:Hf; simpl.
  - destruct (PrimFloat.ltb x 0) eqn:Hx; [|discriminate].
    intros Hm. inversion Hm. left. eauto.
  - destruct ex; simpl; try discriminate; intros Hm; inversion Hm; right; eauto.
Qed.

Lemma check_number_Raise item key neg nn ex :
  check_number item key neg nn = Raise ex ->
  contains item key = true ->
  ex = OverflowError /\ overflows (get item key) = true.
Proof.
  intros Hr Hc. apply contains_Some in Hc as [v Hv].
  rewrite (check_number_present _ _ _ _ _ Hv) in Hr.
  unfold overflows. rewrite (get_Some _ _ _ Hv).
  destruct (py_float v) as [x|e] eqn:Hf; [discriminate|].
  destruct (py_float_Raise _ _ Hf) as [->|[->| ->]]; simpl in Hr; try discriminate.
  inversion Hr. auto.
Qed.

(** A rejection has its cause. *)
Lemma validate_item_rejects (item : gmap string pyval) (index : nat) (msg : message) :
  validate_item item index = Return (false, msg) -> rejection_cause item index msg.
Proof.
  intros Hv. unfold validate_item in Hv. unfold rejection_cause.
  destruct (first_missing item) as [field|] eqn:Hm.
  { left. inversion Hv; subst. exists field. split; [reflexivity|].
    unfold first_missing in Hm. apply find_some in Hm as [Hin Hc].
    split; [exact Hin|]. unfold contains in Hc.
    destruct (item !! field); [discriminate | reflexivity]. }
  right.
  destruct (check_number item "quantity" _ _) as [[bad|]|e] eqn:Hq; simpl in Hv;
    try discriminate.
  { inversion Hv; subst bad.
    apply check_number_Some in Hq as [[-> Hq]|[-> Hq]]; [left | right; left]; auto. }
  right. right.
  destruct (contains item "purchase_price") eqn:Hc; simpl in Hv; [|discriminate].
  destruct (is_None (get item "purchase_price")) eqn:Hn; simpl in Hv; [discriminate|].
  assert (Hprice : price_of item = Some (get item "purchase_price")).
  { unfold price_of, get in *. destruct (item !! "purchase_price") as [w|];
      [|discriminate]. simpl in *. destruct w; try reflexivity. discriminate. }
  destruct (check_number item "purchase_price" _ _) as [[bad|]|e] eqn:Hpp;
    simpl in Hv; try discriminate.
  inversion Hv; subst bad.
  apply check_number_Some in Hpp as [[-> (p & Hp & Hlt)]|[-> (ex & Hp & Hex)]];
    [left | right]; split; try reflexivity; eauto.
Qed.

Lemma validate_item_true_NoMessage item index msg :
  validate_item item index = Return (true, msg) -> msg = NoMessage.
Proof.
  unfold validate_item.
  destruct (first_missing item); [discriminate|].
  destruct (check_number item "quantity" _ _) as [[bad|]|e]; simpl; try discriminate.
  destruct (contains item "purchase_price" && _); simpl;
    [|intros Hv; inversion Hv; reflexivity].
  destruct (check_number item "purchase_price" _ _) as [[bad|]|e]; simpl;
    try discriminate.
  intros Hv; inversion Hv; reflexivity.
Qed.

(** X1: the verdict of [validate_item] is sound.  An accepted record has
    the empty message, its five required fields, a quantity that converts
    to a float that is not below zero and, when it has a purchase price
    that is not [None], a price that does too.  A rejected record has the
    message of a true cause: a required field it lacks, a quantity or a
    price below zero, or one whose conversion raises [TypeError] or
    [ValueError]; the message carries the record's own [item_id]. *)
Theorem validate_item_sound (item : gmap string pyval) (index : nat)
    (is_valid : bool) (msg : message) :
  validate_item item index = Return (is_valid, msg) ->
  if is_valid
  then msg = NoMessage
       /\ (forall field, In field REQUIRED_FIELDS -> is_Some (item !! field))
       /\ (exists q, py_float (get item "quantity") = Return q
                     /\ PrimFloat.ltb q 0 = false)
       /\ (forall v, price_of item = Some v ->
             exists p, py_float v = Return p /\ PrimFloat.ltb p 0 = false)
  else rejection_cause item index msg.
Proof.
  destruct is_valid; [|apply validate_item_rejects].
  intros Hv.
  pose proof (validate_item_true _ _ _ Hv) as (Hm & (qv & q & Hqv & Hq & Hlt) & Hp).
  split; [exact (validate_item_true_NoMessage _ _ _ Hv)|].
  split; [|split].
  - intros field Hin. pose proof (first_missing_None _ Hm _ Hin) as Hc.
    apply contains_Some in Hc as [v Hv']. rewrite Hv'. eauto.
  - exists q. rewrite (get_Some _ _ _ Hqv). auto.
  - exact Hp.
Qed.

(** X2: when a record lacks a required field, [validate_item] returns the
    rejection that names the first field it lacks, in the order [item_id],
    [item_name], [quantity], [unit], [expiry_date]; the fields before it are
    present, and nothing is converted, so the call does not raise whatever
    the other fields hold. *)
Theorem validate_item_first_missing_field (item : gmap string pyval) (index : nat)
    (field : string) :
  In field REQUIRED_FIELDS ->
  item !! field = None ->
  exists before first after,
    REQUIRED_FIELDS = (before ++ first :: after)%list
    /\ Forall (fun f => is_Some (item !! f)) before
    /\ item !! first = None
    /\ validate_item item index = Return (false, MissingField index first).
Proof.
  intros Hin Hnone. unfold validate_item, first_missing.
  assert (Hcases : forall l,
            (exists before first after,
               l = (before ++ first :: after)%list
               /\ Forall (fun f => is_Some (item !! f)) before
               /\ item !! first = None
               /\ find (fun f => negb (contains item f)) l = Some first)
            \/ (Forall (fun f => is_Some (item !! f)) l
                /\ find (fun f => negb (contains item f)) l = None)).
  { induction l as [|f l IH]; [right; split; [constructor | reflexivity]|].
    simpl. unfold contains at 1 3. destruct (item !! f) as [v|] eqn:Hf; simpl.
    - destruct IH as [(before & first & after & -> & Hb & Hn & Hfind)|[Hall Hfind]].
      + left. exists (f :: before), first, after. repeat split; try assumption.
        constructor; [rewrite Hf; eauto | exact Hb].
      + right. split; [|exact Hfind]. constructor; [rewrite Hf; eauto | exact Hall].
    - left. exists [], f, l. repeat split; try assumption. constructor. }
  destruct (Hcases REQUIRED_FIELDS)
    as [(before & first & after & Heq & Hb & Hn & Hfind)|[Hall _]].
  - exists before, first, after. rewrite Hfind. auto.
  - exfalso. rewrite Forall_forall in Hall.
    apply list_elem_of_In in Hin. apply Hall in Hin as [v Hv]. congruence.
Qed.

(** An exception out of [validate_item]. *)
Lemma validate_item_Raise (item : gmap string pyval) (index : nat) (ex : exn) :
  validate_item item index = Raise ex ->
  ex = OverflowError
  /\ first_missing item = None
  /\ (overflows (get item "quantity") = true
      \/ overflows (get item "purchase_price") = true).
Proof.
  unfold validate_item.
  destruct (first_missing item) as [field|] eqn:Hm; [discriminate|].
  pose proof (first_missing_None _ Hm) as Hall.
  destruct (check_number item "quantity" _ _) as [[bad|]|e] eqn:Hq; simpl;
    try discriminate.
  - destruct (contains item "purchase_price") eqn:Hc; simpl; [|discriminate].
    destruct (is_None (get item "purchase_price")); simpl; [discriminate|].
    destruct (check_number item "purchase_price" _ _) as [[bad|]|e] eqn:Hpp; simpl;
      try discriminate.
    intros Hr. inversion Hr; subst e.
    apply check_number_Raise in Hpp as [-> Ho]; [|exact Hc]. auto.
  - intros Hr. inversion Hr; subst e.
    apply check_number_Raise in Hq as [-> Ho]; [|apply Hall; required]. auto.
Qed.

(** X3: the only exception [validate_item] lets through is
    [OverflowError], and only for a record that has its required fields and
    whose quantity or purchase price is an integer too large for a float;
    a record whose quantity and price do not overflow gets a verdict. *)
Theorem validate_item_raises_only_OverflowError (item : gmap string pyval)
    (index : nat) :
  (forall ex,
     validate_item item index = Raise ex ->
     ex = OverflowError
     /\ (forall field, In field REQUIRED_FIELDS -> is_Some (item !! field))
     /\ (overflows (get item "quantity") = true
         \/ overflows (get item "purchase_price") = true))
  /\ (overflows (get item "quantity") = false ->
      overflows (get item "purchase_price") = false ->
      exists is_valid msg, validate_item item index = Return (is_valid, msg)).
Proof.
  split.
  - intros ex Hr. apply validate_item_Raise in Hr as (-> & Hm & Ho).
    split; [reflexivity|]. split; [|exact Ho].
    intros field Hin. pose proof (first_missing_None _ Hm _ Hin) as Hc.
    apply contains_Some in Hc as [v Hv]. rewrite Hv. eauto.
  - intros Hq Hp. destruct (validate_item_returns item index Hq Hp) as [[b msg] Hv].
    eauto.
Qed.

(** ** The loop *)

Lemma classify_in_range days : in_range (classify days) days.
Proof.
  unfold classify, in_range, CRITICAL_THRESHOLD, WARNING_THRESHOLD.
  destruct (Z.leb_spec days 0); [lia|].
  destruct (Z.ltb_spec days 7); [lia|].
  destruct (Z.ltb_spec days 14); lia.
Qed.

(** A classified record has an expiry date that is not [None]. *)
Lemma process_item_Classified_dated current_date index item t e :
  process_item current_date index (PDict item) = Return (Classified t e) ->
  is_None (get item "expiry_date") = false.
Proof.
  unfold process_item. simpl.
  destruct (validate_item item index) as [[[|] msg]|ex]; simpl; try discriminate.
  destruct (is_None (get item "expiry_date")); [|reflexivity].
  destruct (getitem item "item_id"); simpl; [|discriminate].
  destruct (getitem item "item_name"); simpl; discriminate.
Qed.

(** X4: every entry of a tier list of a success result stands in the range
    of days of its tier (expired: at most 0; critical: 1 to 6; warning: 7
    to 13; ok: 14 and more), carries the recommendation of that tier, and
    comes from a record of the input that [validate_item] accepts and whose
    expiry date is not [None], with the record's own id, name, quantity,
    unit and expiry date. *)
Theorem tier_lists_hold_their_ranges (now : datetime) (inventory_data : pyval)
    (s : summary) (b : buckets) (ts : datetime) (t : tier) (e : enriched_item) :
  check_inventory_expiry now inventory_data = Return (Success s b ts) ->
  In e (bucket t b) ->
  in_range t (days_until_expiry e)
  /\ recommendation e = recommendation_text t
  /\ exists records (index : nat) item,
       input_records inventory_data = Return records
       /\ records !! index = Some (PDict item)
       /\ validate_item item index = Return (true, NoMessage)
       /\ get item "expiry_date" <> PNone
       /\ item_id e = get item "item_id"
       /\ item_name e = get item "item_name"
       /\ quantity e = get item "quantity"
       /\ unit e = get item "unit"
       /\ expiry_date e = get item "expiry_date".
Proof.
  intros Hc Hin.
  apply check_inventory_expiry_Success in Hc as (items & _ & Hitems & Hloop & _).
  destruct (run_loop_origin _ _ _ _ _ _ _ Hloop Hin) as [Hnone|(i & it & Hi & Hp)].
  { destruct t; contradiction. }
  simpl in Hp.
  pose proof Hp as Hp'.
  apply process_item_Classified in Hp as (item & msg & -> & Hv & Henr & Ht).
  apply process_item_Classified_dated in Hp'.
  pose proof (validate_item_true_NoMessage _ _ _ Hv) as ->.
  destruct Henr as (expiry & delta & price & qty & Hexp & _ & _ & _ & _ & He).
  split; [rewrite Ht; apply classify_in_range|].
  split; [rewrite Ht, He; reflexivity|].
  exists items, i, item. rewrite He. simpl.
  repeat split; try assumption.
  intros Hnone. rewrite Hnone in Hp'. discriminate.
Qed.

Lemma entries_app t ps qs : entries t (ps ++ qs) = (entries t ps ++ entries t qs)%list.
Proof. apply omap_app. Qed.

Lemma skips_app ps qs : skips (ps ++ qs) = (skips ps ++ skips qs)%list.
Proof. apply omap_app. Qed.

Lemma append_entries t b p :
  bucket t (append b p) = (bucket t b ++ entries t [p])%list.
Proof.
  destruct p as [sk|u e]; [destruct t; simpl; rewrite app_nil_r; reflexivity|].
  destruct t, u; simpl; rewrite ?app_nil_r; reflexivity.
Qed.

Lemma append_skips b p :
  skipped_items (append b p) = (skipped_items b ++ skips [p])%list.
Proof.
  destruct p as [sk|u e]; [reflexivity|].
  destruct u; simpl; rewrite app_nil_r; reflexivity.
Qed.

(** The loop and the placements of its passes. *)
Lemma run_loop_placements current_date items :
  forall index b b',
    run_loop current_date index items b = Return b' ->
    exists ps,
      placements current_date index items = Return ps
      /\ (forall t, bucket t b' = (bucket t b ++ entries t ps)%list)
      /\ skipped_items b' = (skipped_items b ++ skips ps)%list.
Proof.
  induction items as [|it rest IH]; intros index b b' Hl; simpl in *.
  - inversion Hl; subst. exists []. split; [reflexivity|].
    split; [intros t|]; simpl; rewrite app_nil_r; reflexivity.
  - destruct (process_item current_date index it) as [p|e]; simpl in *;
      [|discriminate].
    destruct (IH _ _ _ Hl) as (ps & Hps & Hb & Hs).
    exists (p :: ps). rewrite Hps. split; [reflexivity|].
    split.
    + intros t. rewrite Hb, append_entries.
      change (p :: ps) with ([p] ++ ps)%list. rewrite entries_app, app_assoc.
      reflexivity.
    + rewrite Hs, append_skips.
      change (p :: ps) with ([p] ++ ps)%list. rewrite skips_app, app_assoc.
      reflexivity.
Qed.

Lemma placements_run_loop current_date items :
  forall index b ps,
    placements current_date index items = Return ps ->
    exists b', run_loop current_date index items b = Return b'.
Proof.
  induction items as [|it rest IH]; intros index b ps Hp; simpl in *; [eauto|].
  destruct (process_item current_date index it) as [p|e]; simpl in *; [|discriminate].
  destruct (placements current_date (S index) rest) as [qs|e] eqn:Hq; simpl in *;
    [|discriminate].
  eapply IH; eauto.
Qed.

Lemma placements_lookup current_date items :
  forall index ps,
    placements current_date index items = Return ps ->
    length ps = length items
    /\ forall (i : nat) it,
         items !! i = Some it ->
         exists p, ps !! i = Some p
                   /\ process_item current_date (index + i) it = Return p.
Proof.
  induction items as [|it rest IH]; intros index ps Hp; simpl in *.
  - inversion Hp; subst. split; [reflexivity|]. intros i x Hx. discriminate.
  - destruct (process_item current_date index it) as [p|e] eqn:Hit; simpl in *;
      [|discriminate].
    destruct (placements current_date (S index) rest) as [qs|e] eqn:Hq; simpl in *;
      [|discriminate].
    inversion Hp; subst. destruct (IH _ _ Hq) as [Hlen Hall].
    split; [simpl; congruence|].
    intros [|i] x Hx; simpl in Hx.
    + inversion Hx; subst. exists p. rewrite Nat.add_0_r. auto.
    + destruct (Hall _ _ Hx) as (q & Hq1 & Hq2). exists q.
      replace (index + S i)%nat with (S index + i)%nat by lia. auto.
Qed.

(** X5: the lists of a success result keep the order of the input.  Each
    record of the input has one placement, the one the loop body returns at
    the record's position; the list of a tier is, in that order, the entries
    placed in the tier, and the skipped list is, in that order, the skipped
    ones. *)
Theorem result_lists_keep_input_order (now : datetime) (inventory_data : pyval)
    (s : summary) (b : buckets) (ts : datetime) :
  check_inventory_expiry now inventory_data = Return (Success s b ts) ->
  exists records ps,
    input_records inventory_data = Return records
    /\ length ps = length records
    /\ (forall (i : nat) it,
          records !! i = Some it ->
          exists p, ps !! i = Some p /\ process_item ts i it = Return p)
    /\ (forall t, bucket t b = entries t ps)
    /\ skipped_items b = skips ps.
Proof.
  intros Hc.
  apply check_inventory_expiry_Success in Hc as (items & _ & Hitems & Hloop & _).
  destruct (run_loop_placements _ _ _ _ _ Hloop) as (ps & Hps & Hb & Hs).
  destruct (placements_lookup _ _ _ _ Hps) as [Hlen Hall].
  exists items, ps. repeat split; try assumption.
  intros t. rewrite Hb. destruct t; reflexivity.
Qed.

Lemma loop_result_not_Error (m : outcome buckets) current_date msg ts :
  (let! b := m in Return (Success (summarise b) b current_date))
  <> Return (Error msg ts).
Proof. destruct m; simpl; discriminate. Qed.

(** X6: the three error results, in the order the function tests for them.
    A value that is neither a list nor a dict gives the message about the
    input's type, and a dict whose [current_date] is refused by
    [fromisoformat] gives the message that quotes that value, whatever its
    inventory holds; both carry the reading of the clock.  Otherwise a
    record sequence that counts as false gives the message about the empty
    inventory, and that result carries the reference date: the explicit
    [current_date] when there is one. *)
Theorem error_results (now : datetime) (inventory_data : pyval) :
  (not_list_or_dict inventory_data = true ->
   check_inventory_expiry now inventory_data = Return (Error NotListOrDict now))
  /\ (forall d raw ex,
        inventory_data = PDict d ->
        d !! "current_date" = Some raw ->
        fromisoformat_val raw = Raise ex ->
        check_inventory_expiry now inventory_data
          = Return (Error (InvalidCurrentDate raw) now))
  /\ (not_list_or_dict inventory_data = false ->
      bad_reference_date inventory_data = false ->
      truthy (record_sequence inventory_data) = false ->
      check_inventory_expiry now inventory_data
        = Return (Error EmptyInventory (reference_date now inventory_data)))
  /\ (forall msg ts,
        check_inventory_expiry now inventory_data = Return (Error msg ts) ->
        (msg = NotListOrDict /\ ts = now /\ not_list_or_dict inventory_data = true)
        \/ (exists d raw, inventory_data = PDict d
                          /\ d !! "current_date" = Some raw
                          /\ msg = InvalidCurrentDate raw /\ ts = now
                          /\ bad_reference_date inventory_data = true)
        \/ (msg = EmptyInventory /\ ts = reference_date now inventory_data
            /\ empty_sequence inventory_data = true)).
Proof.
  unfold check_inventory_expiry, empty_sequence.
  split; [|split; [|split]].
  - destruct inventory_data; simpl; try discriminate; reflexivity.
  - intros d raw ex -> Hraw Hex. simpl. rewrite Hraw, Hex. reflexivity.
  - destruct inventory_data as [| | | | |l|d]; simpl; try discriminate.
    + intros _ _ ->. reflexivity.
    + destruct (d !! "current_date") as [raw|]; simpl.
      * destruct (fromisoformat_val raw); [|discriminate].
        intros _ _ ->. reflexivity.
      * intros _ _ ->. reflexivity.
  - intros msg ts.
    destruct inventory_data as [| | | | |l|d]; simpl;
      try (intros Hr; inversion Hr; left; auto; fail).
    + destruct l as [|it l]; simpl.
      * intros Hr; inversion Hr. right. right. auto.
      * intros Hr. exfalso. exact (loop_result_not_Error _ _ _ _ Hr).
    + destruct (d !! "current_date") as [raw|] eqn:Hraw; simpl.
      * destruct (fromisoformat_val raw) as [cd|ex] eqn:Hcd.
        -- destruct (truthy (get_default d "inventory" (PList []))) eqn:Ht; simpl.
           ++ destruct (iterate _); simpl; [|discriminate].
              intros Hr. exfalso. exact (loop_result_not_Error _ _ _ _ Hr).
           ++ intros Hr; inversion Hr. right. right. auto.
        -- intros Hr; inversion Hr. right. left. exists d, raw. auto.
      * destruct (truthy (get_default d "inventory" (PList []))) eqn:Ht; simpl.
        -- destruct (iterate _); simpl; [|discriminate].
           intros Hr. exfalso. exact (loop_result_not_Error _ _ _ _ Hr).
        -- intros Hr; inversion Hr. right. right. auto.
Qed.

(** X7: what a skipped entry says.  Its id and name are the record's, or
    [unknown_index_<position>] and [unknown] for a record without them; its
    reason is a rejection of [validate_item] with its cause, or, for an
    accepted record, the missing expiry date of a record whose
    [expiry_date] is [None], or the refused expiry date, quoted, of a record
    whose [expiry_date] does not parse. *)
Theorem skipped_entry (current_date : datetime) (index : nat)
    (item : gmap string pyval) (s : skipped_item) :
  process_item current_date index (PDict item) = Return (Skip s) ->
  skipped_item_id s
    = get_default item "item_id" (PStr ("unknown_index_" ++ pretty index))
  /\ skipped_item_name s = get_default item "item_name" (PStr "unknown")
  /\ ((validate_item item index = Return (false, reason s)
       /\ rejection_cause item index (reason s))
      \/ (validate_item item index = Return (true, NoMessage)
          /\ item !! "expiry_date" = Some PNone
          /\ reason s = NoExpiryDate)
      \/ (validate_item item index = Return (true, NoMessage)
          /\ fromisoformat_str (get item "expiry_date") = Raise ValueError
          /\ reason s = InvalidExpiryFormat (get item "expiry_date"))).
Proof.
  intros Hp. unfold process_item in Hp. simpl in Hp.
  destruct (validate_item item index) as [[[|] msg]|e] eqn:Hv; simpl in Hp;
    [| |discriminate].
  - pose proof (validate_item_true_NoMessage _ _ _ Hv) as ->.
    pose proof (validate_item_true _ _ _ Hv) as (Hm & _ & _).
    pose proof (getitem_required item "item_id" Hm ltac:(required)) as Hid.
    pose proof (getitem_required item "item_name" Hm ltac:(required)) as Hname.
    assert (Hcid : contains item "item_id" = true)
      by (apply (first_missing_None _ Hm); required).
    assert (Hcname : contains item "item_name" = true)
      by (apply (first_missing_None _ Hm); required).
    assert (Hcexp : contains item "expiry_date" = true)
      by (apply (first_missing_None _ Hm); required).
    apply contains_Some in Hcid as [vid Hvid].
    apply contains_Some in Hcname as [vname Hvname].
    apply contains_Some in Hcexp as [vexp Hvexp].
    assert (Hgid : get_default item "item_id"
                     (PStr ("unknown_index_" ++ pretty index)) = get item "item_id")
      by (unfold get_default, get; rewrite Hvid; reflexivity).
    assert (Hgname : get_default item "item_name" (PStr "unknown")
                     = get item "item_name")
      by (unfold get_default, get; rewrite Hvname; reflexivity).
    rewrite Hgid, Hgname. rewrite Hid, Hname in Hp. simpl in Hp.
    destruct (is_None (get item "expiry_date")) eqn:Hn.
    + inversion Hp; subst s. simpl. repeat split. right. left.
      repeat split. unfold get in Hn. rewrite Hvexp in *. simpl in Hn.
      destruct vexp; try discriminate. reflexivity.
    + destruct (fromisoformat_str (get item "expiry_date")) as [expiry|e] eqn:Hexp.
      * destruct (datetime_sub expiry current_date); simpl in Hp; [|discriminate].
        destruct (compute_value_at_risk item); simpl in Hp; [|discriminate].
        destruct (getitem item "quantity"); simpl in Hp; [|discriminate].
        destruct (getitem item "unit"); simpl in Hp; discriminate.
      * pose proof (fromisoformat_str_Raise _ _ Hexp) as ->. simpl in Hp.
        inversion Hp; subst s. simpl. repeat split. right. right. auto.
  - inversion Hp; subst s. simpl. repeat split. left. split; [reflexivity|].
    exact (validate_item_rejects _ _ _ Hv).
Qed.

(** ** Positions, batches and keys *)

(** The position of a record shows in the message about a missing field
    only. *)
Lemma validate_item_index item (i j : nat) :
  match validate_item item i with
  | Return (true, msg) => validate_item item j = Return (true, msg)
  | Return (false, _) => exists msg', validate_item item j = Return (false, msg')
  | Raise e => validate_item item j = Raise e
  end.
Proof.
  unfold validate_item.
  destruct (first_missing item); [eauto|].
  destruct (check_number item "quantity" _ _) as [[bad|]|e]; simpl; eauto.
  destruct (contains item "purchase_price" && _); simpl; eauto.
  destruct (check_number item "purchase_price" _ _) as [[bad|]|e]; simpl; eauto.
Qed.

Lemma same_up_to_index_refl p : same_up_to_index p p.
Proof. destruct p; simpl; auto. Qed.

Lemma process_item_index current_date (i j : nat) it p :
  process_item current_date i it = Return p ->
  exists q, process_item current_date j it = Return q /\ same_up_to_index p q.
Proof.
  destruct it as [| | | | | |item]; try discriminate.
  unfold process_item. simpl.
  pose proof (validate_item_index item i j) as Hij.
  destruct (validate_item item i) as [[[|] msg]|e]; simpl; [| |discriminate].
  - rewrite Hij. simpl. intros Hp. exists p. split; [exact Hp|].
    apply same_up_to_index_refl.
  - destruct Hij as [msg' ->]. simpl. intros Hp. inversion Hp; subst p.
    eexists. split; [reflexivity|]. reflexivity.
Qed.

Lemma placements_index current_date items :
  forall (i j : nat) ps,
    placements current_date i items = Return ps ->
    exists qs, placements current_date j items = Return qs
               /\ Forall2 same_up_to_index ps qs.
Proof.
  induction items as [|it rest IH]; intros i j ps Hp; simpl in *.
  - inversion Hp; subst. exists []. split; [reflexivity | constructor].
  - destruct (process_item current_date i it) as [p|e] eqn:Hit; simpl in *;
      [|discriminate].
    destruct (placements current_date (S i) rest) as [ps'|e] eqn:Hrest; simpl in *;
      [|discriminate].
    inversion Hp; subst ps.
    destruct (process_item_index _ _ j _ _ Hit) as (q & Hq & Hpq).
    destruct (IH _ (S j) _ Hrest) as (qs & Hqs & Hall).
    exists (q :: qs). rewrite Hq, Hqs. split; [reflexivity|].
    constructor; assumption.
Qed.

Lemma placements_app current_date l1 :
  forall (i : nat) l2 ps1 ps2,
    placements current_date i l1 = Return ps1 ->
    placements current_date (i + length l1) l2 = Return ps2 ->
    placements current_date i (l1 ++ l2) = Return (ps1 ++ ps2)%list.
Proof.
  induction l1 as [|it rest IH]; intros i l2 ps1 ps2 H1 H2; simpl in *.
  - inversion H1; subst. rewrite Nat.add_0_r in H2. exact H2.
  - destruct (process_item current_date i it) as [p|e]; simpl in *; [|discriminate].
    destruct (placements current_date (S i) rest) as [ps'|e] eqn:Hrest; simpl in *;
      [|discriminate].
    inversion H1; subst ps1.
    replace (i + S (length rest))%nat with (S i + length rest)%nat in H2 by lia.
    rewrite (IH _ _ _ _ Hrest H2). reflexivity.
Qed.

Lemma entries_same_up_to_index t ps qs :
  Forall2 same_up_to_index ps qs -> entries t ps = entries t qs.
Proof.
  induction 1 as [|p q ps qs Hpq _ IH]; [reflexivity|].
  change (p :: ps) with ([p] ++ ps)%list. change (q :: qs) with ([q] ++ qs)%list.
  rewrite !entries_app, IH. f_equal.
  destruct p as [s|u e], q as [r|v f]; simpl in Hpq; try contradiction;
    [reflexivity|].
  destruct Hpq as [-> ->]. reflexivity.
Qed.

Lemma skips_same_up_to_index ps qs :
  Forall2 same_up_to_index ps qs ->
  map skipped_item_name (skips ps) = map skipped_item_name (skips qs).
Proof.
  induction 1 as [|p q ps qs Hpq _ IH]; [reflexivity|].
  change (p :: ps) with ([p] ++ ps)%list. change (q :: qs) with ([q] ++ qs)%list.
  rewrite !skips_app, !map_app, IH. f_equal.
  destruct p as [s|u e], q as [r|v f]; simpl in Hpq; try contradiction;
    [simpl; congruence | reflexivity].
Qed.

Lemma check_inventory_expiry_list now l s b ts :
  check_inventory_expiry now (PList l) = Return (Success s b ts) ->
  l <> [] /\ ts = now /\ run_loop now 0 l no_items = Return b /\ s = summarise b.
Proof.
  unfold check_inventory_expiry. cbn [read_input].
  destruct l as [|it l]; [discriminate|]. cbn [truthy negb iterate bind].
  destruct (run_loop now 0 (it :: l) no_items) as [b'|e]; [|discriminate].
  cbn [bind]. intros Hr. inversion Hr; subst. auto.
Qed.

(** X8: two batches in one call.  When the lists [l1] and [l2] each give a
    success result, so does [l1 ++ l2], and each of its tier lists is the
    tier list for [l1] followed by the one for [l2], entry for entry; the
    names of its skipped entries are those for [l1] followed by those for
    [l2], and each of the five counts is the sum of the two. *)
Theorem batches_concatenate (now : datetime) (l1 l2 : list pyval)
    (s1 s2 : summary) (b1 b2 : buckets) (ts1 ts2 : datetime) :
  check_inventory_expiry now (PList l1) = Return (Success s1 b1 ts1) ->
  check_inventory_expiry now (PList l2) = Return (Success s2 b2 ts2) ->
  exists s b,
    check_inventory_expiry now (PList (l1 ++ l2)) = Return (Success s b now)
    /\ (forall t, bucket t b = (bucket t b1 ++ bucket t b2)%list)
    /\ map skipped_item_name (skipped_items b)
       = (map skipped_item_name (skipped_items b1)
          ++ map skipped_item_name (skipped_items b2))%list
    /\ summary_expired_items s = (summary_expired_items s1 + summary_expired_items s2)%nat
    /\ summary_critical_items s
       = (summary_critical_items s1 + summary_critical_items s2)%nat
    /\ summary_warning_items s = (summary_warning_items s1 + summary_warning_items s2)%nat
    /\ summary_ok_items s = (summary_ok_items s1 + summary_ok_items s2)%nat
    /\ summary_skipped_items s = (summary_skipped_items s1 + summary_skipped_items s2)%nat.
Proof.
  intros H1 H2.
  apply check_inventory_expiry_list in H1 as (Hne1 & -> & Hl1 & ->).
  apply check_inventory_expiry_list in H2 as (Hne2 & -> & Hl2 & ->).
  destruct (run_loop_placements _ _ _ _ _ Hl1) as (ps1 & Hps1 & Hb1 & Hs1).
  destruct (run_loop_placements _ _ _ _ _ Hl2) as (ps2 & Hps2 & Hb2 & Hs2).
  destruct (placements_index _ _ _ (0 + length l1)%nat _ Hps2) as (qs & Hqs & Hall).
  pose proof (placements_app _ _ _ _ _ _ Hps1 Hqs) as Hps.
  destruct (placements_run_loop _ _ _ no_items _ Hps) as [b Hl].
  destruct (run_loop_placements _ _ _ _ _ Hl) as (ps & Hps' & Hb & Hs).
  rewrite Hps in Hps'. inversion Hps'; subst ps.
  assert (Hbucket : forall t, bucket t b = (bucket t b1 ++ bucket t b2)%list).
  { intros t. rewrite Hb, Hb1, Hb2, entries_app.
    rewrite (entries_same_up_to_index t _ _ Hall). destruct t; reflexivity. }
  assert (Hskipped : map skipped_item_name (skipped_items b)
                     = (map skipped_item_name (skipped_items b1)
                        ++ map skipped_item_name (skipped_items b2))%list).
  { rewrite Hs, Hs1, Hs2. simpl. rewrite skips_app, map_app.
    rewrite (skips_same_up_to_index _ _ Hall). reflexivity. }
  exists (summarise b), b. split.
  - unfold check_inventory_expiry. cbn [read_input].
    destruct (l1 ++ l2)%list as [|it l] eqn:Hl12.
    { destruct l1; [congruence | discriminate]. }
    cbn [truthy negb iterate bind]. rewrite Hl. reflexivity.
  - split; [exact Hbucket|]. split; [exact Hskipped|].
    pose proof (Hbucket expired) as He. pose proof (Hbucket critical) as Hc.
    pose proof (Hbucket warning) as Hw. pose proof (Hbucket ok) as Ho.
    simpl in He, Hc, Hw, Ho. simpl.
    rewrite He, Hc, Hw, Ho, !length_app.
    repeat split.
    apply (f_equal (@length _)) in Hskipped.
    rewrite length_app, !length_map in Hskipped. exact Hskipped.
Qed.

(** ** Tiers *)

(** X10: the chain of comparisons sorts every number of days into the one
    tier whose range holds it, and a later expiry is never in a more severe
    tier: from [ok] through [warning] and [critical] to [expired] as the
    days decrease. *)
Theorem tiers_partition_and_order (days days' : Z) (t : tier) :
  (classify days = t <-> in_range t days)
  /\ (days <= days' -> severity (classify days') <= severity (classify days)).
Proof.
  unfold classify, CRITICAL_THRESHOLD, WARNING_THRESHOLD.
  split; [split|].
  - intros <-.
    destruct (Z.leb_spec days 0); [simpl; lia|].
    destruct (Z.ltb_spec days 7); [simpl; lia|].
    destruct (Z.ltb_spec days 14); simpl; lia.
  - destruct (Z.leb_spec days 0); [destruct t; simpl; intros; try lia; reflexivity|].
    destruct (Z.ltb_spec days 7); [destruct t; simpl; intros; try lia; reflexivity|].
    destruct (Z.ltb_spec days 14); destruct t; simpl; intros; try lia; reflexivity.
  - intros Hle.
    destruct (Z.leb_spec days 0), (Z.leb_spec days' 0); simpl; try lia;
      destruct (Z.ltb_spec days 7), (Z.ltb_spec days' 7); simpl; try lia;
      destruct (Z.ltb_spec days 14), (Z.ltb_spec days' 14); simpl; lia.
Qed.

(** ** The keys of a record *)

Lemma agree_key a b k : agree a b -> In k RECORD_KEYS -> a !! k = b !! k.
Proof. intros H Hk. apply H, Hk. Qed.

Lemma process_item_agree current_date index a b :
  agree a b ->
  process_item current_date index (PDict a) = process_item current_date index (PDict b).
Proof.
  intros H.
  pose proof (agree_key a b "item_id" H ltac:(record_key)) as Hid.
  pose proof (agree_key a b "item_name" H ltac:(record_key)) as Hname.
  pose proof (agree_key a b "quantity" H ltac:(record_key)) as Hqty.
  pose proof (agree_key a b "unit" H ltac:(record_key)) as Hunit.
  pose proof (agree_key a b "expiry_date" H ltac:(record_key)) as Hexp.
  pose proof (agree_key a b "purchase_price" H ltac:(record_key)) as Hprice.
  unfold process_item, as_record, validate_item, first_missing, check_number,
    compute_value_at_risk, getitem, contains, get, get_default, REQUIRED_FIELDS.
  cbn [bind find].
  rewrite Hid, Hname, Hqty, Hunit, Hexp, Hprice. reflexivity.
Qed.

Lemma process_item_same_record current_date index x y :
  same_record x y ->
  process_item current_date index x = process_item current_date index y.
Proof.
  destruct x, y; simpl; intros H; try congruence; try contradiction;
    try discriminate.
  apply process_item_agree. exact H.
Qed.

Lemma run_loop_same_record current_date l1 l2 :
  Forall2 same_record l1 l2 ->
  forall index b,
    run_loop current_date index l1 b = run_loop current_date index l2 b.
Proof.
  induction 1 as [|x y l1 l2 Hxy _ IH]; intros index b; [reflexivity|].
  simpl. rewrite (process_item_same_record _ _ _ _ Hxy).
  destruct (process_item current_date index y); simpl; [apply IH | reflexivity].
Qed.

(** X11: the tracker reads six keys of a record and no other: [item_id],
    [item_name], [quantity], [unit], [expiry_date] and [purchase_price].
    Two lists whose records are dicts that agree on these keys (and whose
    other elements are equal) give the same result, whatever else the
    records hold. *)
Theorem other_keys_are_not_read (now : datetime) (l1 l2 : list pyval) :
  Forall2 same_record l1 l2 ->
  check_inventory_expiry now (PList l1) = check_inventory_expiry now (PList l2).
Proof.
  intros H. unfold check_inventory_expiry. cbn [read_input].
  destruct H as [|x y l1 l2 Hxy Hrest]; [reflexivity|].
  cbn [truthy negb iterate bind].
  rewrite (run_loop_same_record now (x :: l1) (y :: l2)); [reflexivity|].
  constructor; assumption.
Qed.

(** ** Exceptions *)

(** X12: what a record can make the loop body raise.  A record that is
    not a dict raises [AttributeError] (a [str] or a list) or [TypeError]
    (any other value).  A dict raises [OverflowError] when it has its
    required fields and its quantity or purchase price overflows a float,
    or [TypeError] when [validate_item] accepts it and one of its expiry
    date and the reference date has a UTC offset while the other has none;
    it raises nothing else. *)
Theorem exceptions_of_a_record (current_date : datetime) (index : nat)
    (it : pyval) (ex : exn) :
  process_item current_date index it = Raise ex ->
  match it with
  | PDict item =>
      (ex = OverflowError
       /\ first_missing item = None
       /\ (overflows (get item "quantity") = true
           \/ overflows (get item "purchase_price") = true))
      \/ (ex = TypeError
          /\ validate_item item index = Return (true, NoMessage)
          /\ mixes_offsets current_date (get item "expiry_date") = true)
  | PStr _ | PList _ => ex = AttributeError
  | PNone | PBool _ | PInt _ | PFloat _ => ex = TypeError
  end.
Proof.
  destruct it as [|b|z|f|s|l|item]; simpl; try (intros Hr; inversion Hr; reflexivity).
  unfold process_item. simpl.
  destruct (validate_item item index) as [[[|] msg]|e] eqn:Hv; simpl.
  - pose proof (validate_item_true_NoMessage _ _ _ Hv) as ->.
    pose proof (validate_item_true _ _ _ Hv) as (Hm & _ & _).
    rewrite !(getitem_required item _ Hm) by required. simpl.
    destruct (compute_value_at_risk_valid _ _ _ Hv) as (price & qty & _ & _ & -> & _).
    simpl.
    destruct (is_None (get item "expiry_date")); [discriminate|].
    unfold mixes_offsets.
    destruct (fromisoformat_str (get item "expiry_date")) as [expiry|e] eqn:Hexp.
    + destruct (datetime_sub expiry current_date) as [delta|e] eqn:Hsub; simpl;
        [discriminate|].
      intros Hr. inversion Hr; subst e. right.
      unfold datetime_sub in Hsub.
      destruct (dt_utcoffset expiry), (dt_utcoffset current_date);
        inversion Hsub; auto.
    + rewrite (fromisoformat_str_Raise _ _ Hexp). simpl. discriminate.
  - discriminate.
  - intros Hr. inversion Hr; subst e. left. exact (validate_item_Raise _ _ _ Hv).
Qed.

Lemma run_loop_Raise current_date items ex :
  forall index b,
    run_loop current_date index items b = Raise ex <->
    exists (i : nat) it,
      items !! i = Some it
      /\ process_item current_date (index + i) it = Raise ex
      /\ forall (j : nat) it', (j < i)%nat -> items !! j = Some it' ->
           returns (process_item current_date (index + j) it').
Proof.
  induction items as [|x rest IH]; intros index b; simpl.
  - split; [discriminate|]. intros (i & it & Hi & _). discriminate.
  - destruct (process_item current_date index x) as [p|e] eqn:Hx; simpl.
    + rewrite IH. split.
      * intros (i & it & Hi & Hr & Hbefore). exists (S i), it.
        split; [exact Hi|].
        replace (index + S i)%nat with (S index + i)%nat by lia.
        split; [exact Hr|].
        intros [|j] it' Hj Hit'; simpl in Hit'.
        -- inversion Hit'; subst. rewrite Nat.add_0_r, Hx. eexists; reflexivity.
        -- replace (index + S j)%nat with (S index + j)%nat by lia.
           apply Hbefore; [lia | exact Hit'].
      * intros (i & it & Hi & Hr & Hbefore). destruct i as [|i]; simpl in Hi.
        -- inversion Hi; subst. rewrite Nat.add_0_r in Hr. congruence.
        -- exists i, it. split; [exact Hi|].
           replace (S index + i)%nat with (index + S i)%nat by lia.
           split; [exact Hr|].
           intros j it' Hj Hit'.
           replace (S index + j)%nat with (index + S j)%nat by lia.
           apply (Hbefore (S j)); [lia | exact Hit'].
    + split.
      * intros Hr. inversion Hr; subst e. exists 0%nat, x.
        rewrite Nat.add_0_r. split; [reflexivity|]. split; [exact Hx|].
        intros j it' Hj. lia.
      * intros (i & it & Hi & Hr & Hbefore). destruct i as [|i]; simpl in Hi.
        -- inversion Hi; subst. rewrite Nat.add_0_r in Hr. congruence.
        -- destruct (Hbefore 0%nat x) as [p Hp]; [lia | reflexivity |].
           rewrite Nat.add_0_r in Hp. congruence.
Qed.

(** X13: the first record that raises decides the call.  A call on a list
    raises an exception exactly when the loop body raises it on some record
    and returns on every record before that one; the call then gives no
    result, whatever the records after it are. *)
Theorem first_raising_record_decides (now : datetime) (l : list pyval) (ex : exn) :
  check_inventory_expiry now (PList l) = Raise ex <->
  exists (i : nat) it,
    l !! i = Some it
    /\ process_item now i it = Raise ex
    /\ forall (j : nat) it', (j < i)%nat -> l !! j = Some it' ->
         returns (process_item now j it').
Proof.
  rewrite <- (run_loop_Raise now l ex 0 no_items).
  unfold check_inventory_expiry. cbn [read_input].
  destruct l as [|x l]; [simpl; split; discriminate|].
  cbn [truthy negb iterate bind].
  destruct (run_loop now 0 (x :: l) no_items); simpl; split; congruence.
Qed.

(** ** The reference date and the inventory of a dict *)

(** X14: a dict with a list under ['inventory'] is handled as that list
    is; an explicit [current_date] that parses takes the place of the
    reading of the clock and changes nothing else. *)
Theorem explicit_date_replaces_the_clock (now : datetime) (d : gmap string pyval)
    (l : list pyval) :
  d !! "inventory" = Some (PList l) ->
  (d !! "current_date" = None ->
   check_inventory_expiry now (PDict d) = check_inventory_expiry now (PList l))
  /\ (forall raw current_date,
        d !! "current_date" = Some raw ->
        fromisoformat_val raw = Return current_date ->
        check_inventory_expiry now (PDict d)
        = check_inventory_expiry current_date (PList l)).
Proof.
  intros Hl. unfold check_inventory_expiry, read_input, get_default.
  rewrite Hl. simpl. split.
  - intros ->. reflexivity.
  - intros raw current_date -> ->. reflexivity.
Qed.

Lemma run_loop_not_record current_date index x rest b :
  (forall d, x <> PDict d) ->
  exists ex, run_loop current_date index (x :: rest) b = Raise ex.
Proof.
  intros Hx. simpl. unfold process_item.
  destruct x; simpl; eauto. exfalso. eapply Hx. reflexivity.
Qed.

(** X15: a dict whose ['inventory'] is not a list never gives a success
    result: a value that counts as false gives the error about the empty
    inventory (or the one about the date), and any other value makes the
    call raise, because what the loop draws from it is not a record. *)
Theorem inventory_must_be_a_list (now : datetime) (d : gmap string pyval)
    (v : pyval) :
  d !! "inventory" = Some v ->
  (forall l, v <> PList l) ->
  (forall r, check_inventory_expiry now (PDict d) = Return r -> status r = "error")
  /\ (bad_reference_date (PDict d) = false -> truthy v = true ->
      exists ex, check_inventory_expiry now (PDict d) = Raise ex).
Proof.
  intros Hv Hlist.
  assert (Hraise : forall current_date, truthy v = true ->
            exists ex,
              (let! items := iterate v in
               let! b := run_loop current_date 0 items no_items in
               Return (Success (summarise b) b current_date)) = Raise ex).
  { intros current_date Ht. destruct v as [|b|z|f|s|l|m]; simpl; eauto.
    - destruct s as [|c s]; [discriminate|]. simpl. eauto.
    - exfalso. eapply Hlist. reflexivity.
    - simpl in Ht. destruct (map_to_list m) as [|[k w] kvs] eqn:Hm.
      + apply map_to_list_empty_iff in Hm. subst m. discriminate.
      + simpl. eauto. }
  unfold check_inventory_expiry, read_input, get_default, bad_reference_date.
  rewrite Hv. simpl. split.
  - intros r.
    destruct (d !! "current_date") as [raw|].
    + destruct (fromisoformat_val raw) as [current_date|e].
      * destruct (truthy v) eqn:Ht; simpl.
        -- destruct (Hraise current_date eq_refl) as [ex ->]. discriminate.
        -- intros Hr. inversion Hr. reflexivity.
      * intros Hr. inversion Hr. reflexivity.
    + destruct (truthy v) eqn:Ht; simpl.
      * destruct (Hraise now eq_refl) as [ex ->]. discriminate.
      * intros Hr. inversion Hr. reflexivity.
  - intros Hdate Ht.
    destruct (d !! "current_date") as [raw|].
    + destruct (fromisoformat_val raw) as [current_date|e]; [|discriminate].
      rewrite Ht. apply Hraise. exact Ht.
    + rewrite Ht. apply Hraise. exact Ht.
Qed.

(** ** A price of [None] *)

(** X16: a purchase price of [None] is the same as no purchase price: the
    loop body returns or raises the same for the record with
    [purchase_price: None] and for the record without the key. *)
Theorem price_None_is_no_price (current_date : datetime) (index : nat)
    (item : gmap string pyval) :
  process_item current_date index (PDict (<["purchase_price" := PNone]> item))
  = process_item current_date index (PDict (delete "purchase_price" item)).
Proof.
  unfold process_item, as_record, validate_item, first_missing, check_number,
    compute_value_at_risk, getitem, contains, get, get_default, REQUIRED_FIELDS.
  cbn [bind find].
  rewrite lookup_insert_eq, lookup_delete_eq.
  rewrite !lookup_insert_ne, !lookup_delete_ne by discriminate.
  reflexivity.
Qed.

End WithText.

(** ** Value without a price *)

Lemma Prim2SF_zero (x : float) s : Prim2SF x = S754_zero s -> x = SF2Prim (S754_zero s).
Proof. intros Hx. rewrite <- Hx. symmetry. apply SF2Prim_Prim2SF. Qed.

(** Zero times a finite float is a zero; zero times an infinity or NaN is
    NaN. *)
Lemma zero_mul (q : float) :
  if isfinite q
  then (0 * q = 0 \/ 0 * q = -0)%float
  else isnan (0 * q)%float = true.
Proof.
  unfold isfinite, isnan.
  pose proof (FloatAxioms.mul_spec 0 q) as Hm.
  change (Prim2SF 0) with (S754_zero false) in Hm.
  destruct (Prim2SF q) as [s|s| |s m e]; simpl in Hm.
  - apply Prim2SF_zero in Hm. destruct s; auto.
  - rewrite Hm. reflexivity.
  - rewrite Hm. reflexivity.
  - apply Prim2SF_zero in Hm. destruct s; auto.
Qed.

Lemma round2_nan (x : float) : isnan x = true -> isnan (round2 x) = true.
Proof.
  unfold isnan, round2. destruct (Prim2SF x) eqn:Hx; try discriminate.
  rewrite Hx. reflexivity.
Qed.

(** A float that equals zero is finite. *)
Lemma eqb_0_finite (f : float) : PrimFloat.eqb f 0 = true -> isfinite f = true.
Proof.
  rewrite FloatAxioms.eqb_spec. unfold isfinite.
  change (Prim2SF 0) with (S754_zero false).
  destruct (Prim2SF f) as [s|s| |s m e]; try reflexivity.
  - destruct s; discriminate.
  - discriminate.
Qed.

(** [float(v or 0)] against [float(v)]. *)
Lemma py_float_or_0_finite (v : pyval) (q q' : float) :
  py_float v = Return q ->
  py_float (py_or v (PInt 0)) = Return q' ->
  isfinite q' = isfinite q.
Proof.
  unfold py_or. destruct (truthy v) eqn:Ht.
  - intros Hq Hq'. congruence.
  - intros Hq Hq'. vm_compute in Hq'. inversion Hq'; subst q'.
    destruct v as [|b|z|f|s|l|d]; simpl in *; try discriminate.
    + destruct b; [discriminate|]. inversion Hq. reflexivity.
    + apply negb_false_iff, Z.eqb_eq in Ht. subst z. vm_compute in Hq.
      inversion Hq. reflexivity.
    + inversion Hq; subst f. apply negb_false_iff in Ht.
      symmetry. apply eqb_0_finite. exact Ht.
    + destruct s; [|discriminate]. vm_compute in Hq. discriminate.
Qed.

(** X9: the entry of a record without a purchase price (the key is absent
    or its value is [None]) has a [value_at_risk] that equals zero when the
    record's quantity is a finite number, and that is NaN when the quantity
    is an infinity or NaN, which [validate_item] accepts. *)
Theorem value_at_risk_without_price (current_date : datetime) (index : nat)
    (item : gmap string pyval) (t : tier) (e : enriched_item) (q : float) :
  process_item current_date index (PDict item) = Return (Classified t e) ->
  price_of item = None ->
  py_float (get item "quantity") = Return q ->
  if isfinite q
  then PrimFloat.eqb (value_at_risk e) 0 = true
  else isnan (value_at_risk e) = true.
Proof.
  intros Hp Hprice Hq.
  apply process_item_Classified in Hp as (item' & msg & Heq & _ & Henr & _).
  inversion Heq; subst item'.
  destruct Henr as (expiry & delta & price & qty & _ & _ & _ & Hqty & H0 & He).
  rewrite (H0 Hprice) in He. rewrite He. simpl.
  rewrite <- (py_float_or_0_finite _ _ _ Hq Hqty).
  pose proof (zero_mul qty) as Hz.
  destruct (isfinite qty).
  - destruct Hz as [-> | ->]; vm_compute; reflexivity.
  - apply round2_nan. exact Hz.
Qed.

(** ** Worked inputs *)

(** A negative quantity is rejected for what it is. *)
Lemma validate_item_sound_witness :
  rejection_cause negative_quantity 0
    (QuantityNegative (get negative_quantity "item_id")).
Proof.
  apply (validate_item_sound negative_quantity 0 false).
  vm_compute. reflexivity.
Defined.

(** A record without a name and without a unit: the name is reported. *)
Lemma validate_item_first_missing_field_witness :
  exists before first after,
    REQUIRED_FIELDS = (before ++ first :: after)%list
    /\ Forall (fun f => is_Some (nameless !! f)) before
    /\ nameless !! first = None
    /\ validate_item nameless 4 = Return (false, MissingField 4 first).
Proof.
  apply (validate_item_first_missing_field nameless 4 "unit").
  - unfold REQUIRED_FIELDS. simpl. tauto.
  - vm_compute. reflexivity.
Defined.

(** The quantity [10^400]. *)
Lemma validate_item_raises_only_OverflowError_witness :
  OverflowError = OverflowError
  /\ (forall field, In field REQUIRED_FIELDS ->
        is_Some (milk (PInt (10 ^ 400)) (PInt 2) "2025-01-08" !! field))
  /\ (overflows (get (milk (PInt (10 ^ 400)) (PInt 2) "2025-01-08") "quantity") = true
      \/ overflows (get (milk (PInt (10 ^ 400)) (PInt 2) "2025-01-08") "purchase_price")
         = true).
Proof.
  apply (proj1 (validate_item_raises_only_OverflowError
                  (milk (PInt (10 ^ 400)) (PInt 2) "2025-01-08") 0) OverflowError).
  vm_compute. reflexivity.
Defined.

(** The entry of a record due in a week is in the warning list, at 7. *)
Lemma tier_lists_hold_their_ranges_witness :
  exists e, in_range warning (days_until_expiry e)
            /\ recommendation e = recommendation_text warning.
Proof.
  destruct (check_inventory_expiry noon
              (PDict (dated [PDict (milk (PInt 10) (PInt 2) "2025-01-08")] "2025-01-01")))
    as [[msg ts|s b ts]|ex] eqn:Hc; try (vm_compute in Hc; discriminate).
  destruct (warning_items b) as [|e rest] eqn:Hw;
    [vm_compute in Hc; inversion Hc; subst; discriminate|].
  exists e.
  destruct (tier_lists_hold_their_ranges _ _ _ _ _ warning e Hc) as (Hr & Ht & _).
  - simpl. rewrite Hw. left. reflexivity.
  - auto.
Defined.

(** Three records: one in a week, one past, one without a name. *)
Lemma result_lists_keep_input_order_witness :
  exists b ps,
    length ps = length three_records
    /\ (forall t, bucket t b = entries t ps)
    /\ skipped_items b = skips ps.
Proof.
  destruct (check_inventory_expiry noon (PList three_records))
    as [[msg ts|s b ts]|ex] eqn:Hc; try (vm_compute in Hc; discriminate).
  destruct (result_lists_keep_input_order _ _ _ _ _ Hc)
    as (records & ps & Hr & Hlen & _ & Hb & Hs).
  exists b, ps. inversion Hr; subst. auto.
Defined.

(** An empty inventory under an explicit reference date: the result
    carries that date, not the reading of the clock. *)
Lemma error_results_witness :
  check_inventory_expiry noon (PDict (dated [] "2024-02-29"))
  = Return (Error EmptyInventory
              (reference_date noon (PDict (dated [] "2024-02-29")))).
Proof.
  apply (proj1 (proj2 (proj2 (error_results noon (PDict (dated [] "2024-02-29")))))).
  - reflexivity.
  - vm_compute. reflexivity.
  - vm_compute. reflexivity.
Defined.

(** A record without a name, at position 4. *)
Lemma skipped_entry_witness :
  skipped_item_id (Skipped (PStr "A1") (PStr "unknown") (MissingField 4 "item_name"))
    = get_default nameless "item_id" (PStr ("unknown_index_" ++ pretty 4%nat))
  /\ skipped_item_name (Skipped (PStr "A1") (PStr "unknown") (MissingField 4 "item_name"))
     = get_default nameless "item_name" (PStr "unknown").
Proof.
  destruct (skipped_entry noon 4 nameless
              (Skipped (PStr "A1") (PStr "unknown") (MissingField 4 "item_name")))
    as (Hid & Hname & _).
  - vm_compute. reflexivity.
  - auto.
Defined.

(** Three records followed by two. *)
Lemma batches_concatenate_witness :
  exists s b,
    check_inventory_expiry noon (PList (three_records ++ two_critical))
      = Return (Success s b noon)
    /\ summary_skipped_items s = 1%nat
    /\ summary_critical_items s = 3%nat.
Proof.
  destruct (check_inventory_expiry noon (PList three_records))
    as [[msg1 ts1|s1 b1 ts1]|ex1] eqn:H1; try (vm_compute in H1; discriminate).
  destruct (check_inventory_expiry noon (PList two_critical))
    as [[msg2 ts2|s2 b2 ts2]|ex2] eqn:H2; try (vm_compute in H2; discriminate).
  destruct (batches_concatenate _ _ _ _ _ _ _ _ _ H1 H2)
    as (s & b & Hc & _ & _ & _ & Hcrit & _ & _ & Hskip).
  exists s, b. split; [exact Hc|].
  vm_compute in H1. vm_compute in H2. inversion H1; subst. inversion H2; subst.
  split; [exact Hskip | exact Hcrit].
Defined.

(** Ten units without a price: zero.  A quantity of NaN without a price:
    NaN. *)
Lemma value_at_risk_without_price_witness :
  (exists e,
     process_item noon 0 (PDict unpriced) = Return (Classified critical e)
     /\ PrimFloat.eqb (value_at_risk e) 0 = true)
  /\ (exists e,
        process_item noon 0 (PDict nan_quantity) = Return (Classified critical e)
        /\ isnan (value_at_risk e) = true).
Proof.
  split.
  - destruct (process_item noon 0 (PDict unpriced)) as [[sk|t e]|ex] eqn:Hp;
      try (vm_compute in Hp; discriminate).
    destruct t; try (vm_compute in Hp; discriminate).
    exists e. split; [reflexivity|].
    apply (value_at_risk_without_price noon 0 unpriced critical e 10 Hp);
      vm_compute; reflexivity.
  - destruct (process_item noon 0 (PDict nan_quantity)) as [[sk|t e]|ex] eqn:Hp;
      try (vm_compute in Hp; discriminate).
    destruct t; try (vm_compute in Hp; discriminate).
    exists e. split; [reflexivity|].
    apply (value_at_risk_without_price noon 0 nan_quantity critical e nan Hp);
      vm_compute; reflexivity.
Defined.

(** From 6 days to 7: critical to warning. *)
Lemma tiers_partition_and_order_witness :
  severity (classify 7) <= severity (classify 6).
Proof.
  apply (proj2 (tiers_partition_and_order 6 7 critical)). lia.
Defined.

(** A record with a supplier. *)
Lemma other_keys_are_not_read_witness :
  check_inventory_expiry noon (PList [PDict annotated])
  = check_inventory_expiry noon (PList [PDict (milk (PInt 10) (PInt 2) "2025-01-08")]).
Proof.
  apply other_keys_are_not_read.
  constructor; [|constructor].
  simpl. intros k Hk. unfold RECORD_KEYS, REQUIRED_FIELDS in Hk. simpl in Hk.
  destruct Hk as [<-|[<-|[<-|[<-|[<-|[<-|[]]]]]]]; vm_compute; reflexivity.
Defined.

(** An expiry date with a UTC offset against a reference date without. *)
Lemma exceptions_of_a_record_witness :
  (TypeError = OverflowError
   /\ first_missing (milk (PInt 10) (PInt 2) "2025-01-08T00:00:00+00:00") = None
   /\ (overflows (get (milk (PInt 10) (PInt 2) "2025-01-08T00:00:00+00:00") "quantity")
       = true
       \/ overflows (get (milk (PInt 10) (PInt 2) "2025-01-08T00:00:00+00:00")
                         "purchase_price") = true))
  \/ (TypeError = TypeError
      /\ validate_item (milk (PInt 10) (PInt 2) "2025-01-08T00:00:00+00:00") 0
         = Return (true, NoMessage)
      /\ mixes_offsets noon
           (get (milk (PInt 10) (PInt 2) "2025-01-08T00:00:00+00:00") "expiry_date")
         = true).
Proof.
  apply (exceptions_of_a_record noon 0 offset_expiry TypeError).
  vm_compute. reflexivity.
Defined.

(** A good record, then a number, then anything. *)
Lemma first_raising_record_decides_witness :
  check_inventory_expiry noon
    (PList [PDict (milk (PInt 10) (PInt 2) "2025-01-08"); PInt 1; huge_quantity])
  = Raise TypeError.
Proof.
  apply (proj2 (first_raising_record_decides noon _ TypeError)).
  exists 1%nat, (PInt 1). split; [reflexivity|]. split; [reflexivity|].
  intros [|j] it' Hj Hit'; [|lia].
  inversion Hit'; subst. eexists. vm_compute. reflexivity.
Defined.

(** The clock at noon on 2025-01-01 against the explicit date
    2025-01-01T12:00:00. *)
Lemma explicit_date_replaces_the_clock_witness :
  check_inventory_expiry (Datetime 1 0 None)
    (PDict (dated three_records "2025-01-01T12:00:00"))
  = check_inventory_expiry noon (PList three_records).
Proof.
  apply (proj2 (explicit_date_replaces_the_clock (Datetime 1 0 None)
                  (dated three_records "2025-01-01T12:00:00") three_records
                  eq_refl) (PStr "2025-01-01T12:00:00") noon).
  - reflexivity.
  - vm_compute. reflexivity.
Defined.

(** An inventory given as one record instead of a list of records. *)
Lemma inventory_must_be_a_list_witness :
  exists ex,
    check_inventory_expiry noon
      (PDict (list_to_map
                [("inventory", PDict (milk (PInt 10) (PInt 2) "2025-01-08"))]))
    = Raise ex.
Proof.
  destruct (inventory_must_be_a_list noon
              (list_to_map [("inventory", PDict (milk (PInt 10) (PInt 2) "2025-01-08"))])
              (PDict (milk (PInt 10) (PInt 2) "2025-01-08")))
    as [_ Hraise].
  - vm_compute. reflexivity.
  - discriminate.
  - apply Hraise; vm_compute; reflexivity.
Defined.

End InventoryExtras.

(* ===================================================================== *)
(** * Further properties of the cashflow predictor                        *)
(* ===================================================================== *)

Module CashflowExtras.
Import Py PyFacts Cashflow CashflowSpec CashflowFacts.
#[local] Open Scope string_scope.

(** ** The confidence score *)

Lemma fold_left_max_ge rest : forall t, t <= fold_left Z.max rest t.
Proof.
  induction rest as [|x rest IH]; intros t; simpl; [lia|].
  specialize (IH (Z.max t x)). lia.
Qed.

Lemma fold_left_min_le rest : forall t, fold_left Z.min rest t <= t.
Proof.
  induction rest as [|x rest IH]; intros t; simpl; [lia|].
  specialize (IH (Z.min t x)). lia.
Qed.

(** X17: the days of data are at least 1 whenever they are a number: the
    latest date is not before the earliest, so the division of the number
    of transactions by the days of data never divides by zero. *)
Theorem days_of_data_at_least_one (ts : list (option Z)) (span : Z) :
  days_of_data ts = Some span ->
  1 <= span
  /\ exists hi lo, series_max ts = Some hi /\ series_min ts = Some lo /\ lo <= hi.
Proof.
  unfold days_of_data, series_max, series_min.
  destruct (omap id ts) as [|t rest]; [discriminate|].
  intros Hs. inversion Hs; subst span.
  pose proof (fold_left_max_ge rest t). pose proof (fold_left_min_le rest t).
  split.
  - assert (0 <= (fold_left Z.max rest t - fold_left Z.min rest t) / NANOS_PER_DAY).
    { apply Z.div_pos; [lia | reflexivity]. }
    lia.
  - eexists _, _. split; [reflexivity|]. split; [reflexivity | lia].
Qed.

(** Two timestamps given out of order, and a missing one. *)
Lemma days_of_data_at_least_one_witness :
  1 <= 3
  /\ exists hi lo,
       series_max [Some (2 * NANOS_PER_DAY); None; Some 0] = Some hi
       /\ series_min [Some (2 * NANOS_PER_DAY); None; Some 0] = Some lo
       /\ lo <= hi.
Proof.
  apply (days_of_data_at_least_one [Some (2 * NANOS_PER_DAY); None; Some 0] 3).
  reflexivity.
Defined.

(** The seven products, rounded. *)
Lemma score_values (days : option Z) (n : nat) :
  In (round2 (days_score days * density_score n days)) CONFIDENCE_SCORES
  /\ PrimFloat.leb 0.35 (round2 (days_score days * density_score n days)) = true.
Proof.
  unfold days_score, density_score, CONFIDENCE_SCORES.
  destruct (PrimFloat.leb _ (transactions_per_day n days));
    destruct days as [d|];
    [destruct (MIN_DAYS_FOR_FULL_CONFIDENCE <=? d)%Z;
     [|destruct (MID_DAYS_FOR_MEDIUM_CONFIDENCE <=? d)%Z;
       [|destruct (MIN_DAYS_FOR_LOW_CONFIDENCE <=? d)%Z]]| |
     destruct (MIN_DAYS_FOR_FULL_CONFIDENCE <=? d)%Z;
     [|destruct (MID_DAYS_FOR_MEDIUM_CONFIDENCE <=? d)%Z;
       [|destruct (MIN_DAYS_FOR_LOW_CONFIDENCE <=? d)%Z]]|];
    vm_compute; auto 10.
Qed.

Section Confidence.
Context `{Pandas}.

(** X18: whatever the library returns for the dates, a confidence score
    that is returned is one of seven values: 1.0, 0.85, 0.7, 0.59, 0.5, 0.49
    and 0.35.  It is never below 0.35, and 0.35 is what dates that are all
    missing give. *)
Theorem confidence_scores (dates : list pyval) (c : float) :
  calculate_confidence dates = Return c ->
  In c CONFIDENCE_SCORES
  /\ PrimFloat.leb 0.35 c = true
  /\ (forall ts, to_datetime dates = Return ts -> days_of_data ts = None ->
        c = 0.35%float).
Proof.
  unfold calculate_confidence.
  destruct (to_datetime dates) as [ts|e]; [|discriminate]. simpl.
  intros Hc. inversion Hc as [Hc']. clear Hc.
  destruct (score_values (days_of_data ts) (length dates)) as [Hin Hle].
  split; [exact Hin|]. split; [exact Hle|].
  intros ts' Hts Hnone. inversion Hts; subst ts'. rewrite Hnone.
  vm_compute. reflexivity.
Qed.

End Confidence.

(** Two transactions 60 days apart: 0.59. *)
Lemma confidence_scores_witness :
  In 0.59%float CONFIDENCE_SCORES /\ PrimFloat.leb 0.35 0.59 = true.
Proof.
  destruct (@confidence_scores plain_pandas sixty_days 0.59%float) as (Hin & Hle & _).
  - vm_compute. reflexivity.
  - split; [exact Hin | exact Hle].
Defined.

(** ** The prediction *)

Lemma classify_risk_Return current_balance burn level days :
  classify_risk current_balance burn = Return (level, days) ->
  (PrimFloat.leb burn 0 = true /\ level = "stable" /\ days = None)
  \/ (PrimFloat.leb burn 0 = false
      /\ exists balance d,
           py_float current_balance = Return balance
           /\ int_of_float (balance / burn) = Return d
           /\ days = Some d /\ level = level_of d).
Proof.
  unfold classify_risk, level_of.
  destruct (PrimFloat.leb burn 0); [intros Hr; inversion Hr; auto|].
  destruct (py_float current_balance) as [balance|e] eqn:Hb; simpl; [|discriminate].
  destruct (int_of_float (balance / burn)) as [d|e] eqn:Hd; simpl; [|discriminate].
  intros Hr. right. split; [reflexivity|]. exists balance, d.
  split; [reflexivity|]. split; [exact Hd|].
  destruct (d <=? CRITICAL_THRESHOLD)%Z; [inversion Hr; auto|].
  destruct (d <=? WARNING_THRESHOLD)%Z; inversion Hr; auto.
Qed.

Lemma level_of_recognized d :
  level_of d = "critical" \/ level_of d = "warning" \/ level_of d = "ok".
Proof.
  unfold level_of. destruct (d <=? CRITICAL_THRESHOLD)%Z; auto.
  destruct (d <=? WARNING_THRESHOLD)%Z; auto.
Qed.

Section Prediction.
Context `{Pandas}.

(** A prediction that is returned, step by step. *)
Lemma predict_cashflow_risk_Return now transactions current_balance p :
  predict_cashflow_risk now transactions current_balance = Return p ->
  exists df confidence avg_income avg_expense level days,
    transactions <> []
    /\ is_number current_balance = true
    /\ check_required_fields transactions = Return df
    /\ invalid_rows df = []
    /\ calculate_confidence (column df "date") = Return confidence
    /\ average (List.filter (type_is "income") df) = Return avg_income
    /\ average (List.filter (type_is "expense") df) = Return avg_expense
    /\ classify_risk current_balance (avg_expense - avg_income) = Return (level, days)
    /\ p = Prediction level days
             (round_average (List.filter (type_is "income") df) avg_income)
             (round_average (List.filter (type_is "expense") df) avg_expense)
             (scalar_round2 (avg_expense - avg_income))
             confidence (generate_recommendations level) now.
Proof.
  unfold predict_cashflow_risk.
  destruct transactions as [|t rest]; [discriminate|].
  destruct (is_number current_balance) eqn:Hnum; [|discriminate]. cbn [negb].
  destruct (check_required_fields (t :: rest)) as [df|e] eqn:Hdf; [|discriminate].
  cbn [bind].
  destruct (invalid_rows df) eqn:Hinv; [|discriminate].
  destruct (calculate_confidence (column df "date")) as [confidence|e] eqn:Hconf;
    [|discriminate]. cbn [bind].
  destruct (average (List.filter (type_is "income") df)) as [avg_income|e] eqn:Hi;
    [|discriminate]. cbn [bind].
  destruct (average (List.filter (type_is "expense") df)) as [avg_expense|e] eqn:He;
    [|discriminate]. cbn [bind].
  destruct (classify_risk current_balance (avg_expense - avg_income))
    as [[level days]|e] eqn:Hrisk; [|discriminate]. cbn [bind].
  intros Hp. inversion Hp.
  exists df, confidence, avg_income, avg_expense, level, days.
  repeat split; try assumption; try reflexivity. discriminate.
Qed.

(** X19: the shape of every prediction.  Its level is one of the four
    the table of recommendations knows, and its recommendations are that
    level's, never the fallback; [days_until_broke] is [None] exactly for
    the level [stable], and otherwise the level is the one its days stand
    for (critical up to 30, warning up to 60, ok above); [created_at] is the
    reading of the clock; the confidence score is one of its seven values;
    and the transactions were not empty and the balance was a number. *)
Theorem prediction_shape (now : datetime) (transactions : list pyval)
    (current_balance : pyval) (p : prediction) :
  predict_cashflow_risk now transactions current_balance = Return p ->
  recognized (risk_level p)
  /\ recommendations p = generate_recommendations (risk_level p)
  /\ recommendations p <> fallback_recommendations
  /\ match days_until_broke p with
     | None => risk_level p = "stable"
     | Some d => risk_level p = level_of d /\ risk_level p <> "stable"
     end
  /\ created_at p = now
  /\ In (confidence_score p) CONFIDENCE_SCORES
  /\ transactions <> []
  /\ is_number current_balance = true.
Proof.
  intros Hp.
  apply predict_cashflow_risk_Return in Hp
    as (df & confidence & avg_income & avg_expense & level & days
        & Hne & Hnum & _ & _ & Hconf & _ & _ & Hrisk & ->).
  simpl.
  assert (Hin : In confidence CONFIDENCE_SCORES).
  { unfold calculate_confidence in Hconf.
    destruct (to_datetime (column df "date")) as [ts|e]; [|discriminate].
    simpl in Hconf. inversion Hconf. apply score_values. }
  apply classify_risk_Return in Hrisk
    as [(_ & -> & ->)|(_ & balance & d & _ & _ & -> & ->)].
  - repeat split; try assumption; try reflexivity.
    + unfold recognized. auto.
    + vm_compute. discriminate.
  - pose proof (level_of_recognized d) as Hd.
    repeat split; try assumption; try reflexivity.
    + unfold recognized. tauto.
    + destruct Hd as [-> |[-> | ->]]; vm_compute; discriminate.
    + destruct Hd as [-> |[-> | ->]]; discriminate.
Qed.

End Prediction.

(** An expense of 100 against an income of 40, and 1800 at hand. *)
Lemma prediction_shape_witness :
  exists p,
    @predict_cashflow_risk plain_pandas noon burning (PInt 1800) = Return p
    /\ recognized (risk_level p)
    /\ recommendations p <> fallback_recommendations
    /\ created_at p = noon.
Proof.
  destruct (@predict_cashflow_risk plain_pandas noon burning (PInt 1800))
    as [p|e] eqn:Hp; [|vm_compute in Hp; discriminate].
  destruct (@prediction_shape plain_pandas _ _ _ _ Hp)
    as (Hr & _ & Hf & _ & Hc & _).
  exists p. auto.
Defined.

(** ** The order of the checks *)

Lemma check_required_fields_first (transactions : list pyval) :
  forall (i : nat) t,
    transactions !! i = Some t ->
    (forall (j : nat) t', (j < i)%nat -> transactions !! j = Some t' ->
       is_dict t' = true /\ lacks_field t' = false) ->
    (is_dict t = false -> check_required_fields transactions = Raise AttributeError)
    /\ (lacks_field t = true -> check_required_fields transactions = Raise ValueError).
Proof.
  induction transactions as [|x rest IH]; intros i t Hi Hbefore; [discriminate|].
  destruct i as [|i]; simpl in Hi.
  - inversion Hi; subst x. split.
    + destruct t; simpl; try reflexivity. discriminate.
    + destruct t; simpl; try discriminate.
      destruct (missing_fields _); [discriminate | reflexivity].
  - destruct (Hbefore 0%nat x ltac:(lia) eq_refl) as [Hd Hl].
    destruct x; try discriminate. simpl in Hl |- *.
    destruct (missing_fields _); [|discriminate].
    assert (Hrest : forall (j : nat) t', (j < i)%nat -> rest !! j = Some t' ->
                      is_dict t' = true /\ lacks_field t' = false).
    { intros j t' Hj Ht'. apply (Hbefore (S j)); [lia | exact Ht']. }
    destruct (IH _ _ Hi Hrest) as [Ha Hv].
    split; intros Ht; [rewrite (Ha Ht) | rewrite (Hv Ht)]; reflexivity.
Qed.

Section Checks.
Context `{Pandas}.

(** X20: the checks of [predict_cashflow_risk] in their order, each with
    its exception.  An empty list raises [ValueError] whatever the balance
    is; for a list that is not empty, a balance that is not a number raises
    [TypeError] whatever the transactions are; then the first transaction
    that is not a dict raises [AttributeError] and the first that lacks a
    required field raises [ValueError]; and when every transaction is a
    dict with its fields and a type that can be hashed, one type other than
    [income] and [expense] raises [ValueError].  None of this depends on
    what the library computes. *)
Theorem checks_in_order (now : datetime) (transactions : list pyval)
    (current_balance : pyval) :
  (transactions = [] ->
   predict_cashflow_risk now transactions current_balance = Raise ValueError)
  /\ (transactions <> [] -> is_number current_balance = false ->
      predict_cashflow_risk now transactions current_balance = Raise TypeError)
  /\ (is_number current_balance = true ->
      forall (i : nat) t,
        transactions !! i = Some t ->
        (forall (j : nat) t', (j < i)%nat -> transactions !! j = Some t' ->
           is_dict t' = true /\ lacks_field t' = false) ->
        (is_dict t = false ->
         predict_cashflow_risk now transactions current_balance
         = Raise AttributeError)
        /\ (lacks_field t = true ->
            predict_cashflow_risk now transactions current_balance
            = Raise ValueError))
  /\ (transactions <> [] -> is_number current_balance = true ->
      Forall (fun t => hashable_type t = true) transactions ->
      existsb lacks_field transactions = false ->
      existsb out_of_domain_type transactions = true ->
      predict_cashflow_risk now transactions current_balance = Raise ValueError).
Proof.
  unfold predict_cashflow_risk.
  split; [intros ->; reflexivity|].
  split; [intros Hne Hnum; destruct transactions; [congruence|];
          rewrite Hnum; reflexivity|].
  split.
  - intros Hnum i t Hi Hbefore.
    destruct (check_required_fields_first _ _ _ Hi Hbefore) as [Ha Hv].
    destruct transactions as [|x rest]; [discriminate|].
    rewrite Hnum. cbn [negb].
    split; intros Ht; [rewrite (Ha Ht) | rewrite (Hv Ht)]; reflexivity.
  - intros Hne Hnum Hhash Hfields Htypes.
    assert (Hdicts : Forall (fun t => is_dict t = true) transactions).
    { eapply Forall_impl; [exact Hhash|]. intros t Ht. destruct t; auto. }
    destruct transactions as [|x rest]; [congruence|].
    rewrite Hnum. cbn [negb].
    rewrite (check_required_fields_dicts _ Hdicts), Hfields. cbn [bind].
    destruct (invalid_rows (rows_of (x :: rest))) eqn:Hinv; [|reflexivity].
    apply (invalid_rows_dicts _ Hdicts) in Hinv. congruence.
Qed.

End Checks.

(** A number where the second transaction should be, and a type with a
    capital letter. *)
Lemma checks_in_order_witness :
  @predict_cashflow_risk plain_pandas noon not_a_transaction (PInt 100)
    = Raise AttributeError
  /\ @predict_cashflow_risk plain_pandas noon capitalised_type (PInt 100)
     = Raise ValueError.
Proof.
  split.
  - apply (proj1 (proj2 (proj2 (@checks_in_order plain_pandas noon
                                  not_a_transaction (PInt 100))))
             eq_refl 1%nat (PInt 3) eq_refl).
    + intros [|j] t' Hj Ht'; [|lia]. inversion Ht'; subst.
      split; vm_compute; reflexivity.
    + reflexivity.
  - apply (proj2 (proj2 (proj2 (@checks_in_order plain_pandas noon
                                  capitalised_type (PInt 100))))).
    + discriminate.
    + reflexivity.
    + repeat constructor.
    + vm_compute. reflexivity.
    + vm_compute. reflexivity.
Defined.

(** ** The balance *)

(** A balance that is an infinity or NaN, divided by anything, is an
    infinity or NaN. *)
Lemma div_non_finite (b burn : float) :
  isfinite b = false -> isfinite (b / burn) = false.
Proof.
  unfold isfinite. rewrite FloatAxioms.div_spec.
  destruct (Prim2SF b) as [s|s| |s m e]; try discriminate; intros _.
  - destruct (Prim2SF burn); reflexivity.
  - reflexivity.
Qed.

Lemma int_of_float_non_finite (x : float) :
  isfinite x = false ->
  int_of_float x = Raise OverflowError \/ int_of_float x = Raise ValueError.
Proof.
  unfold isfinite, int_of_float.
  destruct (Prim2SF x); try discriminate; auto.
Qed.

Lemma classify_risk_bool (b : bool) burn :
  classify_risk (PBool b) burn = classify_risk (PInt (Z.b2z b)) burn.
Proof.
  unfold classify_risk.
  replace (py_float (PInt (Z.b2z b))) with (py_float (PBool b));
    [reflexivity | destruct b; vm_compute; reflexivity].
Qed.

Section Balance.
Context `{Pandas}.

(** X21: a balance that is an infinity or NaN passes the check for a
    number, and it gives no days: once the burn rate is not [<= 0], the
    conversion of the quotient to an integer raises [OverflowError] or
    [ValueError], so a prediction that is returned for such a balance is
    [stable]. *)
Theorem non_finite_balance (now : datetime) (transactions : list pyval) (b : float) :
  isfinite b = false ->
  is_number (PFloat b) = true
  /\ (forall burn, PrimFloat.leb burn 0 = false ->
        classify_risk (PFloat b) burn = Raise OverflowError
        \/ classify_risk (PFloat b) burn = Raise ValueError)
  /\ (forall p,
        predict_cashflow_risk now transactions (PFloat b) = Return p ->
        risk_level p = "stable" /\ days_until_broke p = None).
Proof.
  intros Hb. split; [reflexivity|].
  assert (Hraise : forall burn, PrimFloat.leb burn 0 = false ->
            classify_risk (PFloat b) burn = Raise OverflowError
            \/ classify_risk (PFloat b) burn = Raise ValueError).
  { intros burn Hburn. unfold classify_risk. rewrite Hburn. simpl.
    destruct (int_of_float_non_finite _ (div_non_finite b burn Hb)) as [-> | ->];
      auto. }
  split; [exact Hraise|].
  intros p Hp.
  apply predict_cashflow_risk_Return in Hp
    as (df & confidence & avg_income & avg_expense & level & days
        & _ & _ & _ & _ & _ & _ & _ & Hrisk & ->).
  simpl.
  destruct (PrimFloat.leb (avg_expense - avg_income) 0) eqn:Hburn.
  - rewrite (classify_risk_stable _ _ Hburn) in Hrisk. inversion Hrisk. auto.
  - destruct (Hraise _ Hburn) as [Hr|Hr]; rewrite Hr in Hrisk; discriminate.
Qed.

(** X22: a [stable] prediction does not depend on the balance: the
    balance is read only when the burn rate is above zero, so every other
    number for the balance gives the same prediction. *)
Theorem stable_whatever_the_balance (now : datetime) (transactions : list pyval)
    (current_balance other_balance : pyval) (p : prediction) :
  predict_cashflow_risk now transactions current_balance = Return p ->
  risk_level p = "stable" ->
  is_number other_balance = true ->
  predict_cashflow_risk now transactions other_balance = Return p.
Proof.
  intros Hp Hstable Hnum.
  apply predict_cashflow_risk_Return in Hp
    as (df & confidence & avg_income & avg_expense & level & days
        & Hne & _ & Hdf & Hinv & Hconf & Hi & He & Hrisk & ->).
  simpl in Hstable. subst level.
  apply classify_risk_Return in Hrisk
    as [(Hburn & _ & ->)|(_ & balance & d & _ & _ & _ & Hlevel)].
  - apply predict_cashflow_risk_steps; try assumption.
    apply classify_risk_stable. exact Hburn.
  - destruct (level_of_recognized d) as [Hd|[Hd|Hd]]; rewrite Hd in Hlevel;
      discriminate.
Qed.

(** X23: a boolean balance counts as a number: [True] is the balance 1
    and [False] the balance 0. *)
Theorem boolean_balance (now : datetime) (transactions : list pyval) (b : bool) :
  predict_cashflow_risk now transactions (PBool b)
  = predict_cashflow_risk now transactions (PInt (Z.b2z b)).
Proof.
  unfold predict_cashflow_risk.
  destruct transactions as [|t rest]; [reflexivity|]. cbn [is_number negb].
  destruct (check_required_fields (t :: rest)) as [df|e]; [|reflexivity].
  cbn [bind].
  destruct (invalid_rows df); [|reflexivity].
  destruct (calculate_confidence (column df "date")); [|reflexivity]. cbn [bind].
  destruct (average (List.filter (type_is "income") df)); [|reflexivity].
  cbn [bind].
  destruct (average (List.filter (type_is "expense") df)); [|reflexivity].
  cbn [bind].
  rewrite classify_risk_bool. reflexivity.
Qed.

End Balance.

(** An infinite balance against a burn rate of 60. *)
Lemma non_finite_balance_witness :
  is_number (PFloat infinity) = true
  /\ (classify_risk (PFloat infinity) 60 = Raise OverflowError
      \/ classify_risk (PFloat infinity) 60 = Raise ValueError).
Proof.
  destruct (@non_finite_balance plain_pandas noon burning infinity eq_refl)
    as (Hnum & Hraise & _).
  split; [exact Hnum|]. apply Hraise. vm_compute. reflexivity.
Defined.

(** An income above the expense: stable with nothing at hand, and with a
    debt. *)
Lemma stable_whatever_the_balance_witness :
  @predict_cashflow_risk plain_pandas noon earning (PInt (-500))
  = @predict_cashflow_risk plain_pandas noon earning (PInt 0).
Proof.
  destruct (@predict_cashflow_risk plain_pandas noon earning (PInt 0))
    as [p|e] eqn:Hp; [|vm_compute in Hp; discriminate].
  apply (@stable_whatever_the_balance plain_pandas noon earning (PInt 0) (PInt (-500)) p Hp).
  - vm_compute in Hp. inversion Hp. reflexivity.
  - reflexivity.
Defined.

(** ** One-sided histories *)

Lemma check_required_fields_Return (transactions : list pyval) :
  forall df, check_required_fields transactions = Return df -> df = rows_of transactions.
Proof.
  induction transactions as [|t rest IH]; intros df Hdf; simpl in *.
  - inversion Hdf. reflexivity.
  - destruct t; simpl in *; try discriminate.
    destruct (missing_fields _); [|discriminate].
    destruct (check_required_fields rest) as [ds|e]; simpl in *; [|discriminate].
    inversion Hdf. rewrite (IH ds eq_refl). reflexivity.
Qed.

(** Subtracting zero changes nothing. *)
Lemma float_sub_0_r (x : float) : (x - 0)%float = x.
Proof.
  apply Prim2SF_inj. rewrite FloatAxioms.sub_spec.
  change (Prim2SF 0) with (S754_zero false).
  destruct (Prim2SF x) as [s|s| |s m e]; try reflexivity.
  destruct s; reflexivity.
Qed.

(** Zero minus a number that is not below zero is not above zero. *)
Lemma zero_sub_leb (x : float) :
  PrimFloat.leb 0 x = true -> PrimFloat.leb (0 - x) 0 = true.
Proof.
  rewrite !FloatAxioms.leb_spec, FloatAxioms.sub_spec.
  change (Prim2SF 0) with (S754_zero false).
  destruct (Prim2SF x) as [s|s| |s m e]; try discriminate.
  - destruct s; reflexivity.
  - destruct s; [discriminate | reflexivity].
  - destruct s; [discriminate | reflexivity].
Qed.

Section OneSided.
Context `{Pandas}.

(** X24: a history without expenses.  When no transaction is an expense
    and the mean of the incomes is not below zero, a prediction that is
    returned is [stable] with no [days_until_broke], whatever the balance,
    and its average expense is 0.0. *)
Theorem history_without_expenses (now : datetime) (transactions : list pyval)
    (current_balance : pyval) (p : prediction) (avg_income : float) :
  predict_cashflow_risk now transactions current_balance = Return p ->
  List.filter (type_is "expense") (rows_of transactions) = [] ->
  average (List.filter (type_is "income") (rows_of transactions)) = Return avg_income ->
  PrimFloat.leb 0 avg_income = true ->
  risk_level p = "stable"
  /\ days_until_broke p = None
  /\ avg_daily_expense p = 0%float
  /\ burn_rate p = scalar_round2 (0 - avg_income).
Proof.
  intros Hp Hnone Havg Hpos.
  apply predict_cashflow_risk_Return in Hp
    as (df & confidence & avg_i & avg_e & level & days
        & _ & _ & Hdf & _ & _ & Hi & He & Hrisk & ->).
  apply check_required_fields_Return in Hdf. subst df.
  rewrite Havg in Hi. inversion Hi; subst avg_i.
  rewrite Hnone in He |- *. simpl in He. inversion He; subst avg_e.
  rewrite (classify_risk_stable _ _ (zero_sub_leb _ Hpos)) in Hrisk.
  inversion Hrisk. simpl. repeat split; reflexivity.
Qed.

(** X25: a history without incomes.  When no transaction is an income,
    the average income is 0.0 and the burn rate is the mean of the expenses
    itself, before rounding: the prediction is [stable] exactly when that
    mean is [<= 0]. *)
Theorem history_without_incomes (now : datetime) (transactions : list pyval)
    (current_balance : pyval) (p : prediction) (avg_expense : float) :
  predict_cashflow_risk now transactions current_balance = Return p ->
  List.filter (type_is "income") (rows_of transactions) = [] ->
  average (List.filter (type_is "expense") (rows_of transactions)) = Return avg_expense ->
  avg_daily_income p = 0%float
  /\ burn_rate p = scalar_round2 avg_expense
  /\ (risk_level p = "stable" <-> PrimFloat.leb avg_expense 0 = true)
  /\ classify_risk current_balance avg_expense
     = Return (risk_level p, days_until_broke p).
Proof.
  intros Hp Hnone Havg.
  apply predict_cashflow_risk_Return in Hp
    as (df & confidence & avg_i & avg_e & level & days
        & _ & _ & Hdf & _ & _ & Hi & He & Hrisk & ->).
  apply check_required_fields_Return in Hdf. subst df.
  rewrite Havg in He. inversion He; subst avg_e.
  rewrite Hnone in Hi |- *. simpl in Hi. inversion Hi; subst avg_i.
  rewrite float_sub_0_r in Hrisk |- *. simpl.
  split; [reflexivity|]. split; [reflexivity|]. split; [|exact Hrisk].
  apply classify_risk_Return in Hrisk
    as [(Hburn & -> & _)|(Hburn & balance & d & _ & _ & _ & ->)].
  - tauto.
  - rewrite Hburn. split; [|discriminate].
    destruct (level_of_recognized d) as [-> |[-> | ->]]; discriminate.
Qed.

End OneSided.

(** A single income of 40 and a debt of 500. *)
Lemma history_without_expenses_witness :
  exists p,
    @predict_cashflow_risk plain_pandas noon one_income (PInt (-500)) = Return p
    /\ risk_level p = "stable"
    /\ days_until_broke p = None.
Proof.
  destruct (@predict_cashflow_risk plain_pandas noon one_income (PInt (-500)))
    as [p|e] eqn:Hp; [|vm_compute in Hp; discriminate].
  destruct (@history_without_expenses plain_pandas _ _ _ _ 40%float Hp)
    as (Hs & Hd & _); try (vm_compute; reflexivity).
  exists p. auto.
Defined.

(** A single expense of 100 and 1000 at hand: ten days. *)
Lemma history_without_incomes_witness :
  exists p,
    @predict_cashflow_risk plain_pandas noon one_expense (PInt 1000) = Return p
    /\ avg_daily_income p = 0%float
    /\ classify_risk (PInt 1000) 100 = Return (risk_level p, days_until_broke p).
Proof.
  destruct (@predict_cashflow_risk plain_pandas noon one_expense (PInt 1000))
    as [p|e] eqn:Hp; [|vm_compute in Hp; discriminate].
  destruct (@history_without_incomes plain_pandas _ _ _ _ 100%float Hp)
    as (Hi & _ & _ & Hc); try (vm_compute; reflexivity).
  exists p. auto.
Defined.

(** ** Levels *)

(** X26: the level of a number of days: [critical] up to 30, [warning]
    from 31 to 60 and [ok] above, each exactly, and never [stable]; more
    days never give a more urgent level. *)
Theorem levels_partition_and_order (days days' : Z) :
  (level_of days = "critical" <-> days <= 30)
  /\ (level_of days = "warning" <-> 30 < days <= 60)
  /\ (level_of days = "ok" <-> 60 < days)
  /\ level_of days <> "stable"
  /\ (days <= days' -> urgency (level_of days') <= urgency (level_of days)).
Proof.
  unfold level_of, CRITICAL_THRESHOLD, WARNING_THRESHOLD.
  destruct (Z.leb_spec days 30); [|destruct (Z.leb_spec days 60)];
    (split; [split; [try discriminate; lia | intros; try reflexivity; lia]|]);
    (split; [split; [try discriminate; lia | intros; try reflexivity; lia]|]);
    (split; [split; [try discriminate; lia | intros; try reflexivity; lia]|]);
    (split; [discriminate|]);
    intros Hle;
    destruct (Z.leb_spec days' 30); try lia;
    try (destruct (Z.leb_spec days' 60); try lia);
    vm_compute; discriminate.
Qed.

(** From 30 days to 31: critical to warning. *)
Lemma levels_partition_and_order_witness :
  urgency (level_of 31) <= urgency (level_of 30).
Proof.
  apply (proj2 (proj2 (proj2 (proj2 (levels_partition_and_order 30 31))))). lia.
Defined.

(** ** The sign of the days *)

(** The integer part of a quotient by a burn rate that is not [<= 0]: not
    negative when the balance is not, not positive when the balance is
    below zero. *)
Lemma days_sign (b burn : float) (d : Z) :
  PrimFloat.leb burn 0 = false ->
  int_of_float (b / burn) = Return d ->
  (PrimFloat.leb 0 b = true -> 0 <= d) /\ (PrimFloat.ltb b 0 = true -> d <= 0).
Proof.
  unfold int_of_float.
  rewrite !FloatAxioms.leb_spec, FloatAxioms.ltb_spec, FloatAxioms.div_spec.
  unfold SFleb, SFltb. change (Prim2SF 0) with (S754_zero false).
  assert (Hv : forall (m : positive) (e : Z),
            0 <= (if (0 <=? e)%Z then Z.pos m * 2 ^ e else Z.pos m / 2 ^ (- e))).
  { intros m e. destruct (Z.leb_spec 0 e).
    - apply Z.mul_nonneg_nonneg; [lia | apply Z.pow_nonneg; lia].
    - apply Z.div_pos; [lia | apply Z.pow_pos_nonneg; lia]. }
  destruct (Prim2SF b) as [sb|sb| |sb mb eb];
    destruct (Prim2SF burn) as [sy|sy| |sy my ey];
    simpl; try discriminate;
    try (destruct sy; simpl; try discriminate);
    try (intros _ Hd; inversion Hd; subst; split; intros; lia).
  intros _.
  destruct (SFdiv_core_binary prec emax (Z.pos mb) eb (Z.pos my) ey) as [[mz ez] lz].
  pose proof (binary_round_aux_sign (xorb sb false) mz ez lz) as Hs.
  destruct (binary_round_aux prec emax (xorb sb false) mz ez lz) as [s|s| |s m e];
    try discriminate.
  - intros Hd; inversion Hd; subst; split; intros; lia.
  - subst s. intros Hd. inversion Hd; subst d. specialize (Hv m e).
    destruct sb; simpl; split; try discriminate; intros; lia.
Qed.

Section Sign.
Context `{Pandas}.

(** X27: the sign of [days_until_broke] follows the balance.  When a
    prediction has its days and the balance is not below zero, the days are
    not negative; when the balance is below zero, the days are not positive
    and the level is [critical]. *)
Theorem days_follow_the_balance (now : datetime) (transactions : list pyval)
    (current_balance : pyval) (p : prediction) (balance : float) (d : Z) :
  predict_cashflow_risk now transactions current_balance = Return p ->
  days_until_broke p = Some d ->
  py_float current_balance = Return balance ->
  (PrimFloat.leb 0 balance = true -> 0 <= d)
  /\ (PrimFloat.ltb balance 0 = true -> d <= 0 /\ risk_level p = "critical").
Proof.
  intros Hp Hd Hb.
  apply predict_cashflow_risk_Return in Hp
    as (df & confidence & avg_income & avg_expense & level & days
        & _ & _ & _ & _ & _ & _ & _ & Hrisk & ->).
  simpl in Hd |- *. subst days.
  apply classify_risk_Return in Hrisk
    as [(_ & _ & Hnone)|(Hburn & balance' & d' & Hb' & Hint & Hsome & ->)];
    [discriminate|].
  inversion Hsome; subst d'. rewrite Hb in Hb'. inversion Hb'; subst balance'.
  destruct (days_sign _ _ _ Hburn Hint) as [Hpos Hneg].
  split; [exact Hpos|].
  intros Hlt. specialize (Hneg Hlt). split; [exact Hneg|].
  unfold level_of, CRITICAL_THRESHOLD.
  destruct (Z.leb_spec d 30); [reflexivity | lia].
Qed.

End Sign.

(** A debt of 500 against a burn rate of 60. *)
Lemma days_follow_the_balance_witness :
  exists p,
    @predict_cashflow_risk plain_pandas noon burning (PInt (-500)) = Return p
    /\ days_until_broke p = Some (-8)
    /\ risk_level p = "critical".
Proof.
  destruct (@predict_cashflow_risk plain_pandas noon burning (PInt (-500)))
    as [p|e] eqn:Hp; [|vm_compute in Hp; discriminate].
  assert (Hd : days_until_broke p = Some (-8))
    by (vm_compute in Hp; inversion Hp; reflexivity).
  destruct (@days_follow_the_balance plain_pandas _ _ _ _ (-500)%float (-8) Hp Hd)
    as [_ Hneg]; [vm_compute; reflexivity|].
  exists p. split; [reflexivity|]. split; [exact Hd|].
  apply Hneg. vm_compute. reflexivity.
Defined.

End CashflowExtras.
